(** * Channel liveness and heartbeat of the drops miner

    A shallow embedding of [channel.py]: the [Stream] snapshot, the
    [Channel] object with its liveness state, the spade URL scrape, the
    memoized heartbeat payload and the heartbeat sender, followed by the
    properties of the specification that concern them.

    Conventions.
    - Python [int] is [Z]; [bytes] is [list byte].  A [str] that the
      program itself makes or takes from a JSON answer is [string], read as a
      sequence of code points below 256; the text of a page or script, and a
      URL cut out of one, is [ustr], a list of code points of any size.
    - A Python object that is mutated in place is a record that is threaded
      through a state and exception monad [M].
    - Collaborators ([Twitch], the GUI list, the event loop) are seen through
      the calls the channel makes on them: every call is appended to a trace,
      and what a call answers is given by the [Twitch] record.
    - A coroutine is run from its first line to its [return]; what other
      tasks do while it is suspended is not part of its definition.  The
      delayed confirmation task is a coroutine of its own, [_online_delay].
    - Left out: [claim_bonus], which needs a collaborator call
      ([claim_points]) that [Twitch] does not carry, and the calls to the
      logger. *)

From Stdlib Require Import ZArith NArith List String Ascii Bool Lia.
From Stdlib Require Import Decimal DecimalFacts DecimalString DecimalN DecimalZ.
From Stdlib.Strings Require Byte.
Import ListNotations.

Local Open Scope Z_scope.
Local Open Scope list_scope.
Local Open Scope string_scope.

(* ================================================================== *)
(** * Python values *)

(** The exceptions that the module raises or lets through. *)
Inductive Exn : Type :=
| AssertionError
| KeyError (key : string)
| TypeError
| ValueError
| MinerException (msg : string)
| RequestException
| OtherException (name : string).

Inductive Result (A : Type) : Type :=
| Ok (a : A)
| Raise (e : Exn).
Arguments Ok {A} a.
Arguments Raise {A} e.

Definition rbind {A B : Type} (r : Result A) (f : A -> Result B) : Result B :=
  match r with
  | Ok a => f a
  | Raise e => Raise e
  end.

Notation "'do' x <- a ; b" := (rbind a (fun x => b))
  (at level 10, x name, a at level 100, b at level 200).

Set Warnings "-register-all".

(** [JsonType]: what [json.loads] builds and [json.dumps] accepts, without
    floating point numbers.  A dict keeps its insertion order. *)
Inductive JsonType : Type :=
| JNull
| JBool (b : bool)
| JInt (z : Z)
| JStr (s : string)
| JList (l : list JsonType)
| JObj (kvs : list (string * JsonType)).

(** The double quote character and the one character string made of it. *)
Definition dquote : ascii := "034"%char.
Definition DQ : string := String dquote EmptyString.

(** Truth value testing: [if x], [if not x]. *)
Definition truthy (v : JsonType) : bool :=
  match v with
  | JNull => false
  | JBool b => b
  | JInt z => negb (z =? 0)%Z
  | JStr s => match s with EmptyString => false | _ => true end
  | JList l => match l with [] => false | _ => true end
  | JObj kvs => match kvs with [] => false | _ => true end
  end.

Fixpoint dict_get (kvs : list (string * JsonType)) (k : string) : option JsonType :=
  match kvs with
  | [] => None
  | (k', v) :: rest => if (k' =? k)%string then Some v else dict_get rest k
  end.

(** Subscription [v[k]] with a string key. *)
Definition getitem (v : JsonType) (k : string) : Result JsonType :=
  match v with
  | JObj kvs =>
      match dict_get kvs k with
      | Some x => Ok x
      | None => Raise (KeyError k)
      end
  | _ => Raise TypeError
  end.

(** [dict.get(k)], which answers [None] for a missing key. *)
Definition dict_get_default (v : JsonType) (k : string) : Result JsonType :=
  match v with
  | JObj kvs =>
      match dict_get kvs k with
      | Some x => Ok x
      | None => Ok JNull
      end
  | _ => Raise (OtherException "AttributeError")
  end.

(** Iteration [for t in v]. *)
Definition py_iter (v : JsonType) : Result (list JsonType) :=
  match v with
  | JList l => Ok l
  | JObj kvs => Ok (map (fun kv => JStr (fst kv)) kvs)
  | JStr s => Ok (map (fun c => JStr (String c EmptyString)) (list_ascii_of_string s))
  | _ => Raise TypeError
  end.

(** [v == s] for a string [s]: only an equal string compares equal. *)
Definition py_eq_str (v : JsonType) (s : string) : bool :=
  match v with
  | JStr x => (x =? s)%string
  | _ => false
  end.

(* ================================================================== *)
(** * The Python library functions the module calls *)

(** ** [str(n)] and [int(x)] *)

(** Decimal rendering of an integer, as [str] and [json.dumps] print it. *)
Definition str_of_Z (z : Z) : string := NilZero.string_of_int (Z.to_int z).

Definition is_digit (c : ascii) : bool :=
  let n := N_of_ascii c in ((48 <=? n) && (n <=? 57))%N.

Definition digit_val (c : ascii) : Z := Z.of_N (N_of_ascii c) - 48.

(** The white space that [int] strips from both ends of a string: the
    white space of ASCII, U+0085 and U+00A0.  (U+001C to U+001F are white
    space to [str.isspace] but not to [int].) *)
Definition is_space (c : ascii) : bool :=
  let n := N_of_ascii c in
  ((9 <=? n) && (n <=? 13) || (n =? 32) || (n =? 133) || (n =? 160))%N.

Fixpoint lstrip (s : list ascii) : list ascii :=
  match s with
  | c :: s' => if is_space c then lstrip s' else s
  | [] => []
  end.

Definition strip (s : list ascii) : list ascii :=
  List.rev (lstrip (List.rev (lstrip s))).

(** Digits with single underscores between them; [prev] tells whether the
    character before was a digit. *)
Fixpoint int_digits (s : list ascii) (acc : Z) (prev : bool) : option Z :=
  match s with
  | [] => if prev then Some acc else None
  | c :: s' =>
      if is_digit c then int_digits s' (acc * 10 + digit_val c) true
      else if (c =? "_")%char && prev then int_digits s' acc false
      else None
  end.

(** [int(s)] for a string: white space around, an optional sign, decimal
    digits. *)
Definition int_of_str (s : string) : option Z :=
  match strip (list_ascii_of_string s) with
  | "-"%char :: ds => option_map Z.opp (int_digits ds 0 false)
  | "+"%char :: ds => int_digits ds 0 false
  | ds => int_digits ds 0 false
  end.

(** [int(x)] on a value taken from a response. *)
Definition py_int (v : JsonType) : Result Z :=
  match v with
  | JInt z => Ok z
  | JBool b => Ok (if b then 1 else 0)
  | JStr s =>
      match int_of_str s with
      | Some z => Ok z
      | None => Raise ValueError
      end
  | _ => Raise TypeError
  end.

(** ** [json.dumps(v, separators=(",", ":"))] *)

Definition hex_digit (n : N) : ascii :=
  nth (N.to_nat n) (list_ascii_of_string "0123456789abcdef") "0"%char.

(** One character of a string literal, with [ensure_ascii] left at its
    default: quote, backslash and everything outside [' '..'~'] is escaped. *)
Definition escape_char (c : ascii) : string :=
  let n := N_of_ascii c in
  if (n =? 34)%N then String "\" DQ
  else if (n =? 92)%N then "\\"
  else if (n =? 10)%N then "\n"
  else if (n =? 13)%N then "\r"
  else if (n =? 9)%N then "\t"
  else if (n =? 8)%N then "\b"
  else if (n =? 12)%N then "\f"
  else if ((n <? 32) || (126 <? n))%N then
    "\u00" ++ String (hex_digit (n / 16)) (String (hex_digit (n mod 16)) EmptyString)
  else String c EmptyString.

Fixpoint escape_body (s : string) : string :=
  match s with
  | EmptyString => EmptyString
  | String c s' => escape_char c ++ escape_body s'
  end.

Definition encode_basestring_ascii (s : string) : string :=
  DQ ++ escape_body s ++ DQ.

Fixpoint dumps (v : JsonType) : string :=
  match v with
  | JNull => "null"
  | JBool true => "true"
  | JBool false => "false"
  | JInt z => str_of_Z z
  | JStr s => encode_basestring_ascii s
  | JList l =>
      "[" ++
      (fix items (l : list JsonType) : string :=
         match l with
         | [] => EmptyString
         | [x] => dumps x
         | x :: l' => dumps x ++ "," ++ items l'
         end) l ++ "]"
  | JObj kvs =>
      "{" ++
      (fix members (kvs : list (string * JsonType)) : string :=
         match kvs with
         | [] => EmptyString
         | [(k, x)] => encode_basestring_ascii k ++ ":" ++ dumps x
         | (k, x) :: kvs' =>
             encode_basestring_ascii k ++ ":" ++ dumps x ++ "," ++ members kvs'
         end) kvs ++ "}"
  end.

(** ** [str.encode("utf8")], [bytes.decode("utf8")] *)

Definition byte_of_N (n : N) : Byte.byte :=
  match Byte.of_N (n mod 256) with
  | Some b => b
  | None => Byte.x00
  end.

Definition utf8_char (c : ascii) : list Byte.byte :=
  let n := N_of_ascii c in
  if (n <? 128)%N then [byte_of_N n]
  else [byte_of_N (192 + n / 64); byte_of_N (128 + n mod 64)].

Fixpoint encode_utf8 (s : string) : list Byte.byte :=
  match s with
  | EmptyString => []
  | String c s' => (utf8_char c ++ encode_utf8 s')%list
  end.

(** Decoding yields [None] for a sequence that is not UTF-8, and for a code
    point above 255, which [string] cannot hold. *)
Fixpoint decode_utf8 (bs : list Byte.byte) : option string :=
  match bs with
  | [] => Some EmptyString
  | b :: rest =>
      let n := Byte.to_N b in
      if (n <? 128)%N then option_map (String (ascii_of_N n)) (decode_utf8 rest)
      else if ((n =? 194) || (n =? 195))%N then
        match rest with
        | b' :: rest' =>
            let m := Byte.to_N b' in
            if ((128 <=? m) && (m <? 192))%N
            then option_map (String (ascii_of_N ((n - 192) * 64 + (m - 128))))
                            (decode_utf8 rest')
            else None
        | [] => None
        end
      else None
  end.

(** ** [base64.b64encode] *)

Definition b64_alphabet : string :=
  "ABCDEFGHIJKLMNOPQRSTUVWXYZabcdefghijklmnopqrstuvwxyz0123456789+/".

Definition b64_pad : Byte.byte := byte_of_ascii "="%char.

Definition b64_sym (i : N) : Byte.byte :=
  byte_of_ascii (nth (N.to_nat i) (list_ascii_of_string b64_alphabet) "="%char).

Fixpoint b64encode (s : list Byte.byte) : list Byte.byte :=
  match s with
  | [] => []
  | [a] =>
      let n := (Byte.to_N a * 65536)%N in
      [b64_sym (n / 262144); b64_sym ((n / 4096) mod 64); b64_pad; b64_pad]
  | [a; b] =>
      let n := (Byte.to_N a * 65536 + Byte.to_N b * 256)%N in
      [b64_sym (n / 262144); b64_sym ((n / 4096) mod 64);
       b64_sym ((n / 64) mod 64); b64_pad]
  | a :: b :: c :: rest =>
      let n := (Byte.to_N a * 65536 + Byte.to_N b * 256 + Byte.to_N c)%N in
      b64_sym (n / 262144) :: b64_sym ((n / 4096) mod 64)
        :: b64_sym ((n / 64) mod 64) :: b64_sym (n mod 64) :: b64encode rest
  end.

(** ** Text of any code point

    A page or a script that comes from the web is a [str] that may hold any
    code point, and so is a URL that is cut out of one.  Such text is a list
    of code points. *)

Definition ustr : Type := list N.

Fixpoint ustr_of_string (s : string) : ustr :=
  match s with
  | EmptyString => []
  | String c s' => N_of_ascii c :: ustr_of_string s'
  end.

Fixpoint ustr_eqb (a b : ustr) : bool :=
  match a, b with
  | [], [] => true
  | x :: a', y :: b' => (x =? y)%N && ustr_eqb a' b'
  | _, _ => false
  end.

(** ** [re.search(pattern, text, flags)]

    The fragment of the pattern language that the module uses: literal
    text, a character set, the quantifiers [?], [+] and [{n}] on a single
    character or set, and one capture group that every match goes through.
    The characters of a pattern are code points below 256; the text searched
    is of any code points.  Matching is by backtracking, greedy quantifiers
    first, at the leftmost position that matches. *)

Inductive set_item : Type :=
| SChar (c : ascii)
| SRange (lo hi : ascii)
| SWord.                        (* \w *)

Inductive atom : Type :=
| AChr (c : ascii)
| ASet (items : list set_item).

Inductive regex : Type :=
| Lit (s : string)
| Opt (a : atom)
| Plus (a : atom)
| Rep (n : nat) (a : atom)
| Cat (r1 r2 : regex).

(** [before(group)after] *)
Record pattern : Type := { before : regex; group : regex; after : regex }.

(** The flags of a search: none, [re.I], or [re.I | re.A]. *)
Inductive Flags : Type :=
| NoFlags
| RE_I
| RE_I_A.

(** [str.isalnum]: the ranges of the code points that are alphabetic,
    decimal, digit or numeric in the Unicode database that CPython 3.11
    carries (14.0.0). *)
Definition alnum_ranges : list (N * N) :=
  (
  [(48, 57); (65, 90); (97, 122); (170, 170); (178, 179); (181, 181);
   (185, 186); (188, 190); (192, 214); (216, 246); (248, 705); (710, 721);
   (736, 740); (748, 748); (750, 750); (880, 884); (886, 887); (890, 893);
   (895, 895); (902, 902); (904, 906); (908, 908); (910, 929); (931, 1013);
   (1015, 1153); (1162, 1327); (1329, 1366); (1369, 1369); (1376, 1416);
   (1488, 1514); (1519, 1522); (1568, 1610); (1632, 1641); (1646, 1647);
   (1649, 1747); (1749, 1749); (1765, 1766); (1774, 1788); (1791, 1791);
   (1808, 1808); (1810, 1839); (1869, 1957); (1969, 1969); (1984, 2026);
   (2036, 2037); (2042, 2042); (2048, 2069); (2074, 2074); (2084, 2084);
   (2088, 2088); (2112, 2136); (2144, 2154); (2160, 2183); (2185, 2190);
   (2208, 2249); (2308, 2361); (2365, 2365); (2384, 2384); (2392, 2401);
   (2406, 2415); (2417, 2432); (2437, 2444); (2447, 2448); (2451, 2472);
   (2474, 2480); (2482, 2482); (2486, 2489); (2493, 2493); (2510, 2510);
   (2524, 2525); (2527, 2529); (2534, 2545); (2548, 2553); (2556, 2556);
   (2565, 2570); (2575, 2576); (2579, 2600); (2602, 2608); (2610, 2611);
   (2613, 2614); (2616, 2617); (2649, 2652); (2654, 2654); (2662, 2671);
   (2674, 2676); (2693, 2701); (2703, 2705); (2707, 2728); (2730, 2736);
   (2738, 2739); (2741, 2745); (2749, 2749); (2768, 2768); (2784, 2785);
   (2790, 2799); (2809, 2809); (2821, 2828); (2831, 2832); (2835, 2856);
   (2858, 2864); (2866, 2867); (2869, 2873); (2877, 2877); (2908, 2909);
   (2911, 2913); (2918, 2927); (2929, 2935); (2947, 2947); (2949, 2954);
   (2958, 2960); (2962, 2965); (2969, 2970); (2972, 2972); (2974, 2975);
   (2979, 2980); (2984, 2986); (2990, 3001); (3024, 3024); (3046, 3058);
   (3077, 3084); (3086, 3088); (3090, 3112); (3114, 3129); (3133, 3133);
   (3160, 3162); (3165, 3165); (3168, 3169); (3174, 3183); (3192, 3198);
   (3200, 3200); (3205, 3212); (3214, 3216); (3218, 3240); (3242, 3251);
   (3253, 3257); (3261, 3261); (3293, 3294); (3296, 3297); (3302, 3311);
   (3313, 3314); (3332, 3340); (3342, 3344); (3346, 3386); (3389, 3389);
   (3406, 3406); (3412, 3414); (3416, 3425); (3430, 3448); (3450, 3455);
   (3461, 3478); (3482, 3505); (3507, 3515); (3517, 3517); (3520, 3526);
   (3558, 3567); (3585, 3632); (3634, 3635); (3648, 3654); (3664, 3673);
   (3713, 3714); (3716, 3716); (3718, 3722); (3724, 3747); (3749, 3749);
   (3751, 3760); (3762, 3763); (3773, 3773); (3776, 3780); (3782, 3782);
   (3792, 3801); (3804, 3807); (3840, 3840); (3872, 3891); (3904, 3911);
   (3913, 3948); (3976, 3980); (4096, 4138); (4159, 4169); (4176, 4181);
   (4186, 4189); (4193, 4193); (4197, 4198); (4206, 4208); (4213, 4225);
   (4238, 4238); (4240, 4249); (4256, 4293); (4295, 4295); (4301, 4301);
   (4304, 4346); (4348, 4680); (4682, 4685); (4688, 4694); (4696, 4696);
   (4698, 4701); (4704, 4744); (4746, 4749); (4752, 4784); (4786, 4789);
   (4792, 4798); (4800, 4800); (4802, 4805); (4808, 4822); (4824, 4880);
   (4882, 4885); (4888, 4954); (4969, 4988); (4992, 5007); (5024, 5109);
   (5112, 5117); (5121, 5740); (5743, 5759); (5761, 5786); (5792, 5866);
   (5870, 5880); (5888, 5905); (5919, 5937); (5952, 5969); (5984, 5996);
   (5998, 6000); (6016, 6067); (6103, 6103); (6108, 6108); (6112, 6121);
   (6128, 6137); (6160, 6169); (6176, 6264); (6272, 6276); (6279, 6312);
   (6314, 6314); (6320, 6389); (6400, 6430); (6470, 6509); (6512, 6516);
   (6528, 6571); (6576, 6601); (6608, 6618); (6656, 6678); (6688, 6740);
   (6784, 6793); (6800, 6809); (6823, 6823); (6917, 6963); (6981, 6988);
   (6992, 7001); (7043, 7072); (7086, 7141); (7168, 7203); (7232, 7241);
   (7245, 7293); (7296, 7304); (7312, 7354); (7357, 7359); (7401, 7404);
   (7406, 7411); (7413, 7414); (7418, 7418); (7424, 7615); (7680, 7957);
   (7960, 7965); (7968, 8005); (8008, 8013); (8016, 8023); (8025, 8025);
   (8027, 8027); (8029, 8029); (8031, 8061); (8064, 8116); (8118, 8124);
   (8126, 8126); (8130, 8132); (8134, 8140); (8144, 8147); (8150, 8155);
   (8160, 8172); (8178, 8180); (8182, 8188); (8304, 8305); (8308, 8313);
   (8319, 8329); (8336, 8348); (8450, 8450); (8455, 8455); (8458, 8467);
   (8469, 8469); (8473, 8477); (8484, 8484); (8486, 8486); (8488, 8488);
   (8490, 8493); (8495, 8505); (8508, 8511); (8517, 8521); (8526, 8526);
   (8528, 8585); (9312, 9371); (9450, 9471); (10102, 10131); (11264, 11492);
   (11499, 11502); (11506, 11507); (11517, 11517); (11520, 11557);
   (11559, 11559); (11565, 11565); (11568, 11623); (11631, 11631);
   (11648, 11670); (11680, 11686); (11688, 11694); (11696, 11702);
   (11704, 11710); (11712, 11718); (11720, 11726); (11728, 11734);
   (11736, 11742); (11823, 11823); (12293, 12295); (12321, 12329);
   (12337, 12341); (12344, 12348); (12353, 12438); (12445, 12447);
   (12449, 12538); (12540, 12543); (12549, 12591); (12593, 12686);
   (12690, 12693); (12704, 12735); (12784, 12799); (12832, 12841);
   (12872, 12879); (12881, 12895); (12928, 12937); (12977, 12991);
   (13312, 19903); (19968, 42124); (42192, 42237); (42240, 42508);
   (42512, 42539); (42560, 42606); (42623, 42653); (42656, 42735);
   (42775, 42783); (42786, 42888); (42891, 42954); (42960, 42961);
   (42963, 42963); (42965, 42969); (42994, 43009); (43011, 43013);
   (43015, 43018); (43020, 43042); (43056, 43061); (43072, 43123);
   (43138, 43187); (43216, 43225); (43250, 43255); (43259, 43259);
   (43261, 43262); (43264, 43301); (43312, 43334); (43360, 43388);
   (43396, 43442); (43471, 43481); (43488, 43492); (43494, 43518);
   (43520, 43560); (43584, 43586); (43588, 43595); (43600, 43609);
   (43616, 43638); (43642, 43642); (43646, 43695); (43697, 43697);
   (43701, 43702); (43705, 43709); (43712, 43712); (43714, 43714);
   (43739, 43741); (43744, 43754); (43762, 43764); (43777, 43782);
   (43785, 43790); (43793, 43798); (43808, 43814); (43816, 43822);
   (43824, 43866); (43868, 43881); (43888, 44002); (44016, 44025);
   (44032, 55203); (55216, 55238); (55243, 55291); (63744, 64109);
   (64112, 64217); (64256, 64262); (64275, 64279); (64285, 64285);
   (64287, 64296); (64298, 64310); (64312, 64316); (64318, 64318);
   (64320, 64321); (64323, 64324); (64326, 64433); (64467, 64829);
   (64848, 64911); (64914, 64967); (65008, 65019); (65136, 65140);
   (65142, 65276); (65296, 65305); (65313, 65338); (65345, 65370);
   (65382, 65470); (65474, 65479); (65482, 65487); (65490, 65495);
   (65498, 65500); (65536, 65547); (65549, 65574); (65576, 65594);
   (65596, 65597); (65599, 65613); (65616, 65629); (65664, 65786);
   (65799, 65843); (65856, 65912); (65930, 65931); (66176, 66204);
   (66208, 66256); (66273, 66299); (66304, 66339); (66349, 66378);
   (66384, 66421); (66432, 66461); (66464, 66499); (66504, 66511);
   (66513, 66517); (66560, 66717); (66720, 66729); (66736, 66771);
   (66776, 66811); (66816, 66855); (66864, 66915); (66928, 66938);
   (66940, 66954); (66956, 66962); (66964, 66965); (66967, 66977);
   (66979, 66993); (66995, 67001); (67003, 67004); (67072, 67382);
   (67392, 67413); (67424, 67431); (67456, 67461); (67463, 67504);
   (67506, 67514); (67584, 67589); (67592, 67592); (67594, 67637);
   (67639, 67640); (67644, 67644); (67647, 67669); (67672, 67702);
   (67705, 67742); (67751, 67759); (67808, 67826); (67828, 67829);
   (67835, 67867); (67872, 67897); (67968, 68023); (68028, 68047);
   (68050, 68096); (68112, 68115); (68117, 68119); (68121, 68149);
   (68160, 68168); (68192, 68222); (68224, 68255); (68288, 68295);
   (68297, 68324); (68331, 68335); (68352, 68405); (68416, 68437);
   (68440, 68466); (68472, 68497); (68521, 68527); (68608, 68680);
   (68736, 68786); (68800, 68850); (68858, 68899); (68912, 68921);
   (69216, 69246); (69248, 69289); (69296, 69297); (69376, 69415);
   (69424, 69445); (69457, 69460); (69488, 69505); (69552, 69579);
   (69600, 69622); (69635, 69687); (69714, 69743); (69745, 69746);
   (69749, 69749); (69763, 69807); (69840, 69864); (69872, 69881);
   (69891, 69926); (69942, 69951); (69956, 69956); (69959, 69959);
   (69968, 70002); (70006, 70006); (70019, 70066); (70081, 70084);
   (70096, 70106); (70108, 70108); (70113, 70132); (70144, 70161);
   (70163, 70187); (70272, 70278); (70280, 70280); (70282, 70285);
   (70287, 70301); (70303, 70312); (70320, 70366); (70384, 70393);
   (70405, 70412); (70415, 70416); (70419, 70440); (70442, 70448);
   (70450, 70451); (70453, 70457); (70461, 70461); (70480, 70480);
   (70493, 70497); (70656, 70708); (70727, 70730); (70736, 70745);
   (70751, 70753); (70784, 70831); (70852, 70853); (70855, 70855);
   (70864, 70873); (71040, 71086); (71128, 71131); (71168, 71215);
   (71236, 71236); (71248, 71257); (71296, 71338); (71352, 71352);
   (71360, 71369); (71424, 71450); (71472, 71483); (71488, 71494);
   (71680, 71723); (71840, 71922); (71935, 71942); (71945, 71945);
   (71948, 71955); (71957, 71958); (71960, 71983); (71999, 71999);
   (72001, 72001); (72016, 72025); (72096, 72103); (72106, 72144);
   (72161, 72161); (72163, 72163); (72192, 72192); (72203, 72242);
   (72250, 72250); (72272, 72272); (72284, 72329); (72349, 72349);
   (72368, 72440); (72704, 72712); (72714, 72750); (72768, 72768);
   (72784, 72812); (72818, 72847); (72960, 72966); (72968, 72969);
   (72971, 73008); (73030, 73030); (73040, 73049); (73056, 73061);
   (73063, 73064); (73066, 73097); (73112, 73112); (73120, 73129);
   (73440, 73458); (73648, 73648); (73664, 73684); (73728, 74649);
   (74752, 74862); (74880, 75075); (77712, 77808); (77824, 78894);
   (82944, 83526); (92160, 92728); (92736, 92766); (92768, 92777);
   (92784, 92862); (92864, 92873); (92880, 92909); (92928, 92975);
   (92992, 92995); (93008, 93017); (93019, 93025); (93027, 93047);
   (93053, 93071); (93760, 93846); (93952, 94026); (94032, 94032);
   (94099, 94111); (94176, 94177); (94179, 94179); (94208, 100343);
   (100352, 101589); (101632, 101640); (110576, 110579); (110581, 110587);
   (110589, 110590); (110592, 110882); (110928, 110930); (110948, 110951);
   (110960, 111355); (113664, 113770); (113776, 113788); (113792, 113800);
   (113808, 113817); (119520, 119539); (119648, 119672); (119808, 119892);
   (119894, 119964); (119966, 119967); (119970, 119970); (119973, 119974);
   (119977, 119980); (119982, 119993); (119995, 119995); (119997, 120003);
   (120005, 120069); (120071, 120074); (120077, 120084); (120086, 120092);
   (120094, 120121); (120123, 120126); (120128, 120132); (120134, 120134);
   (120138, 120144); (120146, 120485); (120488, 120512); (120514, 120538);
   (120540, 120570); (120572, 120596); (120598, 120628); (120630, 120654);
   (120656, 120686); (120688, 120712); (120714, 120744); (120746, 120770);
   (120772, 120779); (120782, 120831); (122624, 122654); (123136, 123180);
   (123191, 123197); (123200, 123209); (123214, 123214); (123536, 123565);
   (123584, 123627); (123632, 123641); (124896, 124902); (124904, 124907);
   (124909, 124910); (124912, 124926); (124928, 125124); (125127, 125135);
   (125184, 125251); (125259, 125259); (125264, 125273); (126065, 126123);
   (126125, 126127); (126129, 126132); (126209, 126253); (126255, 126269);
   (126464, 126467); (126469, 126495); (126497, 126498); (126500, 126500);
   (126503, 126503); (126505, 126514); (126516, 126519); (126521, 126521);
   (126523, 126523); (126530, 126530); (126535, 126535); (126537, 126537);
   (126539, 126539); (126541, 126543); (126545, 126546); (126548, 126548);
   (126551, 126551); (126553, 126553); (126555, 126555); (126557, 126557);
   (126559, 126559); (126561, 126562); (126564, 126564); (126567, 126570);
   (126572, 126578); (126580, 126583); (126585, 126588); (126590, 126590);
   (126592, 126601); (126603, 126619); (126625, 126627); (126629, 126633);
   (126635, 126651); (127232, 127244); (130032, 130041); (131072, 173791);
   (173824, 177976); (177984, 178205); (178208, 183969); (183984, 191456);
   (194560, 195101); (196608, 201546)]
  )%N.

Definition isalnum (x : N) : bool :=
  existsb (fun r => (fst r <=? x) && (x <=? snd r))%N alnum_ranges.

Definition ascii_isalnum (x : N) : bool :=
  ((48 <=? x) && (x <=? 57) || (65 <=? x) && (x <=? 90)
   || (97 <=? x) && (x <=? 122))%N.

(** [\w]: alphanumeric code points and the underscore; of ASCII only under
    [re.A]. *)
Definition is_word (fl : Flags) (x : N) : bool :=
  match fl with
  | RE_I_A => (x =? 95)%N || ascii_isalnum x
  | _ => (x =? 95)%N || isalnum x
  end.

(** Simple lower-case mapping of the code points below 256, and of ASCII. *)
Definition lower (n : N) : N :=
  if ((65 <=? n) && (n <=? 90) || (192 <=? n) && (n <=? 222) && negb (n =? 215))%N
  then (n + 32)%N else n.

Definition ascii_lower (n : N) : N :=
  if ((65 <=? n) && (n <=? 90))%N then (n + 32)%N else n.

(** The code points that [re] takes for a letter besides its two cases
    below 256, [lo] being the lower case of the letter: those from 256 on
    whose simple lower-case mapping is [lo], and those that the table of
    equivalent lower-case letters of [re] lists with [lo].  These are U+0130
    and U+0131 for i, U+017F for s, U+212A for k, U+039C and U+03BC for the
    micro sign, U+212B for a with ring, U+1E9E for sharp s, U+0178 for y with
    diaeresis. *)
Definition case_variant (lo x : N) : bool :=
  ((lo =? 105) && ((x =? 304) || (x =? 305))
   || (lo =? 115) && (x =? 383)
   || (lo =? 107) && (x =? 8490)
   || (lo =? 181) && ((x =? 924) || (x =? 956))
   || (lo =? 229) && (x =? 8491)
   || (lo =? 223) && (x =? 7838)
   || (lo =? 255) && (x =? 376))%N.

(** Whether the code point [x] matches the pattern character of code [c]
    under [re.I]. *)
Definition same_letter (c x : N) : bool :=
  let lo := lower c in
  (x <? 256)%N && (lower x =? lo)%N || case_variant lo x.

(** A pattern character against a code point of the text: exactly; under
    [re.I]; or under [re.I | re.A], where only the letters of ASCII have two
    cases. *)
Definition chr_match (fl : Flags) (c : ascii) (x : N) : bool :=
  let n := N_of_ascii c in
  match fl with
  | NoFlags => (x =? n)%N
  | RE_I => same_letter n x
  | RE_I_A => (ascii_lower x =? ascii_lower n)%N
  end.

(** The pattern characters from [lo] to [hi]. *)
Definition between (lo hi : ascii) : list ascii :=
  map (fun k => ascii_of_nat (nat_of_ascii lo + k))
      (seq 0 (S (nat_of_ascii hi) - nat_of_ascii lo)).

(** A member of a set matches as the pattern characters it stands for do;
    [\w] is tested on the code point itself. *)
Definition item_match (fl : Flags) (x : N) (i : set_item) : bool :=
  match i with
  | SChar c => chr_match fl c x
  | SRange lo hi => existsb (fun c => chr_match fl c x) (between lo hi)
  | SWord => is_word fl x
  end.

Definition atom_match (fl : Flags) (a : atom) (x : N) : bool :=
  match a with
  | AChr c => chr_match fl c x
  | ASet items => existsb (item_match fl x) items
  end.

(** The text consumed and the text left when [lit] starts [s]. *)
Fixpoint match_lit (fl : Flags) (lit : string) (s : ustr) : option (ustr * ustr) :=
  match lit with
  | EmptyString => Some ([], s)
  | String c lit' =>
      match s with
      | x :: s' =>
          if chr_match fl c x then
            match match_lit fl lit' s' with
            | Some (m, rest) => Some (x :: m, rest)
            | None => None
            end
          else None
      | [] => None
      end
  end.

Fixpoint match_rep (fl : Flags) (n : nat) (a : atom) (s : ustr)
  : option (ustr * ustr) :=
  match n with
  | O => Some ([], s)
  | S n' =>
      match s with
      | x :: s' =>
          if atom_match fl a x then
            match match_rep fl n' a s' with
            | Some (m, rest) => Some (x :: m, rest)
            | None => None
            end
          else None
      | [] => None
      end
  end.

Section Backtracking.
Context {A : Type}.
Variable fl : Flags.

(** [a*], the longest run first; [k] receives the run and the rest. *)
Fixpoint match_many (a : atom) (s : ustr) (k : ustr -> ustr -> option A)
  : option A :=
  match s with
  | x :: s' =>
      if atom_match fl a x then
        match match_many a s' (fun m rest => k (x :: m) rest) with
        | Some r => Some r
        | None => k [] s
        end
      else k [] s
  | [] => k [] s
  end.

(** [rmatch r s k]: the first way, in backtracking order, of matching [r]
    at the start of [s] that the continuation [k] accepts. *)
Fixpoint rmatch (r : regex) (s : ustr) (k : ustr -> ustr -> option A)
  : option A :=
  match r with
  | Lit l =>
      match match_lit fl l s with
      | Some (m, rest) => k m rest
      | None => None
      end
  | Opt a =>
      match s with
      | x :: s' =>
          if atom_match fl a x then
            match k [x] s' with
            | Some v => Some v
            | None => k [] s
            end
          else k [] s
      | [] => k [] s
      end
  | Plus a =>
      match s with
      | x :: s' =>
          if atom_match fl a x
          then match_many a s' (fun m rest => k (x :: m) rest)
          else None
      | [] => None
      end
  | Rep n a =>
      match match_rep fl n a s with
      | Some (m, rest) => k m rest
      | None => None
      end
  | Cat r1 r2 =>
      rmatch r1 s (fun m1 s1 => rmatch r2 s1 (fun m2 s2 => k (m1 ++ m2)%list s2))
  end.

End Backtracking.

(** A match of the whole pattern at the start of [s]: its group. *)
Definition match_here (fl : Flags) (p : pattern) (s : ustr) : option ustr :=
  rmatch fl (before p) s (fun _ s1 =>
    rmatch fl (group p) s1 (fun g s2 =>
      rmatch fl (after p) s2 (fun _ _ => Some g))).

(** [re.search(p, s, flags)] followed by [.group(1)] on a match. *)
Fixpoint re_search (fl : Flags) (p : pattern) (s : ustr) : option ustr :=
  match match_here fl p s with
  | Some g => Some g
  | None =>
      match s with
      | _ :: s' => re_search fl p s'
      | [] => None
      end
  end.

(* ================================================================== *)
(** * Collaborators *)

Inductive Method : Type := GET | POST.

(** An [asyncio.Task] handle; tasks are told apart by when they were made. *)
Definition Task : Type := nat.

(** An entry of [GQL_OPERATIONS], possibly with variables filled in. *)
Record GQLOperation : Type := {
  op_name : string;
  op_variables : list (string * JsonType)
}.

(** The table itself is in [constants.py]; an entry is known by its key. *)
Definition GQL_OPERATIONS (key : string) : GQLOperation :=
  {| op_name := key; op_variables := [] |}.

Definition with_variables (op : GQLOperation) (vars : list (string * JsonType))
  : GQLOperation :=
  {| op_name := op_name op; op_variables := vars |}.

(** What the channel asks of its collaborators, in the order it asks. *)
Inductive Event : Type :=
| EvRequest (m : Method) (url : ustr) (data : option JsonType)
| EvGql (op : GQLOperation)
| EvDisplay (add : bool)
| EvRemove
| EvOnOnline
| EvOnOffline
| EvSleepOnlineDelay
| EvCreateTask (t : Task)
| EvCancel (t : Task).

(** An HTTP response: [response.status] and [await response.text()]. *)
Record Response : Type := { status : Z; text : ustr }.

(** The owning client.  A call is answered from what has happened so far
    and its arguments; it may raise. *)
Record Twitch : Type := {
  _user_id : Z;
  request : list Event -> Method -> ustr -> option JsonType -> Result Response;
  gql_request : list Event -> GQLOperation -> Result JsonType
}.

(** Modelled from the spec: [utils.Game] is not among the sources; the spec
    gives a game as an identifier and name pair built from the game object of
    a response. *)
Record Game : Type := { game_id : Z; game_name : string }.

(** A response field stored in an attribute annotated [str], [int] or
    [Optional[str]].  Python stores it unchecked; the typed record cannot, so
    a field of another type raises [TypeError] here. *)
Definition as_str (v : JsonType) : Result string :=
  match v with JStr s => Ok s | _ => Raise TypeError end.

Definition as_int (v : JsonType) : Result Z :=
  match v with JInt z => Ok z | _ => Raise TypeError end.

Definition as_optional_str (v : JsonType) : Result (option string) :=
  match v with
  | JStr s => Ok (Some s)
  | JNull => Ok None
  | _ => Raise TypeError
  end.

Definition Game_init (data : JsonType) : Result Game :=
  do i <- getitem data "id";
  do i' <- py_int i;
  do n <- getitem data "name";
  do n' <- as_str n;
  Ok {| game_id := i'; game_name := n' |}.

Definition is_None {A : Type} (o : option A) : bool :=
  match o with None => true | Some _ => false end.

Definition is_not_None {A : Type} (o : option A) : bool := negb (is_None o).

(* ================================================================== *)
(** * class Stream *)

Module Stream.

(** The back reference [channel] is left out: a stream is only reached
    through the channel that holds it. *)
Record t : Type := {
  broadcast_id : Z;
  viewers : Z;
  drops_enabled : bool;
  game : option Game;
  title : string
}.

Definition set_viewers (s : t) (v : Z) : t :=
  {| broadcast_id := broadcast_id s; viewers := v;
     drops_enabled := drops_enabled s; game := game s; title := title s |}.

Section WithConstants.
Variable DROPS_ENABLED_TAG : string.

(** [any(t["id"] == DROPS_ENABLED_TAG for t in tags)] *)
Fixpoint any_drops_tag (tags : list JsonType) : Result bool :=
  match tags with
  | [] => Ok false
  | t :: rest =>
      do i <- getitem t "id";
      if py_eq_str i DROPS_ENABLED_TAG then Ok true else any_drops_tag rest
  end.

Definition __init__ (id game viewers title tags : JsonType) : Result t :=
  do broadcast_id' <- py_int id;
  do viewers' <- as_int viewers;
  do tags' <- py_iter tags;
  do drops_enabled' <- any_drops_tag tags';
  do game' <- (if truthy game then do g <- Game_init game; Ok (Some g) else Ok None);
  do title' <- as_str title;
  Ok {| broadcast_id := broadcast_id'; viewers := viewers';
        drops_enabled := drops_enabled'; game := game'; title := title' |}.

Definition from_get_stream (data : JsonType) : Result t :=
  do stream <- getitem data "stream";
  do settings <- getitem data "broadcastSettings";
  do id <- getitem stream "id";
  do game <- getitem settings "game";
  do viewers <- getitem stream "viewersCount";
  do title <- getitem settings "title";
  do tags <- getitem stream "tags";
  __init__ id game viewers title tags.

Definition from_directory (data : JsonType) : Result t :=
  do id <- getitem data "id";
  do game <- getitem data "game";
  do viewers <- getitem data "viewersCount";
  do title <- getitem data "title";
  do tags <- getitem data "tags";
  __init__ id game viewers title tags.

End WithConstants.

End Stream.

(* ================================================================== *)
(** * class Channel *)

Module Channel.

(** [cached_payload] is the slot in which [cached_property] keeps the
    value of [_payload] once it has been computed. *)
Record t : Type := {
  id : Z;
  _login : string;
  _display_name : option string;
  _spade_url : option ustr;
  points : option Z;
  _stream : option Stream.t;
  _pending_stream_up : option Task;
  priority : bool;
  cached_payload : option JsonType
}.

Definition set_id (c : t) (v : Z) : t :=
  {| id := v; _login := _login c; _display_name := _display_name c;
     _spade_url := _spade_url c; points := points c; _stream := _stream c;
     _pending_stream_up := _pending_stream_up c; priority := priority c;
     cached_payload := cached_payload c |}.

Definition set_display_name (c : t) (v : option string) : t :=
  {| id := id c; _login := _login c; _display_name := v;
     _spade_url := _spade_url c; points := points c; _stream := _stream c;
     _pending_stream_up := _pending_stream_up c; priority := priority c;
     cached_payload := cached_payload c |}.

Definition set_spade_url (c : t) (v : option ustr) : t :=
  {| id := id c; _login := _login c; _display_name := _display_name c;
     _spade_url := v; points := points c; _stream := _stream c;
     _pending_stream_up := _pending_stream_up c; priority := priority c;
     cached_payload := cached_payload c |}.

Definition set_stream (c : t) (v : option Stream.t) : t :=
  {| id := id c; _login := _login c; _display_name := _display_name c;
     _spade_url := _spade_url c; points := points c; _stream := v;
     _pending_stream_up := _pending_stream_up c; priority := priority c;
     cached_payload := cached_payload c |}.

Definition set_pending_stream_up (c : t) (v : option Task) : t :=
  {| id := id c; _login := _login c; _display_name := _display_name c;
     _spade_url := _spade_url c; points := points c; _stream := _stream c;
     _pending_stream_up := v; priority := priority c;
     cached_payload := cached_payload c |}.

Definition set_cached_payload (c : t) (v : option JsonType) : t :=
  {| id := id c; _login := _login c; _display_name := _display_name c;
     _spade_url := _spade_url c; points := points c; _stream := _stream c;
     _pending_stream_up := _pending_stream_up c; priority := priority c;
     cached_payload := v |}.

(** ** The state a method runs in *)

Record World : Type := { self : t; trace : list Event }.

Definition M (A : Type) : Type := World -> Result A * World.

Definition ret {A : Type} (a : A) : M A := fun w => (Ok a, w).

Definition raise {A : Type} (e : Exn) : M A := fun w => (Raise e, w).

Definition bind {A B : Type} (m : M A) (f : A -> M B) : M B :=
  fun w =>
    match m w with
    | (Ok a, w') => f a w'
    | (Raise e, w') => (Raise e, w')
    end.

Notation "x <- a ;; b" := (bind a (fun x => b))
  (at level 61, a at next level, right associativity).
Notation "a ;; b" := (bind a (fun _ => b))
  (at level 61, right associativity).

(** [try: body except RequestException: handler] *)
Definition except_RequestException {A : Type} (body handler : M A) : M A :=
  fun w =>
    match body w with
    | (Raise RequestException, w') => handler w'
    | r => r
    end.

Definition lift {A : Type} (r : Result A) : M A := fun w => (r, w).

Definition get_self : M t := fun w => (Ok (self w), w).

Definition update (f : t -> t) : M unit :=
  fun w => (Ok tt, {| self := f (self w); trace := trace w |}).

Definition emit (e : Event) : M unit :=
  fun w => (Ok tt, {| self := self w; trace := (trace w ++ [e])%list |}).

(** [asyncio.create_task(...)]: a handle that no earlier task has. *)
Definition create_task : M Task :=
  fun w => (Ok (List.length (trace w)),
            {| self := self w;
               trace := (trace w ++ [EvCreateTask (List.length (trace w))])%list |}).

(** Modelled from the spec: [utils.invalidate_cache] is not among the
    sources; the spec has it drop the memoized value, to be recomputed at the
    next access.  The only attribute it is called with is ["_payload"]. *)
Definition invalidate_cache (attrname : string) : M unit :=
  if (attrname =? "_payload")%string
  then update (fun c => set_cached_payload c None)
  else ret tt.

Section WithCollaborators.
Variables (BASE_URL DROPS_ENABLED_TAG : string).
Variable twitch : Twitch.

(** [self._twitch.request(method, url, data=data)], entered and read. *)
Definition twitch_request (m : Method) (url : ustr) (data : option JsonType)
  : M Response :=
  fun w => (request twitch (trace w) m url data,
            {| self := self w; trace := (trace w ++ [EvRequest m url data])%list |}).

Definition twitch_gql_request (op : GQLOperation) : M JsonType :=
  fun w => (gql_request twitch (trace w) op,
            {| self := self w; trace := (trace w ++ [EvGql op])%list |}).

(** ** Construction *)

Definition __init__ (id : JsonType) (login : string)
  (display_name : option string) (priority : bool) : Result t :=
  do id' <- py_int id;
  Ok {| id := id'; _login := login; _display_name := display_name;
        _spade_url := None; points := None; _stream := None;
        _pending_stream_up := None; priority := priority;
        cached_payload := None |}.

Definition from_acl (data : JsonType) : Result t :=
  do id <- getitem data "id";
  do login <- getitem data "name";
  do login' <- as_str login;
  do display_name <- dict_get_default data "displayName";
  do display_name' <- as_optional_str display_name;
  __init__ id login' display_name' true.

Definition from_directory (data : JsonType) : Result t :=
  do channel <- getitem data "broadcaster";
  do id <- getitem channel "id";
  do login <- getitem channel "login";
  do login' <- as_str login;
  do display_name <- getitem channel "displayName";
  do display_name' <- as_optional_str display_name;
  do self' <- __init__ id login' display_name' false;
  do stream <- Stream.from_directory DROPS_ENABLED_TAG data;
  Ok (set_stream self' (Some stream)).

(** ** Properties *)

Definition name (c : t) : string :=
  match _display_name c with
  | Some n => n
  | None => _login c
  end.

Definition url (c : t) : string := BASE_URL ++ "/" ++ _login c.

Definition iid (c : t) : string := str_of_Z (id c).

Definition online (c : t) : bool := is_not_None (_stream c).

Definition offline (c : t) : bool :=
  is_None (_stream c) && is_None (_pending_stream_up c).

Definition pending_online (c : t) : bool := is_not_None (_pending_stream_up c).

Definition game (c : t) : option Game :=
  match _stream c with
  | Some s => Stream.game s
  | None => None
  end.

Definition viewers (c : t) : option Z :=
  match _stream c with
  | Some s => Some (Stream.viewers s)
  | None => None
  end.

Definition viewers_setter (value : Z) : M unit :=
  update (fun c =>
    match _stream c with
    | Some s => set_stream c (Some (Stream.set_viewers s value))
    | None => c
    end).

Definition drops_enabled (c : t) : bool :=
  match _stream c with
  | Some s => Stream.drops_enabled s
  | None => false
  end.

Definition display (add : bool) : M unit := emit (EvDisplay add).

Definition remove : M unit :=
  c <- get_self ;;
  match _pending_stream_up c with
  | Some task =>
      emit (EvCancel task) ;;
      update (fun c => set_pending_stream_up c None)
  | None => ret tt
  end ;;
  emit EvRemove.

(** ** The spade URL *)

(** [r'src="(https://static\.twitchcdn\.net/config/settings\.[0-9a-f]{32}\.js)"'] *)
Definition settings_pattern : pattern :=
  {| before := Lit ("src=" ++ DQ);
     group :=
       Cat (Lit "https://static.twitchcdn.net/config/settings.")
           (Cat (Rep 32 (ASet [SRange "0" "9"; SRange "a" "f"])) (Lit ".js"));
     after := Lit DQ |}.

(** [r'"spade_url": ?"(https://video-edge-[.\w\-/]+\.ts)"'] *)
Definition spade_pattern : pattern :=
  {| before :=
       Cat (Lit (DQ ++ "spade_url" ++ DQ ++ ":")) (Cat (Opt (AChr " ")) (Lit DQ));
     group :=
       Cat (Lit "https://video-edge-")
           (Cat (Plus (ASet [SChar "."; SWord; SChar "-"; SChar "/"])) (Lit ".ts"));
     after := Lit DQ |}.

Definition get_spade_url : M ustr :=
  c <- get_self ;;
  response <- twitch_request GET (ustr_of_string (url c)) None ;;
  let streamer_html := text response in
  match re_search RE_I settings_pattern streamer_html with
  | None => raise (MinerException "Error while spade_url extraction: step #1")
  | Some streamer_settings =>
      response <- twitch_request GET streamer_settings None ;;
      let settings_js := text response in
      match re_search RE_I spade_pattern settings_js with
      | None => raise (MinerException "Error while spade_url extraction: step #2")
      | Some spade_url => ret spade_url
      end
  end.

(** ** Liveness *)

Definition get_stream : M (option Stream.t) :=
  c <- get_self ;;
  response <- twitch_gql_request
    (with_variables (GQL_OPERATIONS "GetStreamInfo") [("channel", JStr (_login c))]) ;;
  if negb (truthy response) then ret None else
  data <- lift (getitem response "data") ;;
  stream_data <- lift (getitem data "user") ;;
  if negb (truthy stream_data) then ret None else
  (* fill in channel_id and display name *)
  id_field <- lift (getitem stream_data "id") ;;
  id' <- lift (py_int id_field) ;;
  update (fun c => set_id c id') ;;
  display_name <- lift (getitem stream_data "displayName") ;;
  display_name' <- lift (as_optional_str display_name) ;;
  update (fun c => set_display_name c display_name') ;;
  stream_field <- lift (getitem stream_data "stream") ;;
  if negb (truthy stream_field) then ret None else
  stream <- lift (Stream.from_get_stream DROPS_ENABLED_TAG stream_data) ;;
  ret (Some stream).

Definition from_name (channel_login : string) (priority : bool) : M unit :=
  self' <- lift (__init__ (JInt 0) channel_login None priority) ;;
  update (fun _ => self') ;;
  (* id and display name to be filled/overwritten by get_stream *)
  stream <- get_stream ;;
  match stream with
  | Some _ => update (fun c => set_stream c stream)
  | None => ret tt
  end.

Definition check_online : M bool :=
  stream <- get_stream ;;
  update (fun c => set_stream c stream) ;;
  match stream with
  | None =>
      invalidate_cache "_payload" ;;
      ret false
  | Some _ => ret true
  end.

(** The body of the task that [set_online] starts. *)
Definition _online_delay : M unit :=
  emit EvSleepOnlineDelay ;;
  online' <- check_online ;;
  update (fun c => set_pending_stream_up c None) ;;
  display false ;;
  if online' then emit EvOnOnline else ret tt.

Definition set_online : M unit :=
  c <- get_self ;;
  if offline c then
    task <- create_task ;;
    update (fun c => set_pending_stream_up c (Some task)) ;;
    display false
  else ret tt.

Definition set_offline : M unit :=
  c <- get_self ;;
  match _pending_stream_up c with
  | Some task =>
      emit (EvCancel task) ;;
      update (fun c => set_pending_stream_up c None) ;;
      display false
  | None => ret tt
  end ;;
  c <- get_self ;;
  if online c then
    update (fun c => set_stream c None) ;;
    invalidate_cache "_payload" ;;
    display false ;;
    emit EvOnOffline
  else ret tt.

(** ** The heartbeat *)

(** The list that [_payload] serializes. *)
Definition payload_events (c : t) (s : Stream.t) : JsonType :=
  JList [JObj [("event", JStr "minute-watched");
               ("properties",
                JObj [("channel_id", JInt (id c));
                      ("broadcast_id", JInt (Stream.broadcast_id s));
                      ("player", JStr "site");
                      ("user_id", JInt (_user_id twitch))])]].

(** The body of the cached property. *)
Definition compute_payload : M JsonType :=
  c <- get_self ;;
  match _stream c with
  | None => raise AssertionError
  | Some s =>
      let payload := payload_events c s in
      let json_event := dumps payload in
      match decode_utf8 (b64encode (encode_utf8 json_event)) with
      | Some data => ret (JObj [("data", JStr data)])
      | None => raise (OtherException "UnicodeDecodeError")
      end
  end.

(** [self._payload]: the memoized value, computed at the first access. *)
Definition _payload : M JsonType :=
  c <- get_self ;;
  match cached_payload c with
  | Some p => ret p
  | None =>
      p <- compute_payload ;;
      update (fun c => set_cached_payload c (Some p)) ;;
      ret p
  end.

Definition send_watch : M bool :=
  c <- get_self ;;
  if negb (online c) then ret false else
  match _spade_url c with
  | None =>
      spade_url <- get_spade_url ;;
      update (fun c => set_spade_url c (Some spade_url))
  | Some _ => ret tt
  end ;;
  except_RequestException
    (c <- get_self ;;
     match _spade_url c with
     | None => raise TypeError
     | Some spade_url =>
         data <- _payload ;;
         response <- twitch_request POST spade_url (Some data) ;;
         ret (status response =? 204)%Z
     end)
    (ret false).

End WithCollaborators.

(** ** Identity *)

(** What [__eq__] may be handed: a channel, or an object of another class. *)
Inductive object : Type :=
| Obj_Channel (c : t)
| Obj_other.

(** What [__eq__] answers. *)
Inductive eq_result : Type :=
| Eq_bool (b : bool)
| NotImplemented.

Definition __repr__ (c : t) : string :=
  let name :=
    match _display_name c with
    | Some display_name => display_name ++ "(" ++ _login c ++ ")"
    | None => _login c
    end in
  "Channel(" ++ name ++ ", " ++ str_of_Z (id c) ++ ")".

Definition __eq__ (c : t) (other : object) : eq_result :=
  match other with
  | Obj_Channel o => Eq_bool (id c =? id o)%Z
  | Obj_other => NotImplemented
  end.

Section Hashing.
(** The built-in [hash] on a pair of a class name and an integer. *)
Variable hash : string * Z -> Z.

Definition __hash__ (c : t) : Z := hash ("Channel", id c).

End Hashing.

End Channel.

(* ================================================================== *)
(** * Reading a payload back

    The decoders that the properties of the payload are stated with:
    [base64.b64decode], and [json.loads] for documents without floating
    point numbers. *)

Definition b64_val (b : Byte.byte) : option N :=
  let n := Byte.to_N b in
  if ((65 <=? n) && (n <=? 90))%N then Some (n - 65)%N
  else if ((97 <=? n) && (n <=? 122))%N then Some (n - 71)%N
  else if ((48 <=? n) && (n <=? 57))%N then Some (n + 4)%N
  else if (n =? 43)%N then Some 62%N
  else if (n =? 47)%N then Some 63%N
  else None.

Fixpoint b64decode (s : list Byte.byte) : option (list Byte.byte) :=
  match s with
  | [] => Some []
  | c0 :: c1 :: c2 :: c3 :: rest =>
      match b64_val c0, b64_val c1 with
      | Some v0, Some v1 =>
          let b0 := byte_of_N (v0 * 4 + v1 / 16) in
          if Byte.eqb c2 b64_pad then
            if Byte.eqb c3 b64_pad && is_None (hd_error rest)
            then Some [b0] else None
          else
            match b64_val c2 with
            | Some v2 =>
                let b1 := byte_of_N ((v1 mod 16) * 16 + v2 / 4) in
                if Byte.eqb c3 b64_pad then
                  if is_None (hd_error rest) then Some [b0; b1] else None
                else
                  match b64_val c3 with
                  | Some v3 =>
                      let b2 := byte_of_N ((v2 mod 4) * 64 + v3) in
                      option_map (fun tl => b0 :: b1 :: b2 :: tl) (b64decode rest)
                  | None => None
                  end
            | None => None
            end
      | _, _ => None
      end
  | _ => None
  end.

(** What is expected of the symbol [k] of the alphabet: it decodes to [k],
    it is not the padding and it is below 128. *)
Definition b64_symbol_ok (k : nat) : bool :=
  let i := N.of_nat k in
  match b64_val (b64_sym i) with
  | Some j => (j =? i)%N
  | None => false
  end
  && negb (Byte.eqb (b64_sym i) b64_pad)
  && (Byte.to_N (b64_sym i) <? 128)%N.

Definition is_json_space (c : ascii) : bool :=
  let n := N_of_ascii c in ((n =? 32) || (n =? 9) || (n =? 10) || (n =? 13))%N.

Fixpoint skip_ws (s : string) : string :=
  match s with
  | String c s' => if is_json_space c then skip_ws s' else s
  | EmptyString => EmptyString
  end.

Definition hex_val (c : ascii) : option N :=
  let n := N_of_ascii c in
  if ((48 <=? n) && (n <=? 57))%N then Some (n - 48)%N
  else if ((97 <=? n) && (n <=? 102))%N then Some (n - 87)%N
  else if ((65 <=? n) && (n <=? 70))%N then Some (n - 55)%N
  else None.

(** [\uXXXX]; a code point above 255 has no place in [string]. *)
Definition hex4 (h1 h2 h3 h4 : ascii) : option ascii :=
  match hex_val h1, hex_val h2, hex_val h3, hex_val h4 with
  | Some a, Some b, Some c, Some d =>
      if ((a =? 0) && (b =? 0))%N then Some (ascii_of_N (c * 16 + d)) else None
  | _, _, _, _ => None
  end.

Definition unescape (e : ascii) : option ascii :=
  let n := N_of_ascii e in
  if ((n =? 34) || (n =? 92) || (n =? 47))%N then Some e
  else if (e =? "b")%char then Some "008"%char
  else if (e =? "f")%char then Some "012"%char
  else if (e =? "n")%char then Some "010"%char
  else if (e =? "r")%char then Some "013"%char
  else if (e =? "t")%char then Some "009"%char
  else None.

Definition cons_char (c : ascii) (r : option (string * string))
  : option (string * string) :=
  match r with
  | Some (s, rest) => Some (String c s, rest)
  | None => None
  end.

(** The inside of a string literal, from after its opening quote. *)
Fixpoint parse_string_body (s : string) : option (string * string) :=
  match s with
  | EmptyString => None
  | String c rest =>
      if (c =? dquote)%char then Some (EmptyString, rest)
      else if (c =? "\")%char then
        match rest with
        | String e rest1 =>
            if (e =? "u")%char then
              match rest1 with
              | String h1 (String h2 (String h3 (String h4 rest2))) =>
                  match hex4 h1 h2 h3 h4 with
                  | Some ch => cons_char ch (parse_string_body rest2)
                  | None => None
                  end
              | _ => None
              end
            else
              match unescape e with
              | Some ch => cons_char ch (parse_string_body rest1)
              | None => None
              end
        | EmptyString => None
        end
      else if (N_of_ascii c <? 32)%N then None
      else cons_char c (parse_string_body rest)
  end.

Fixpoint span_digits (s : string) : string * string :=
  match s with
  | String c s' =>
      if is_digit c then
        let (ds, rest) := span_digits s' in (String c ds, rest)
      else (EmptyString, s)
  | EmptyString => (EmptyString, EmptyString)
  end.

(** What may not follow the digits of an integer: a digit, or the start of a
    fraction or an exponent, which would make a float. *)
Definition number_ends (rest : string) : bool :=
  match rest with
  | String c _ => negb (is_digit c) && negb ((c =? ".") || (c =? "e") || (c =? "E"))%char
  | EmptyString => true
  end.

(** [0], or digits that do not start with [0]. *)
Definition parse_unsigned (s : string) : option (Z * string) :=
  let (ds, rest) := span_digits s in
  let leading_zero :=
    match ds with
    | String c (String _ _) => (c =? "0")%char
    | _ => false
    end in
  if leading_zero || negb (number_ends rest) then None
  else
    match NilZero.uint_of_string ds with
    | Some u => Some (Z.of_N (N.of_uint u), rest)
    | None => None
    end.

(** An integer: an optional minus sign and its digits. *)
Definition parse_number (s : string) : option (Z * string) :=
  match s with
  | String c s' =>
      if (c =? "-")%char then
        match parse_unsigned s' with
        | Some (n, rest) => Some ((- n)%Z, rest)
        | None => None
        end
      else parse_unsigned s
  | EmptyString => None
  end.

(** The characters an integer can start with. *)
Definition number_start (c : ascii) : bool := (c =? "-")%char || is_digit c.

(** [d[k] = v]: a key that is present keeps its place. *)
Fixpoint dict_set (kvs : list (string * JsonType)) (k : string) (v : JsonType)
  : list (string * JsonType) :=
  match kvs with
  | [] => [(k, v)]
  | (k', v') :: rest =>
      if (k' =? k)%string then (k', v) :: rest else (k', v') :: dict_set rest k v
  end.

(** The text left when [lit] starts [s]. *)
Fixpoint after_prefix (lit s : string) : option string :=
  match lit with
  | EmptyString => Some s
  | String c lit' =>
      match s with
      | String x s' => if (x =? c)%char then after_prefix lit' s' else None
      | EmptyString => None
      end
  end.

Definition literal (lit : string) (v : JsonType) (s : string)
  : option (JsonType * string) :=
  match after_prefix lit s with
  | Some rest => Some (v, rest)
  | None => None
  end.

Fixpoint parse_value (fuel : nat) (s : string) {struct fuel}
  : option (JsonType * string) :=
  match fuel with
  | O => None
  | S fuel' =>
      match skip_ws s with
      | EmptyString => None
      | String c rest =>
          if (c =? dquote)%char then
            match parse_string_body rest with
            | Some (str, rest') => Some (JStr str, rest')
            | None => None
            end
          else if (c =? "[")%char then
            match skip_ws rest with
            | String "]" rest' => Some (JList [], rest')
            | _ =>
                match parse_items fuel' rest with
                | Some (l, rest') => Some (JList l, rest')
                | None => None
                end
            end
          else if (c =? "{")%char then
            match skip_ws rest with
            | String "}" rest' => Some (JObj [], rest')
            | _ =>
                match parse_members fuel' [] rest with
                | Some (kvs, rest') => Some (JObj kvs, rest')
                | None => None
                end
            end
          else if (c =? "n")%char then literal "null" JNull (String c rest)
          else if (c =? "t")%char then literal "true" (JBool true) (String c rest)
          else if (c =? "f")%char then literal "false" (JBool false) (String c rest)
          else
            match parse_number (String c rest) with
            | Some (z, rest') => Some (JInt z, rest')
            | None => None
            end
      end
  end

with parse_items (fuel : nat) (s : string) {struct fuel}
  : option (list JsonType * string) :=
  match fuel with
  | O => None
  | S fuel' =>
      match parse_value fuel' s with
      | Some (v, rest) =>
          match skip_ws rest with
          | String "," rest' =>
              match parse_items fuel' rest' with
              | Some (l, rest'') => Some (v :: l, rest'')
              | None => None
              end
          | String "]" rest' => Some ([v], rest')
          | _ => None
          end
      | None => None
      end
  end

with parse_members (fuel : nat) (acc : list (string * JsonType)) (s : string)
  {struct fuel} : option (list (string * JsonType) * string) :=
  match fuel with
  | O => None
  | S fuel' =>
      match skip_ws s with
      | String c rest =>
          if (c =? dquote)%char then
            match parse_string_body rest with
            | Some (k, rest1) =>
                match skip_ws rest1 with
                | String ":" rest2 =>
                    match parse_value fuel' rest2 with
                    | Some (v, rest3) =>
                        match skip_ws rest3 with
                        | String "," rest4 =>
                            parse_members fuel' (dict_set acc k v) rest4
                        | String "}" rest4 => Some (dict_set acc k v, rest4)
                        | _ => None
                        end
                    | None => None
                    end
                | _ => None
                end
            | None => None
            end
          else None
      | EmptyString => None
      end
  end.

Definition loads (s : string) : option JsonType :=
  match parse_value (2 * String.length s + 2) s with
  | Some (v, rest) =>
      match skip_ws rest with
      | EmptyString => Some v
      | _ => None
      end
  | None => None
  end.

(** [decode_payload p]: the [data] field of [p], base64 decoded, read as
    UTF-8 and parsed as JSON. *)
Definition decode_payload (p : JsonType) : option JsonType :=
  match p with
  | JObj [(k, JStr data)] =>
      if (k =? "data")%string then
        match b64decode (encode_utf8 data) with
        | Some bs =>
            match decode_utf8 bs with
            | Some json_text => loads json_text
            | None => None
            end
        | None => None
        end
      else None
  | _ => None
  end.

(* ================================================================== *)
(** * Running the channel *)

(** The state a method leaves, and what it asked of the collaborators. *)
Definition exec {A : Type} (m : Channel.M A) (w : Channel.World) : Channel.World :=
  snd (m w).

Definition events_of {A : Type} (m : Channel.M A) (w : Channel.World) : list Event :=
  skipn (List.length (Channel.trace w)) (Channel.trace (exec m w)).

(** The question [get_stream] puts to the client. *)
Definition stream_lookup (c : Channel.t) : GQLOperation :=
  with_variables (GQL_OPERATIONS "GetStreamInfo") [("channel", JStr (Channel._login c))].

(** The entry points that move the liveness state.  [OpOnlineDelay] is the
    event loop running the pending task to its end; a task whose handle the
    channel no longer holds has been cancelled and does not run. *)
Inductive Op : Type :=
| OpSetOnline
| OpSetOffline
| OpCheckOnline
| OpOnlineDelay.

Section Operations.
Variable DROPS_ENABLED_TAG : string.
Variable twitch : Twitch.

Definition run_op (op : Op) (w : Channel.World) : Channel.World :=
  match op with
  | OpSetOnline => exec Channel.set_online w
  | OpSetOffline => exec Channel.set_offline w
  | OpCheckOnline => exec (Channel.check_online DROPS_ENABLED_TAG twitch) w
  | OpOnlineDelay =>
      if Channel.pending_online (Channel.self w)
      then exec (Channel._online_delay DROPS_ENABLED_TAG twitch) w
      else w
  end.

Fixpoint run_ops (ops : list Op) (w : Channel.World) : Channel.World :=
  match ops with
  | [] => w
  | op :: rest => run_ops rest (run_op op w)
  end.

(** The step is a [check_online] that finds a stream while a confirmation
    is pending. *)
Definition adopts_while_pending (op : Op) (w : Channel.World) : Prop :=
  op = OpCheckOnline
  /\ Channel.pending_online (Channel.self w) = true
  /\ fst (Channel.check_online DROPS_ENABLED_TAG twitch w) = Ok true.

(** No step of the run is one. *)
Fixpoint no_adoption_while_pending (ops : list Op) (w : Channel.World) : Prop :=
  match ops with
  | [] => True
  | op :: rest =>
      ~ adopts_while_pending op w /\ no_adoption_while_pending rest (run_op op w)
  end.

End Operations.

(** Any call on the channel: the four above, the accessors that write, and
    the coroutines of the heartbeat. *)
Inductive Call : Type :=
| CallOp (op : Op)
| CallGetStream
| CallGetSpadeUrl
| CallPayload
| CallSendWatch
| CallSetViewers (value : Z)
| CallDisplay (add : bool)
| CallRemove.

Section Calls.
Variables (BASE_URL DROPS_ENABLED_TAG : string).
Variable twitch : Twitch.

Definition run_call (c : Call) (w : Channel.World) : Channel.World :=
  match c with
  | CallOp op => run_op DROPS_ENABLED_TAG twitch op w
  | CallGetStream => exec (Channel.get_stream DROPS_ENABLED_TAG twitch) w
  | CallGetSpadeUrl => exec (Channel.get_spade_url BASE_URL twitch) w
  | CallPayload => exec (Channel._payload twitch) w
  | CallSendWatch => exec (Channel.send_watch BASE_URL twitch) w
  | CallSetViewers value => exec (Channel.viewers_setter value) w
  | CallDisplay add => exec (Channel.display add) w
  | CallRemove => exec Channel.remove w
  end.

Fixpoint run_calls (cs : list Call) (w : Channel.World) : Channel.World :=
  match cs with
  | [] => w
  | c :: rest => run_calls rest (run_call c w)
  end.

End Calls.

(** The world after the one question of [get_stream], the channel
    untouched. *)
Definition asked_stream (w : Channel.World) : Channel.World :=
  {| Channel.self := Channel.self w;
     Channel.trace := (Channel.trace w ++ [EvGql (stream_lookup (Channel.self w))])%list |}.

(** The world in which the delayed confirmation makes its lookup. *)
Definition slept (w : Channel.World) : Channel.World :=
  {| Channel.self := Channel.self w;
     Channel.trace := (Channel.trace w ++ [EvSleepOnlineDelay])%list |}.

(** What the [try] statement of [send_watch] comes to, for a channel whose
    spade URL is [spade_url]. *)
Definition send_watch_post (twitch : Twitch) (spade_url : ustr) (w : Channel.World)
  : Result bool * Channel.World :=
  match Channel._payload twitch w with
  | (Ok data, w2) =>
      let w3 := {| Channel.self := Channel.self w2;
                   Channel.trace :=
                     (Channel.trace w2 ++ [EvRequest POST spade_url (Some data)])%list |} in
      match request twitch (Channel.trace w2) POST spade_url (Some data) with
      | Ok response => (Ok (status response =? 204)%Z, w3)
      | Raise RequestException => (Ok false, w3)
      | Raise e => (Raise e, w3)
      end
  | (Raise RequestException, w2) => (Ok false, w2)
  | (Raise e, w2) => (Raise e, w2)
  end.

(** An event that is a GET without a body. *)
Definition is_get (e : Event) : bool :=
  match e with
  | EvRequest GET _ None => true
  | _ => false
  end.

(** A memoized payload is only held together with a stream. *)
Definition cache_needs_stream (c : Channel.t) : Prop :=
  Channel._stream c = None -> Channel.cached_payload c = None.

(** A tag object whose [id] is not the given tag. *)
Definition other_tag (tag_id : string) (t : JsonType) : Prop :=
  exists i, getitem t "id" = Ok i /\ py_eq_str i tag_id = false.

(** Whether a tag object carries the given tag id. *)
Definition has_tag_id (tag_id : string) (t : JsonType) : bool :=
  match getitem t "id" with
  | Ok i => py_eq_str i tag_id
  | Raise _ => false
  end.

(** Exactly one of the three status queries answers [True]. *)
Definition exactly_one_status (c : Channel.t) : bool :=
  match Channel.online c, Channel.offline c, Channel.pending_online c with
  | true, false, false => true
  | false, true, false => true
  | false, false, true => true
  | _, _, _ => false
  end.

(** Not both a stream and a pending task. *)
Definition not_both (c : Channel.t) : Prop :=
  Channel._stream c = None \/ Channel._pending_stream_up c = None.

(** Exactly one status holds before every step of the run and at its end. *)
Fixpoint always_exactly_one (DROPS_ENABLED_TAG : string) (twitch : Twitch)
  (ops : list Op) (w : Channel.World) : Prop :=
  exactly_one_status (Channel.self w) = true
  /\ match ops with
     | [] => True
     | op :: rest =>
         always_exactly_one DROPS_ENABLED_TAG twitch rest
           (run_op DROPS_ENABLED_TAG twitch op w)
     end.

(** Both a stream and a pending task. *)
Definition online_and_pending (c : Channel.t) : Prop :=
  Channel.online c = true /\ Channel.pending_online c = true.

(* ================================================================== *)
(** * The scrape patterns in the words of the specification

    The shapes are stated for a way [fl] of comparing letters: [RE_I] is the
    way of the module's searches, [RE_I_A] compares the letters of ASCII
    without regard to their case and every other code point exactly. *)

(** [m] is the fixed text [fixed], letter by letter. *)
Fixpoint same_text (fl : Flags) (m : ustr) (fixed : string) : Prop :=
  match m, fixed with
  | [], EmptyString => True
  | x :: m', String c fixed' => chr_match fl c x = true /\ same_text fl m' fixed'
  | _, _ => False
  end.

Definition is_hex_digit (x : N) : bool :=
  ((48 <=? x) && (x <=? 57) || (97 <=? x) && (x <=? 102)
   || (65 <=? x) && (x <=? 70))%N.

(** A settings script URL: the fixed host and path, a hash of 32 hexadecimal
    digits, the extension. *)
Definition is_settings_script_url (fl : Flags) (u : ustr) : Prop :=
  exists head hash ext,
    u = (head ++ hash ++ ext)%list
    /\ same_text fl head "https://static.twitchcdn.net/config/settings."
    /\ List.length hash = 32%nat /\ forallb is_hex_digit hash = true
    /\ same_text fl ext ".js".

(** [u] is the value of a [src] attribute at the place where [pre] ends. *)
Definition settings_script_at (fl : Flags) (pre u : ustr) (html : ustr) : Prop :=
  exists attr post,
    html = (pre ++ attr ++ u ++ ustr_of_string DQ ++ post)%list
    /\ same_text fl attr ("src=" ++ DQ)
    /\ is_settings_script_url fl u.

Definition has_settings_script (fl : Flags) (html : ustr) : Prop :=
  exists pre u, settings_script_at fl pre u html.

Definition is_spade_url_char (fl : Flags) (x : N) : bool :=
  ((x =? 46) || is_word fl x || (x =? 45) || (x =? 47))%N.

(** A spade URL: the fixed scheme and host prefix, one or more characters
    of the URL alphabet (full stop, hyphen, slash, underscore, alphanumeric),
    the extension. *)
Definition is_spade_url (fl : Flags) (u : ustr) : Prop :=
  exists head body ext,
    u = (head ++ body ++ ext)%list
    /\ same_text fl head "https://video-edge-"
    /\ body <> [] /\ forallb (is_spade_url_char fl) body = true
    /\ same_text fl ext ".ts".

(** [u] is the quoted value of a [spade_url] key at the place where [pre]
    ends. *)
Definition spade_url_at (fl : Flags) (pre u : ustr) (js : ustr) : Prop :=
  exists key sp post,
    js = (pre ++ key ++ sp ++ ustr_of_string DQ ++ u ++ ustr_of_string DQ
          ++ post)%list
    /\ same_text fl key (DQ ++ "spade_url" ++ DQ ++ ":")
    /\ (sp = [] \/ sp = [32%N])
    /\ is_spade_url fl u.

Definition has_spade_url (fl : Flags) (js : ustr) : Prop :=
  exists pre u, spade_url_at fl pre u js.

(** Text of ASCII only. *)
Definition is_ascii (s : ustr) : bool := forallb (fun x => (x <? 128)%N) s.

(* ================================================================== *)
(** * What a pattern matches

    The texts a pattern matches, stated without reference to the order in
    which the matcher tries them. *)

Fixpoint lit_ok (fl : Flags) (lit : string) (m : ustr) : bool :=
  match lit, m with
  | EmptyString, [] => true
  | String c lit', x :: m' => chr_match fl c x && lit_ok fl lit' m'
  | _, _ => false
  end.

Fixpoint matches (fl : Flags) (r : regex) (m : ustr) : Prop :=
  match r with
  | Lit l => lit_ok fl l m = true
  | Opt a => m = [] \/ exists x, m = [x] /\ atom_match fl a x = true
  | Plus a => m <> [] /\ forallb (atom_match fl a) m = true
  | Rep n a => List.length m = n /\ forallb (atom_match fl a) m = true
  | Cat r1 r2 =>
      exists m1 m2, m = (m1 ++ m2)%list /\ matches fl r1 m1 /\ matches fl r2 m2
  end.

(** The pattern matches in [s] right after [pre], with group [g]. *)
Definition occurs (fl : Flags) (p : pattern) (pre g s : ustr) : Prop :=
  exists m1 m3 post,
    s = (pre ++ m1 ++ g ++ m3 ++ post)%list
    /\ matches fl (before p) m1 /\ matches fl (group p) g
    /\ matches fl (after p) m3.

(** The spade URL is known once [send_watch] has passed its second
    statement: it was cached, or [get_spade_url] has just answered it. *)
Definition spade_url_resolved (BASE_URL : string) (twitch : Twitch)
  (w : Channel.World) (spade_url : ustr) (w1 : Channel.World) : Prop :=
  match Channel._spade_url (Channel.self w) with
  | Some u => u = spade_url /\ w1 = w
  | None =>
      exists w',
        Channel.get_spade_url BASE_URL twitch w = (Ok spade_url, w')
        /\ w1 = {| Channel.self := Channel.set_spade_url (Channel.self w') (Some spade_url);
                   Channel.trace := Channel.trace w' |}
  end.

(** The event list that a payload is expected to decode to. *)
Definition minute_watched (channel_id broadcast_id user_id : Z) : JsonType :=
  JList [JObj [("event", JStr "minute-watched");
               ("properties",
                JObj [("channel_id", JInt channel_id);
                      ("broadcast_id", JInt broadcast_id);
                      ("player", JStr "site");
                      ("user_id", JInt user_id)])]].

(** The text that [dumps] writes for [minute_watched], with [a], [b] and [c]
    standing for the three numbers. *)
Definition minute_watched_text (a b c : string) : string :=
  "[{" ++ DQ ++ "event" ++ DQ ++ ":" ++ DQ ++ "minute-watched" ++ DQ ++ ","
    ++ DQ ++ "properties" ++ DQ ++ ":{"
    ++ DQ ++ "channel_id" ++ DQ ++ ":" ++ a ++ ","
    ++ DQ ++ "broadcast_id" ++ DQ ++ ":" ++ b ++ ","
    ++ DQ ++ "player" ++ DQ ++ ":" ++ DQ ++ "site" ++ DQ ++ ","
    ++ DQ ++ "user_id" ++ DQ ++ ":" ++ c ++ "}}]".

(** A numeral as [N.to_uint] and [Pos.to_uint] write it: not empty, and
    without a leading zero unless it is zero. *)
Definition canonical (d : uint) : Prop :=
  match d with
  | Nil => False
  | D0 Nil => True
  | D0 _ => False
  | _ => True
  end.

(* ================================================================== *)
(** * Sample collaborators and channels *)

Definition sample_tag : string := "c2542d6d-cd10-4532-919b-3d19f30a768b".

Definition sample_base_url : string := "https://www.twitch.tv".

(** The [user] object of a lookup of a live channel. *)
Definition sample_live_user (broadcast : string) : JsonType :=
  JObj [("id", JStr "1234");
        ("displayName", JStr "Bob");
        ("stream",
         JObj [("id", JStr broadcast);
               ("viewersCount", JInt 500);
               ("tags", JList [JObj [("id", JStr "other")];
                               JObj [("id", JStr sample_tag)]])]);
        ("broadcastSettings",
         JObj [("game", JObj [("id", JStr "33"); ("name", JStr "Chess")]);
               ("title", JStr "hello")])].

(** The same for a channel that is not live. *)
Definition sample_offline_user : JsonType :=
  JObj [("id", JStr "1234");
        ("displayName", JStr "Bob");
        ("stream", JNull);
        ("broadcastSettings",
         JObj [("game", JNull); ("title", JStr "bye")])].

Definition sample_response (user : JsonType) : JsonType :=
  JObj [("data", JObj [("user", user)])].

Definition sample_settings_url : ustr :=
  ustr_of_string
    "https://static.twitchcdn.net/config/settings.0123456789abcdef0123456789ABCDEF.js".

Definition sample_page : ustr :=
  (ustr_of_string ("<html><script src=" ++ DQ) ++ sample_settings_url
   ++ ustr_of_string (DQ ++ "></script></html>"))%list.

Definition sample_spade_url : ustr :=
  ustr_of_string "https://video-edge-a1b2c3.example.net/v1/segment/live_42.ts".

Definition sample_settings_js : ustr :=
  (ustr_of_string ("window.settings={" ++ DQ ++ "spade_url" ++ DQ ++ ": " ++ DQ)
   ++ sample_spade_url ++ ustr_of_string (DQ ++ "}"))%list.

(** The settings script URL with U+017F, the long s, for the first letter of
    the host, and a page that names it. *)
Definition long_s_settings_url : ustr :=
  (ustr_of_string "https://" ++ [383%N]
   ++ ustr_of_string
        "tatic.twitchcdn.net/config/settings.0123456789abcdef0123456789abcdef.js")%list.

Definition long_s_page : ustr :=
  (ustr_of_string ("<html><script src=" ++ DQ) ++ long_s_settings_url
   ++ ustr_of_string (DQ ++ "></script></html>"))%list.

(** A client whose lookups always answer [user] and whose heartbeat POST
    ends as [post]. *)
Definition sample_twitch (user : JsonType) (post : Result Response) : Twitch :=
  {| _user_id := 42;
     request := fun _ m url _ =>
       match m with
       | POST => post
       | GET =>
           if ustr_eqb url sample_settings_url
           then Ok {| status := 200; text := sample_settings_js |}
           else Ok {| status := 200; text := sample_page |}
       end;
     gql_request := fun _ _ => Ok (sample_response user) |}.

(** A client that sees broadcast 100 at its first lookup and broadcast 200
    at every later one. *)
Definition restarting_twitch : Twitch :=
  {| _user_id := 42;
     request := fun _ _ _ _ => Ok {| status := 204; text := [] |};
     gql_request := fun history _ =>
       if existsb (fun e => match e with EvGql _ => true | _ => false end) history
       then Ok (sample_response (sample_live_user "200"))
       else Ok (sample_response (sample_live_user "100")) |}.

(** [Channel(twitch, id=1234, login="bob")] *)
Definition sample_channel : Channel.t :=
  {| Channel.id := 1234; Channel._login := "bob"; Channel._display_name := None;
     Channel._spade_url := None; Channel.points := None; Channel._stream := None;
     Channel._pending_stream_up := None; Channel.priority := false;
     Channel.cached_payload := None |}.

Definition sample_world : Channel.World :=
  {| Channel.self := sample_channel; Channel.trace := [] |}.

Definition sample_stream : Stream.t :=
  {| Stream.broadcast_id := 100; Stream.viewers := 500; Stream.drops_enabled := true;
     Stream.game := Some {| game_id := 33; game_name := "Chess" |};
     Stream.title := "hello" |}.

(** The same channel, live. *)
Definition sample_online_world : Channel.World :=
  {| Channel.self := Channel.set_stream sample_channel (Some sample_stream);
     Channel.trace := [] |}.
(** A client that finds the channel live on broadcast 100 and whose
    heartbeat is accepted. *)
Definition sample_live_twitch : Twitch :=
  sample_twitch (sample_live_user "100") (Ok {| status := 204; text := [] |}).

(** A client that finds the channel not live. *)
Definition sample_offline_twitch : Twitch :=
  sample_twitch sample_offline_user (Ok {| status := 204; text := [] |}).

(** What the sample clients answer to a GET. *)
Definition sample_script_of (url : ustr) : Response :=
  if ustr_eqb url sample_settings_url
  then {| status := 200; text := sample_settings_js |}
  else {| status := 200; text := sample_page |}.

(** A client that serves the page with the long s, and the sample settings
    script at every other URL. *)
Definition long_s_twitch : Twitch :=
  {| _user_id := 42;
     request := fun _ _ url _ =>
       if ustr_eqb url (ustr_of_string "https://www.twitch.tv/bob")
       then Ok {| status := 200; text := long_s_page |}
       else Ok {| status := 200; text := sample_settings_js |};
     gql_request := fun _ _ => Ok (sample_response (sample_live_user "100")) |}.

(** The live sample channel once [send_watch] has resolved its spade URL. *)
Definition sample_resolved_world : Channel.World :=
  let w' := snd (Channel.get_spade_url sample_base_url sample_live_twitch
                   sample_online_world) in
  {| Channel.self := Channel.set_spade_url (Channel.self w') (Some sample_spade_url);
     Channel.trace := Channel.trace w' |}.

(** The base64 text of the events of channel 1234, broadcast 100, user 42. *)
Definition sample_data_100 : string :=
  "W3siZXZlbnQiOiJtaW51dGUtd2F0Y2hlZCIsInByb3BlcnRpZXMiOnsiY2hhbm5lbF9pZCI6MTIzNCwiYnJvYWRjYXN0X2lkIjoxMDAsInBsYXllciI6InNpdGUiLCJ1c2VyX2lkIjo0Mn19XQ==".

(** The payload of the live sample channel. *)
Definition sample_payload : JsonType :=
  match fst (Channel._payload sample_live_twitch sample_resolved_world) with
  | Ok p => p
  | Raise _ => JNull
  end.

(** A client whose transport is down: every request and every lookup raises
    the transport's exception. *)
Definition sample_failing_twitch : Twitch :=
  {| _user_id := 42;
     request := fun _ _ _ _ => Raise RequestException;
     gql_request := fun _ _ => Raise RequestException |}.

(** A client that does not know the channel: its lookups answer a null
    [user]. *)
Definition sample_unknown_twitch : Twitch :=
  sample_twitch JNull (Ok {| status := 204; text := [] |}).

(** The tags of the live sample stream. *)
Definition sample_tags : list JsonType :=
  [JObj [("id", JStr "other")]; JObj [("id", JStr sample_tag)]].

(** A directory entry for the live sample channel, with the fields of the
    lookup answer laid flat. *)
Definition sample_directory_entry : JsonType :=
  JObj [("id", JStr "100");
        ("game", JObj [("id", JStr "33"); ("name", JStr "Chess")]);
        ("viewersCount", JInt 500);
        ("title", JStr "hello");
        ("tags", JList sample_tags);
        ("broadcaster",
         JObj [("id", JStr "1234"); ("login", JStr "bob");
               ("displayName", JStr "Bob")])].

(** The sample channel with a confirmation pending. *)
Definition sample_pending_world : Channel.World :=
  exec Channel.set_online sample_world.

(** The sample channel after it was found live on broadcast 100, its
    payload was read, and it was set offline. *)
Definition sample_stopped_world : Channel.World :=
  run_calls sample_base_url sample_tag restarting_twitch
    [CallOp OpCheckOnline; CallPayload; CallOp OpSetOffline] sample_world.

(* ================================================================== *)
(** * Properties: the liveness state machine *)

Ltac unfold_m :=
  unfold exec, events_of, Channel.set_online, Channel.set_offline, Channel.display,
    Channel.create_task, Channel.emit, Channel.update, Channel.get_self,
    Channel.invalidate_cache, Channel.bind, Channel.ret, Channel.raise,
    Channel.lift, Channel.twitch_gql_request, Channel.twitch_request in *.

Ltac destruct_world w :=
  let c := fresh "c" in
  let tr := fresh "tr" in
  destruct w as [c tr];
  destruct c as [? ? ? ? ? ? ? ? ?].

Lemma skipn_length_app {A : Type} (l evs : list A) :
  skipn (List.length l) (l ++ evs)%list = evs.
Proof.
  induction l as [|x l IH]; [reflexivity | exact IH].
Qed.

Lemma set_online_cases (w : Channel.World) :
  Channel.set_online w =
  (Ok tt,
   if Channel.offline (Channel.self w) then
     {| Channel.self :=
          Channel.set_pending_stream_up (Channel.self w)
            (Some (List.length (Channel.trace w)));
        Channel.trace :=
          (Channel.trace w
             ++ [EvCreateTask (List.length (Channel.trace w)); EvDisplay false])%list |}
   else w).
Proof.
  destruct_world w. unfold_m. cbn.
  destruct (Channel.offline _); cbn; [|reflexivity].
  now rewrite <- List.app_assoc.
Qed.

Lemma set_offline_cases (w : Channel.World) :
  Channel.set_offline w =
  (Ok tt,
   match Channel._pending_stream_up (Channel.self w), Channel._stream (Channel.self w) with
   | None, None => w
   | Some t, None =>
       {| Channel.self := Channel.set_pending_stream_up (Channel.self w) None;
          Channel.trace := (Channel.trace w ++ [EvCancel t; EvDisplay false])%list |}
   | None, Some _ =>
       {| Channel.self :=
            Channel.set_cached_payload (Channel.set_stream (Channel.self w) None) None;
          Channel.trace := (Channel.trace w ++ [EvDisplay false; EvOnOffline])%list |}
   | Some t, Some _ =>
       {| Channel.self :=
            Channel.set_cached_payload
              (Channel.set_stream
                 (Channel.set_pending_stream_up (Channel.self w) None) None) None;
          Channel.trace :=
            (Channel.trace w
               ++ [EvCancel t; EvDisplay false; EvDisplay false; EvOnOffline])%list |}
   end).
Proof.
  destruct_world w. unfold_m.
  destruct _pending_stream_up, _stream; cbn;
    repeat rewrite <- List.app_assoc; reflexivity.
Qed.

Section LivenessFacts.
Variable DROPS_ENABLED_TAG : string.
Variable twitch : Twitch.

Local Abbreviation get_stream := (Channel.get_stream DROPS_ENABLED_TAG twitch).
Local Abbreviation check_online := (Channel.check_online DROPS_ENABLED_TAG twitch).
Local Abbreviation _online_delay := (Channel._online_delay DROPS_ENABLED_TAG twitch).

(** [get_stream] asks one question and writes to [id] and [_display_name]
    only. *)
Lemma get_stream_frame (w : Channel.World) :
  let c := Channel.self w in
  let c' := Channel.self (snd (get_stream w)) in
  Channel._login c' = Channel._login c
  /\ Channel._spade_url c' = Channel._spade_url c
  /\ Channel.points c' = Channel.points c
  /\ Channel._stream c' = Channel._stream c
  /\ Channel._pending_stream_up c' = Channel._pending_stream_up c
  /\ Channel.priority c' = Channel.priority c
  /\ Channel.cached_payload c' = Channel.cached_payload c
  /\ Channel.trace (snd (get_stream w))
     = (Channel.trace w ++ [EvGql (stream_lookup c)])%list.
Proof.
  destruct_world w. unfold Channel.get_stream, stream_lookup. unfold_m. cbn.
  repeat match goal with
         | |- context [match ?x with _ => _ end] => destruct x; cbn
         | |- context [if ?x then _ else _] => destruct x; cbn
         end; repeat split; reflexivity.
Qed.

Lemma check_online_unfold (w : Channel.World) :
  check_online w =
  match get_stream w with
  | (Ok (Some s), w1) =>
      (Ok true,
       {| Channel.self := Channel.set_stream (Channel.self w1) (Some s);
          Channel.trace := Channel.trace w1 |})
  | (Ok None, w1) =>
      (Ok false,
       {| Channel.self :=
            Channel.set_cached_payload (Channel.set_stream (Channel.self w1) None) None;
          Channel.trace := Channel.trace w1 |})
  | (Raise e, w1) => (Raise e, w1)
  end.
Proof.
  unfold Channel.check_online. unfold_m.
  destruct (get_stream w) as [[[s|]|e] w1]; reflexivity.
Qed.

Lemma _online_delay_unfold (w : Channel.World) :
  let w0 := {| Channel.self := Channel.self w;
               Channel.trace := (Channel.trace w ++ [EvSleepOnlineDelay])%list |} in
  _online_delay w =
  match get_stream w0 with
  | (Ok (Some s), w1) =>
      (Ok tt,
       {| Channel.self :=
            Channel.set_pending_stream_up
              (Channel.set_stream (Channel.self w1) (Some s)) None;
          Channel.trace := (Channel.trace w1 ++ [EvDisplay false; EvOnOnline])%list |})
  | (Ok None, w1) =>
      (Ok tt,
       {| Channel.self :=
            Channel.set_pending_stream_up
              (Channel.set_cached_payload
                 (Channel.set_stream (Channel.self w1) None) None) None;
          Channel.trace := (Channel.trace w1 ++ [EvDisplay false])%list |})
  | (Raise e, w1) => (Raise e, w1)
  end.
Proof.
  intro w0. unfold Channel._online_delay.
  unfold Channel.bind at 1. unfold Channel.emit at 1. fold w0.
  unfold Channel.bind at 1. rewrite check_online_unfold.
  destruct (get_stream w0) as [[[s|]|e] w1]; unfold_m; cbn;
    repeat rewrite <- List.app_assoc; reflexivity.
Qed.

Lemma exactly_one_status_iff (c : Channel.t) :
  exactly_one_status c = true <-> not_both c.
Proof.
  unfold exactly_one_status, not_both, Channel.online, Channel.offline,
    Channel.pending_online, is_not_None, is_None.
  destruct (Channel._stream c), (Channel._pending_stream_up c); cbn;
    intuition congruence.
Qed.

Lemma adopts_while_pending_both (op : Op) (w : Channel.World) :
  adopts_while_pending DROPS_ENABLED_TAG twitch op w ->
  online_and_pending (Channel.self (run_op DROPS_ENABLED_TAG twitch op w)).
Proof.
  intros (-> & Hp & Hok). cbn [run_op]. unfold exec, online_and_pending.
  rewrite check_online_unfold in *.
  destruct (get_stream_frame w) as (_ & _ & _ & _ & Hpe & _).
  unfold Channel.pending_online in *.
  destruct (get_stream w) as [[[s|]|e] w1]; cbn [fst snd] in *; try discriminate.
  cbn. now rewrite Hpe.
Qed.

Lemma run_op_not_both (op : Op) (w : Channel.World) :
  ~ adopts_while_pending DROPS_ENABLED_TAG twitch op w ->
  not_both (Channel.self w) ->
  not_both (Channel.self (run_op DROPS_ENABLED_TAG twitch op w)).
Proof.
  intros Hguard Hinv. unfold not_both in *.
  destruct op; cbn [run_op]; unfold exec.
  - rewrite set_online_cases. cbn [snd].
    unfold Channel.offline, is_None.
    destruct (Channel._stream (Channel.self w)) eqn:Es;
      destruct (Channel._pending_stream_up (Channel.self w)) eqn:Ep; cbn;
      rewrite ?Es, ?Ep; intuition congruence.
  - rewrite set_offline_cases. cbn [snd].
    destruct (Channel._pending_stream_up (Channel.self w)) eqn:Ep;
      destruct (Channel._stream (Channel.self w)) eqn:Es; cbn;
      rewrite ?Es, ?Ep; intuition congruence.
  - unfold adopts_while_pending in Hguard. rewrite check_online_unfold in *.
    unfold Channel.pending_online, is_not_None, is_None in Hguard.
    destruct (get_stream_frame w) as (_ & _ & _ & Hs & Hp & _).
    destruct (get_stream w) as [[[s|]|e] w1]; cbn [fst snd] in *; cbn; auto.
    + right. rewrite Hp.
      destruct (Channel._pending_stream_up (Channel.self w)); [|reflexivity].
      exfalso. apply Hguard. repeat split.
    + rewrite Hs, Hp. exact Hinv.
  - destruct (Channel.pending_online (Channel.self w)); [|exact Hinv].
    rewrite _online_delay_unfold.
    match goal with |- context [get_stream ?w0] =>
      destruct (get_stream_frame w0) as (_ & _ & _ & Hs & Hp & _);
      destruct (get_stream w0) as [[[s|]|e] w1] end; cbn [snd] in *; cbn; auto.
    rewrite Hs, Hp. exact Hinv.
Qed.

Lemma online_and_pending_not_one (c : Channel.t) :
  online_and_pending c -> exactly_one_status c = false.
Proof.
  intros [Hon Hp]. unfold exactly_one_status. rewrite Hon, Hp.
  destruct (Channel.offline c); reflexivity.
Qed.

Lemma always_exactly_one_head (ops : list Op) (w : Channel.World) :
  always_exactly_one DROPS_ENABLED_TAG twitch ops w ->
  exactly_one_status (Channel.self w) = true.
Proof.
  destruct ops; intros [H _]; exact H.
Qed.

Lemma always_exactly_one_iff (ops : list Op) (w : Channel.World) :
  exactly_one_status (Channel.self w) = true ->
  (always_exactly_one DROPS_ENABLED_TAG twitch ops w
   <-> no_adoption_while_pending DROPS_ENABLED_TAG twitch ops w).
Proof.
  revert w. induction ops as [|op ops IH]; intros w Hone.
  - cbn. tauto.
  - cbn [always_exactly_one no_adoption_while_pending]. split.
    + intros [_ Hrest].
      pose proof (always_exactly_one_head _ _ Hrest) as Hnext.
      split; [|now apply IH].
      intro Hadopt. apply adopts_while_pending_both in Hadopt.
      apply online_and_pending_not_one in Hadopt. congruence.
    + intros [Hguard Hrest]. split; [exact Hone|].
      assert (Hnext : exactly_one_status
                        (Channel.self (run_op DROPS_ENABLED_TAG twitch op w)) = true).
      { apply exactly_one_status_iff. apply run_op_not_both; [exact Hguard|].
        now apply exactly_one_status_iff. }
      now apply IH.
Qed.

(** C1, as amended.  After any sequence of [set_online], [set_offline],
    [check_online] and completions of the delayed confirmation, [offline]
    holds exactly when neither [online] nor [pending_online] does.  When the
    sequence starts in a state in which exactly one of the three holds,
    exactly one holds after every step if and only if no step is a
    [check_online] that finds a stream while a confirmation is pending; such
    a step leaves the channel both online and pending online.  From any
    state reached, exactly one status holds after [set_offline], after a
    delayed confirmation that returns, and after a [check_online] that
    answers [False]; a channel that is both online and pending online stays
    so through [set_online], through a [check_online] that answers [True] or
    raises, and through a delayed confirmation that raises. *)
Theorem liveness_status_exactly_one (ops : list Op) (w : Channel.World) :
  let w' := run_ops DROPS_ENABLED_TAG twitch ops w in
  let c := Channel.self w' in
  Channel.offline c = negb (Channel.online c) && negb (Channel.pending_online c)
  /\ (exactly_one_status (Channel.self w) = true ->
      (always_exactly_one DROPS_ENABLED_TAG twitch ops w
       <-> no_adoption_while_pending DROPS_ENABLED_TAG twitch ops w))
  /\ (forall op,
        adopts_while_pending DROPS_ENABLED_TAG twitch op w' ->
        online_and_pending (Channel.self (run_op DROPS_ENABLED_TAG twitch op w')))
  /\ exactly_one_status (Channel.self (exec Channel.set_offline w')) = true
  /\ (fst (_online_delay w') = Ok tt ->
      exactly_one_status (Channel.self (exec _online_delay w')) = true)
  /\ (fst (check_online w') = Ok false ->
      exactly_one_status (Channel.self (exec check_online w')) = true)
  /\ (online_and_pending c ->
      exec Channel.set_online w' = w'
      /\ (fst (check_online w') <> Ok false ->
          online_and_pending (Channel.self (exec check_online w')))
      /\ (forall e, fst (_online_delay w') = Raise e ->
          online_and_pending (Channel.self (exec _online_delay w')))).
Proof.
  intros w' c. subst c. generalize w'. clear w'. intro w'.
  split; [|split; [|split; [|split; [|split; [|split]]]]].
  - unfold Channel.offline, Channel.online, Channel.pending_online,
      is_not_None, is_None.
    destruct (Channel._stream _), (Channel._pending_stream_up _); reflexivity.
  - apply always_exactly_one_iff.
  - intros op. apply adopts_while_pending_both.
  - apply exactly_one_status_iff. unfold not_both, exec.
    rewrite set_offline_cases. cbn [snd].
    destruct (Channel._pending_stream_up (Channel.self w')),
      (Channel._stream (Channel.self w')) eqn:Es; cbn; auto.
  - unfold exec. rewrite _online_delay_unfold.
    match goal with |- context [get_stream ?w0] =>
      destruct (get_stream w0) as [[[s|]|e] w1] end; cbn [fst snd];
      intro H; try discriminate; apply exactly_one_status_iff; right; reflexivity.
  - unfold exec. rewrite check_online_unfold.
    destruct (get_stream w') as [[[s|]|e] w1]; cbn [fst snd];
      intro H; try discriminate. apply exactly_one_status_iff. left. reflexivity.
  - unfold online_and_pending, exec. intros [Hon Hp].
    split; [|split].
    + rewrite set_online_cases. unfold Channel.offline, Channel.online in *.
      unfold is_not_None in Hon. apply negb_true_iff in Hon. now rewrite Hon.
    + rewrite check_online_unfold.
      destruct (get_stream_frame w') as (_ & _ & _ & Hs & Hpe & _).
      unfold Channel.online, Channel.pending_online in *.
      destruct (get_stream w') as [[[s|]|e] w1]; cbn [fst snd] in *; intro Hne.
      * cbn. now rewrite Hpe.
      * now contradiction Hne.
      * now rewrite Hs, Hpe.
    + intros e. rewrite _online_delay_unfold.
      match goal with |- context [get_stream ?w0] =>
        destruct (get_stream_frame w0) as (_ & _ & _ & Hs & Hpe & _);
        destruct (get_stream w0) as [[[s|]|e'] w1] end; cbn [fst snd] in *;
        intro H; try discriminate.
      unfold Channel.online, Channel.pending_online in *. now rewrite Hs, Hpe.
Qed.

Lemma events_of_app {A : Type} (m : Channel.M A) (w : Channel.World) (evs : list Event) :
  Channel.trace (snd (m w)) = (Channel.trace w ++ evs)%list ->
  events_of m w = evs.
Proof.
  intro H. unfold events_of, exec. rewrite H. apply skipn_length_app.
Qed.

Lemma set_offline_events (w : Channel.World) :
  events_of Channel.set_offline w =
  match Channel._pending_stream_up (Channel.self w), Channel._stream (Channel.self w) with
  | None, None => []
  | Some t, None => [EvCancel t; EvDisplay false]
  | None, Some _ => [EvDisplay false; EvOnOffline]
  | Some t, Some _ => [EvCancel t; EvDisplay false; EvDisplay false; EvOnOffline]
  end.
Proof.
  apply events_of_app. rewrite set_offline_cases. cbn [snd].
  destruct (Channel._pending_stream_up (Channel.self w)),
    (Channel._stream (Channel.self w)); cbn [Channel.trace];
    try reflexivity.
  now rewrite List.app_nil_r.
Qed.

(** C8.  [set_offline] twice is [set_offline] once: after the first call
    the channel is offline, with no stream and no pending task, and the second
    call changes nothing and asks nothing of any collaborator. *)
Theorem set_offline_idempotent (w : Channel.World) :
  let w1 := exec Channel.set_offline w in
  Channel.set_offline w1 = (Ok tt, w1)
  /\ events_of Channel.set_offline w1 = []
  /\ Channel.offline (Channel.self w1) = true
  /\ Channel._stream (Channel.self w1) = None
  /\ Channel._pending_stream_up (Channel.self w1) = None.
Proof.
  intro w1.
  assert (Hs : Channel._stream (Channel.self w1) = None
               /\ Channel._pending_stream_up (Channel.self w1) = None).
  { subst w1. unfold exec. rewrite set_offline_cases. cbn [snd].
    destruct (Channel._pending_stream_up (Channel.self w)) eqn:Ep,
      (Channel._stream (Channel.self w)) eqn:Es; cbn; auto. }
  destruct Hs as [Hs Hp].
  repeat split; trivial.
  - rewrite set_offline_cases, Hs, Hp. reflexivity.
  - rewrite set_offline_events, Hs, Hp. reflexivity.
  - unfold Channel.offline. now rewrite Hs, Hp.
Qed.

(** C7.  [set_online] on a channel that is not offline changes nothing and
    starts nothing; on an offline channel it starts the delayed confirmation,
    keeps its handle and refreshes the display, which leaves the channel
    pending online. *)
Theorem set_online_only_from_offline (w : Channel.World) :
  (Channel.offline (Channel.self w) = false ->
   Channel.set_online w = (Ok tt, w) /\ events_of Channel.set_online w = [])
  /\ (Channel.offline (Channel.self w) = true ->
      exists task w',
        Channel.set_online w = (Ok tt, w')
        /\ Channel.self w' = Channel.set_pending_stream_up (Channel.self w) (Some task)
        /\ events_of Channel.set_online w = [EvCreateTask task; EvDisplay false]
        /\ Channel.pending_online (Channel.self w') = true
        /\ Channel.online (Channel.self w') = false
        /\ Channel.offline (Channel.self w') = false).
Proof.
  split; intro Hoff.
  - split.
    + rewrite set_online_cases, Hoff. reflexivity.
    + apply events_of_app. rewrite set_online_cases, Hoff. cbn [snd].
      now rewrite List.app_nil_r.
  - eexists; eexists. split; [rewrite set_online_cases, Hoff; reflexivity|].
    split; [reflexivity|]. split.
    + apply events_of_app. rewrite set_online_cases, Hoff. reflexivity.
    + unfold Channel.offline, Channel.online, Channel.pending_online,
        is_not_None, is_None in *.
      destruct (Channel._stream (Channel.self w)) eqn:Es; [discriminate|].
      cbn. rewrite Es. auto.
Qed.

Lemma _online_delay_events (w : Channel.World) :
  let w0 := {| Channel.self := Channel.self w;
               Channel.trace := (Channel.trace w ++ [EvSleepOnlineDelay])%list |} in
  events_of _online_delay w =
  ([EvSleepOnlineDelay; EvGql (stream_lookup (Channel.self w))]
   ++ match fst (get_stream w0) with
      | Ok (Some _) => [EvDisplay false; EvOnOnline]
      | Ok None => [EvDisplay false]
      | Raise _ => []
      end)%list.
Proof.
  intro w0. apply events_of_app. rewrite _online_delay_unfold. fold w0.
  destruct (get_stream_frame w0) as (_ & _ & _ & _ & _ & _ & _ & Ht).
  destruct (get_stream w0) as [[[s|]|e] w1]; cbn [snd fst] in *;
    cbn [Channel.trace]; rewrite Ht; subst w0; cbn [Channel.trace Channel.self];
    repeat rewrite <- List.app_assoc; reflexivity.
Qed.

(** C9.  [set_offline] calls the became-offline hook exactly when the
    channel is online before the call and no longer afterwards: the hook is
    called once, last, and the call leaves no stream, no pending task and no
    memoized payload, so the channel is offline.  Without a stream before the
    call the hook is not called; cancelling a pending confirmation then only
    cancels the task and refreshes the display, and leaves the channel
    offline.  A delayed confirmation never calls the became-offline hook, and
    when its lookup yields no stream it calls no hook but the display refresh
    and leaves the channel offline. *)
Theorem on_offline_only_when_stream_cleared (w : Channel.World) :
  let w' := exec Channel.set_offline w in
  let slept := {| Channel.self := Channel.self w;
                  Channel.trace := (Channel.trace w ++ [EvSleepOnlineDelay])%list |} in
  (In EvOnOffline (events_of Channel.set_offline w)
   <-> Channel.online (Channel.self w) = true
       /\ Channel.online (Channel.self w') = false)
  /\ (In EvOnOffline (events_of Channel.set_offline w) ->
      (exists s, Channel._stream (Channel.self w) = Some s)
      /\ Channel._stream (Channel.self w') = None
      /\ Channel._pending_stream_up (Channel.self w') = None
      /\ Channel.cached_payload (Channel.self w') = None
      /\ Channel.offline (Channel.self w') = true
      /\ exists cancelled,
           events_of Channel.set_offline w
           = (cancelled ++ [EvDisplay false; EvOnOffline])%list
           /\ ~ In EvOnOffline cancelled)
  /\ (Channel.online (Channel.self w) = false ->
      ~ In EvOnOffline (events_of Channel.set_offline w)
      /\ Channel.offline (Channel.self w') = true)
  /\ (forall task,
        Channel._pending_stream_up (Channel.self w) = Some task ->
        Channel.online (Channel.self w) = false ->
        events_of Channel.set_offline w = [EvCancel task; EvDisplay false])
  /\ ~ In EvOnOffline (events_of _online_delay w)
  /\ (fst (get_stream slept) = Ok None ->
      events_of _online_delay w
      = [EvSleepOnlineDelay; EvGql (stream_lookup (Channel.self w)); EvDisplay false]
      /\ Channel.offline (Channel.self (exec _online_delay w)) = true).
Proof.
  intros w' slept.
  assert (Hafter : Channel._stream (Channel.self w') = None
                   /\ Channel._pending_stream_up (Channel.self w') = None
                   /\ (Channel._stream (Channel.self w) <> None ->
                       Channel.cached_payload (Channel.self w') = None)).
  { subst w'. unfold exec. rewrite set_offline_cases. cbn [snd].
    destruct (Channel._pending_stream_up (Channel.self w)) eqn:Ep,
      (Channel._stream (Channel.self w)) eqn:Es; cbn; rewrite ?Ep, ?Es;
      intuition congruence. }
  destruct Hafter as (Hs' & Hp' & Hc').
  assert (Hoff' : Channel.offline (Channel.self w') = true).
  { unfold Channel.offline. now rewrite Hs', Hp'. }
  assert (Hon' : Channel.online (Channel.self w') = false).
  { unfold Channel.online. now rewrite Hs'. }
  assert (Hhook : In EvOnOffline (events_of Channel.set_offline w)
                  <-> Channel.online (Channel.self w) = true).
  { rewrite set_offline_events. unfold Channel.online, is_not_None, is_None.
    destruct (Channel._pending_stream_up (Channel.self w)),
      (Channel._stream (Channel.self w)); cbn; intuition discriminate. }
  split; [|split; [|split; [|split; [|split]]]].
  - rewrite Hhook. tauto.
  - intro Hin. apply Hhook in Hin.
    unfold Channel.online, is_not_None, is_None in Hin.
    destruct (Channel._stream (Channel.self w)) as [s|] eqn:Es; [|discriminate].
    split; [now exists s|]. split; [exact Hs'|]. split; [exact Hp'|].
    split; [apply Hc'; discriminate|]. split; [exact Hoff'|].
    rewrite set_offline_events, Es.
    destruct (Channel._pending_stream_up (Channel.self w)) as [t|].
    + exists [EvCancel t; EvDisplay false]. split; [reflexivity|].
      cbn. intuition discriminate.
    + exists []. split; [reflexivity|]. intros [].
  - intro Hoff. split; [|exact Hoff'].
    rewrite Hhook, Hoff. discriminate.
  - intros task Hp Hon. rewrite set_offline_events, Hp.
    unfold Channel.online, is_not_None, is_None in Hon.
    destruct (Channel._stream (Channel.self w)); [discriminate|reflexivity].
  - rewrite _online_delay_events.
    match goal with |- context [fst ?x] => destruct (fst x) as [[s|]|e] end;
      cbn; intuition discriminate.
  - intro Hnone. split.
    + rewrite _online_delay_events. fold slept. rewrite Hnone. reflexivity.
    + unfold exec. rewrite _online_delay_unfold. fold slept.
      destruct (get_stream slept) as [[[s|]|e] w1]; cbn [fst] in Hnone;
        try discriminate.
      reflexivity.
Qed.

End LivenessFacts.

(** C5.  [send_watch] on a channel that is not online answers [False] at
    once: the channel is as it was and no collaborator has been asked
    anything. *)
Theorem send_watch_not_online (BASE_URL : string) (twitch : Twitch) (w : Channel.World) :
  Channel.online (Channel.self w) = false ->
  Channel.send_watch BASE_URL twitch w = (Ok false, w)
  /\ events_of (Channel.send_watch BASE_URL twitch) w = [].
Proof.
  intro Hoff.
  assert (H : Channel.send_watch BASE_URL twitch w = (Ok false, w)).
  { unfold Channel.send_watch. unfold_m. rewrite Hoff. reflexivity. }
  split; [exact H|].
  apply events_of_app. rewrite H. cbn [snd]. now rewrite List.app_nil_r.
Qed.

(* ================================================================== *)
(** * Properties: the live lookup *)

(** C10.  When the lookup answers with a user object, [get_stream] writes
    the user's id and display name to the channel whatever it then finds out
    about the stream; in particular when the stream is null and the answer is
    that there is no stream. *)
Theorem get_stream_backfills_id_and_name
  (DROPS_ENABLED_TAG : string) (twitch : Twitch) (w : Channel.World)
  (response data user id_field name_field : JsonType)
  (user_id : Z) (display_name : option string) :
  gql_request twitch (Channel.trace w) (stream_lookup (Channel.self w)) = Ok response ->
  truthy response = true ->
  getitem response "data" = Ok data ->
  getitem data "user" = Ok user ->
  truthy user = true ->
  getitem user "id" = Ok id_field ->
  py_int id_field = Ok user_id ->
  getitem user "displayName" = Ok name_field ->
  as_optional_str name_field = Ok display_name ->
  let r := Channel.get_stream DROPS_ENABLED_TAG twitch w in
  Channel.id (Channel.self (snd r)) = user_id
  /\ Channel._display_name (Channel.self (snd r)) = display_name
  /\ (forall stream_field,
        getitem user "stream" = Ok stream_field ->
        truthy stream_field = false ->
        fst r = Ok None
        /\ Channel.online (Channel.self (snd r)) = Channel.online (Channel.self w)).
Proof.
  intros Hgql Hresp Hdata Huser Htruthy Hid Hint Hname Hopt r. subst r.
  unfold stream_lookup in Hgql.
  unfold Channel.get_stream. unfold_m. cbn [fst snd Channel.self Channel.trace].
  rewrite Hgql, Hresp. cbn [negb]. rewrite Hdata, Huser, Htruthy. cbn [negb].
  rewrite Hid, Hint, Hname, Hopt.
  destruct (getitem user "stream") as [st|e] eqn:Hst; cbn.
  - destruct (truthy st) eqn:Hts; cbn.
    + destruct (Stream.from_get_stream DROPS_ENABLED_TAG user); cbn;
        (split; [reflexivity | split; [reflexivity|]]);
        intros sf [= <-] Hf; congruence.
    + split; [reflexivity | split; [reflexivity|]].
      intros sf _ _. split; reflexivity.
  - split; [reflexivity | split; [reflexivity|]].
    intros sf Hsf. discriminate.
Qed.

(* ================================================================== *)
(** * Properties: the heartbeat sender *)

Lemma _payload_trace (twitch : Twitch) (w : Channel.World) :
  Channel.trace (snd (Channel._payload twitch w)) = Channel.trace w.
Proof.
  unfold Channel._payload, Channel.compute_payload. unfold_m.
  destruct (Channel.cached_payload (Channel.self w)); [reflexivity|].
  destruct (Channel._stream (Channel.self w)); [|reflexivity].
  cbv zeta. destruct (decode_utf8 _); reflexivity.
Qed.

Lemma _payload_spade_url (twitch : Twitch) (w : Channel.World) :
  Channel._spade_url (Channel.self (snd (Channel._payload twitch w)))
  = Channel._spade_url (Channel.self w).
Proof.
  unfold Channel._payload, Channel.compute_payload. unfold_m.
  destruct (Channel.cached_payload (Channel.self w)); [reflexivity|].
  destruct (Channel._stream (Channel.self w)); [|reflexivity].
  cbv zeta. destruct (decode_utf8 _); reflexivity.
Qed.

Lemma get_spade_url_unfold (BASE_URL : string) (twitch : Twitch) (w : Channel.World) :
  let page_url := ustr_of_string (Channel.url BASE_URL (Channel.self w)) in
  let w1 := {| Channel.self := Channel.self w;
               Channel.trace := (Channel.trace w ++ [EvRequest GET page_url None])%list |} in
  Channel.get_spade_url BASE_URL twitch w =
  match request twitch (Channel.trace w) GET page_url None with
  | Raise e => (Raise e, w1)
  | Ok page =>
      match re_search RE_I Channel.settings_pattern (text page) with
      | None =>
          (Raise (MinerException "Error while spade_url extraction: step #1"), w1)
      | Some script_url =>
          let w2 := {| Channel.self := Channel.self w;
                       Channel.trace :=
                         (Channel.trace w1 ++ [EvRequest GET script_url None])%list |} in
          match request twitch (Channel.trace w1) GET script_url None with
          | Raise e => (Raise e, w2)
          | Ok script =>
              match re_search RE_I Channel.spade_pattern (text script) with
              | None =>
                  (Raise (MinerException "Error while spade_url extraction: step #2"),
                   w2)
              | Some spade_url => (Ok spade_url, w2)
              end
          end
      end
  end.
Proof.
  intros page_url w1. unfold Channel.get_spade_url. unfold_m.
  fold page_url.
  destruct (request twitch (Channel.trace w) GET page_url None) as [page|e];
    [|reflexivity].
  destruct (re_search RE_I Channel.settings_pattern (text page)) as [u|];
    [|reflexivity].
  cbv beta iota. cbn [Channel.trace Channel.self]. fold w1.
  destruct (request twitch _ GET u None) as [script|e]; [|reflexivity].
  destruct (re_search RE_I Channel.spade_pattern (text script)); reflexivity.
Qed.

Lemma get_spade_url_trace (BASE_URL : string) (twitch : Twitch) (w : Channel.World) :
  exists evs,
    Channel.trace (snd (Channel.get_spade_url BASE_URL twitch w))
    = (Channel.trace w ++ evs)%list.
Proof.
  rewrite get_spade_url_unfold. cbv zeta.
  destruct (request twitch (Channel.trace w) GET _ None) as [page|e];
    [|eexists; reflexivity].
  destruct (re_search RE_I Channel.settings_pattern (text page)) as [u|];
    [|eexists; reflexivity].
  destruct (request twitch _ GET u None) as [script|e];
    [destruct (re_search RE_I Channel.spade_pattern (text script))|];
    cbn [snd Channel.trace]; rewrite <- List.app_assoc; eexists; reflexivity.
Qed.

(** What [send_watch] does once the channel is known to be online and the
    spade URL is known. *)
Lemma send_watch_from_resolved (BASE_URL : string) (twitch : Twitch)
  (w w1 : Channel.World) (spade_url : ustr) :
  Channel.online (Channel.self w) = true ->
  spade_url_resolved BASE_URL twitch w spade_url w1 ->
  Channel._spade_url (Channel.self w1) = Some spade_url
  /\ Channel.send_watch BASE_URL twitch w =
     match Channel._payload twitch w1 with
     | (Ok data, w2) =>
         let w3 := {| Channel.self := Channel.self w2;
                      Channel.trace :=
                        (Channel.trace w2 ++ [EvRequest POST spade_url (Some data)])%list |} in
         match request twitch (Channel.trace w2) POST spade_url (Some data) with
         | Ok response => (Ok (status response =? 204)%Z, w3)
         | Raise RequestException => (Ok false, w3)
         | Raise e => (Raise e, w3)
         end
     | (Raise RequestException, w2) => (Ok false, w2)
     | (Raise e, w2) => (Raise e, w2)
     end.
Proof.
  intros Hon Hres. unfold spade_url_resolved in Hres.
  unfold Channel.send_watch.
  unfold Channel.bind at 1. unfold Channel.get_self at 1. rewrite Hon. cbn [negb].
  unfold Channel.bind at 1.
  destruct (Channel._spade_url (Channel.self w)) as [u|] eqn:Hu.
  - destruct Hres as [-> ->]. split; [exact Hu|].
    unfold Channel.ret at 1. unfold Channel.except_RequestException.
    unfold Channel.bind at 1. unfold Channel.get_self at 1. rewrite Hu.
    unfold Channel.bind at 1.
    pose proof (_payload_spade_url twitch w) as Hsp.
    destruct (Channel._payload twitch w) as [[data|e] w2]; cbn [snd] in *.
    + unfold_m. destruct (request twitch _ _ _ _) as [resp|[]]; reflexivity.
    + destruct e; reflexivity.
  - destruct Hres as (w' & Hget & ->). split; [reflexivity|].
    unfold Channel.bind at 1. rewrite Hget.
    unfold Channel.update at 1. unfold Channel.except_RequestException.
    unfold Channel.bind at 1. unfold Channel.get_self at 1.
    cbn [Channel.self Channel.set_spade_url Channel._spade_url].
    unfold Channel.bind at 1.
    match goal with |- context [Channel._payload twitch ?x] =>
      destruct (Channel._payload twitch x) as [[data|e] w2] end.
    + unfold_m. destruct (request twitch _ _ _ _) as [resp|[]]; reflexivity.
    + destruct e; reflexivity.
Qed.

(** C4.  Once [send_watch] reaches its POST, an exception of the transport
    ([RequestException]) makes it answer [False], an answer with any status
    makes it answer whether the status is 204, and so it answers [True]
    exactly when the POST was answered with status 204; it never raises the
    transport's exception. *)
Theorem send_watch_post_outcome (BASE_URL : string) (twitch : Twitch)
  (w w1 w2 : Channel.World) (spade_url : ustr) (data : JsonType) :
  Channel.online (Channel.self w) = true ->
  spade_url_resolved BASE_URL twitch w spade_url w1 ->
  Channel._payload twitch w1 = (Ok data, w2) ->
  let outcome := request twitch (Channel.trace w2) POST spade_url (Some data) in
  let r := fst (Channel.send_watch BASE_URL twitch w) in
  (outcome = Raise RequestException -> r = Ok false)
  /\ (forall response, outcome = Ok response -> r = Ok (status response =? 204)%Z)
  /\ (r = Ok true <-> exists response, outcome = Ok response /\ status response = 204)
  /\ r <> Raise RequestException
  /\ events_of (Channel.send_watch BASE_URL twitch) w
     = (skipn (List.length (Channel.trace w)) (Channel.trace w2)
          ++ [EvRequest POST spade_url (Some data)])%list.
Proof.
  intros Hon Hres Hpay outcome r.
  destruct (send_watch_from_resolved BASE_URL twitch w w1 spade_url Hon Hres) as [_ Hsw].
  rewrite Hpay in Hsw. cbn zeta in Hsw. fold outcome in Hsw.
  subst r. unfold events_of, exec. rewrite Hsw. clear Hsw.
  assert (Hlen : exists evs, Channel.trace w2 = (Channel.trace w ++ evs)%list).
  { pose proof (_payload_trace twitch w1) as Ht. rewrite Hpay in Ht. cbn [snd] in Ht.
    rewrite Ht. unfold spade_url_resolved in Hres.
    destruct (Channel._spade_url (Channel.self w)).
    - destruct Hres as [_ ->]. exists []. now rewrite List.app_nil_r.
    - destruct Hres as (w' & Hget & ->). cbn [Channel.trace].
      destruct (get_spade_url_trace BASE_URL twitch w) as [evs Hevs].
      rewrite Hget in Hevs. exists evs. exact Hevs. }
  destruct Hlen as [evs Hevs].
  assert (Hev : forall (x : Result bool),
             skipn (List.length (Channel.trace w))
               (Channel.trace
                  (snd (x, {| Channel.self := Channel.self w2;
                              Channel.trace :=
                                (Channel.trace w2
                                   ++ [EvRequest POST spade_url (Some data)])%list |})))
             = (skipn (List.length (Channel.trace w)) (Channel.trace w2)
                  ++ [EvRequest POST spade_url (Some data)])%list).
  { intro x. cbn [snd Channel.trace]. rewrite Hevs, <- List.app_assoc.
    now rewrite !skipn_length_app. }
  destruct outcome as [resp|e] eqn:Hout.
  - cbn [fst]. repeat split; try discriminate.
    + intros response [= <-]. reflexivity.
    + intros [= H]. exists resp. split; [reflexivity|]. now apply Z.eqb_eq.
    + intros (response & [= <-] & H204). now rewrite H204.
    + apply Hev.
  - destruct e; cbn [fst]; repeat split; try discriminate; try congruence;
      try (intros (response & Hx & _); discriminate); try apply Hev.
Qed.

(* ================================================================== *)
(** * Properties: the encoders and their decoders *)

Ltac Zify.zify_post_hook ::= Z.to_euclidean_division_equations.

Lemma to_N_lt_256 (b : Byte.byte) : (Byte.to_N b < 256)%N.
Proof.
  pose proof (Byte.to_N_bounded b). lia.
Qed.

Lemma to_N_byte_of_N (n : N) : Byte.to_N (byte_of_N n) = (n mod 256)%N.
Proof.
  unfold byte_of_N. destruct (Byte.of_N (n mod 256)) as [b|] eqn:E.
  - now apply Byte.to_of_N.
  - apply Byte.of_N_None_iff in E. lia.
Qed.

Lemma byte_of_N_to_N (b : Byte.byte) : byte_of_N (Byte.to_N b) = b.
Proof.
  unfold byte_of_N. pose proof (to_N_lt_256 b).
  rewrite N.mod_small by assumption. now rewrite Byte.of_to_N.
Qed.

Lemma byte_of_N_small (n : N) (b : Byte.byte) :
  (n < 256)%N -> n = Byte.to_N b -> byte_of_N n = b.
Proof.
  intros _ ->. apply byte_of_N_to_N.
Qed.

(** The 64 symbols, one by one. *)
Lemma b64_symbols_ok : forallb b64_symbol_ok (seq 0 64) = true.
Proof. vm_compute. reflexivity. Qed.

Lemma b64_symbol (i : N) :
  (i < 64)%N ->
  b64_val (b64_sym i) = Some i
  /\ Byte.eqb (b64_sym i) b64_pad = false
  /\ (Byte.to_N (b64_sym i) < 128)%N.
Proof.
  intro Hi.
  pose proof (proj1 (forallb_forall _ _) b64_symbols_ok (N.to_nat i)) as H.
  assert (Hin : In (N.to_nat i) (seq 0 64)) by (apply in_seq; lia).
  specialize (H Hin). unfold b64_symbol_ok in H. rewrite N2Nat.id in H.
  apply andb_prop in H. destruct H as [H H3].
  apply andb_prop in H. destruct H as [H1 H2].
  destruct (b64_val (b64_sym i)) as [j|]; [|discriminate].
  apply N.eqb_eq in H1. subst j.
  apply N.ltb_lt in H3. apply negb_true_iff in H2. auto.
Qed.

Lemma b64_pad_eqb : Byte.eqb b64_pad b64_pad = true.
Proof. reflexivity. Qed.

Lemma list_ind3 {A : Type} (P : list A -> Prop) :
  P [] -> (forall a, P [a]) -> (forall a b, P [a; b]) ->
  (forall a b c l, P l -> P (a :: b :: c :: l)) ->
  forall l, P l.
Proof.
  intros H0 H1 H2 H3.
  exact (fix IH (l : list A) : P l :=
           match l with
           | [] => H0
           | [a] => H1 a
           | [a; b] => H2 a b
           | a :: b :: c :: l' => H3 a b c l' (IH l')
           end).
Qed.

Lemma b64decode_quad (c0 c1 c2 c3 : Byte.byte) (rest : list Byte.byte)
  (v0 v1 v2 v3 : N) :
  b64_val c0 = Some v0 -> b64_val c1 = Some v1 ->
  b64_val c2 = Some v2 -> b64_val c3 = Some v3 ->
  Byte.eqb c2 b64_pad = false -> Byte.eqb c3 b64_pad = false ->
  b64decode (c0 :: c1 :: c2 :: c3 :: rest) =
  option_map (fun tl => byte_of_N (v0 * 4 + v1 / 16)
                        :: byte_of_N ((v1 mod 16) * 16 + v2 / 4)
                        :: byte_of_N ((v2 mod 4) * 64 + v3) :: tl)
             (b64decode rest).
Proof.
  intros E0 E1 E2 E3 P2 P3. cbn [b64decode]. now rewrite E0, E1, P2, E2, P3, E3.
Qed.

(** Decoding undoes encoding. *)
Lemma b64decode_b64encode (s : list Byte.byte) : b64decode (b64encode s) = Some s.
Proof.
  induction s as [|a|a b|a b c l IH] using list_ind3.
  - reflexivity.
  - pose proof (to_N_lt_256 a) as Ha. cbn [b64encode]. cbv zeta.
    set (n := (Byte.to_N a * 65536)%N).
    destruct (b64_symbol (n / 262144)) as (E0 & _ & _); [subst n; lia|].
    destruct (b64_symbol ((n / 4096) mod 64)) as (E1 & _ & _); [lia|].
    cbn [b64decode]. rewrite E0, E1, b64_pad_eqb. cbn.
    do 2 f_equal. apply byte_of_N_small; subst n; lia.
  - pose proof (to_N_lt_256 a) as Ha. pose proof (to_N_lt_256 b) as Hb.
    cbn [b64encode]. cbv zeta.
    set (n := (Byte.to_N a * 65536 + Byte.to_N b * 256)%N).
    destruct (b64_symbol (n / 262144)) as (E0 & _ & _); [subst n; lia|].
    destruct (b64_symbol ((n / 4096) mod 64)) as (E1 & _ & _); [lia|].
    destruct (b64_symbol ((n / 64) mod 64)) as (E2 & P2 & _); [lia|].
    cbn [b64decode]. rewrite E0, E1, P2, E2, b64_pad_eqb. cbn.
    do 2 f_equal; [|f_equal]; apply byte_of_N_small; subst n; lia.
  - pose proof (to_N_lt_256 a) as Ha. pose proof (to_N_lt_256 b) as Hb.
    pose proof (to_N_lt_256 c) as Hc.
    cbn [b64encode]. cbv zeta.
    set (n := (Byte.to_N a * 65536 + Byte.to_N b * 256 + Byte.to_N c)%N).
    destruct (b64_symbol (n / 262144)) as (E0 & _ & _); [subst n; lia|].
    destruct (b64_symbol ((n / 4096) mod 64)) as (E1 & _ & _); [lia|].
    destruct (b64_symbol ((n / 64) mod 64)) as (E2 & P2 & _); [lia|].
    destruct (b64_symbol (n mod 64)) as (E3 & P3 & _); [lia|].
    rewrite (b64decode_quad _ _ _ _ _ _ _ _ _ E0 E1 E2 E3 P2 P3), IH.
    cbn [option_map]. do 2 f_equal; [|f_equal; [|f_equal]];
      apply byte_of_N_small; subst n; lia.
Qed.

(** The output of [b64encode] is made of code points below 128. *)
Lemma b64encode_ascii (s : list Byte.byte) :
  Forall (fun b => (Byte.to_N b < 128)%N) (b64encode s).
Proof.
  assert (Hpad : (Byte.to_N b64_pad < 128)%N) by (vm_compute; reflexivity).
  induction s as [|a|a b|a b c l IH] using list_ind3.
  - constructor.
  - pose proof (to_N_lt_256 a). cbn [b64encode]. cbv zeta.
    repeat constructor; try exact Hpad; apply b64_symbol; lia.
  - pose proof (to_N_lt_256 a). pose proof (to_N_lt_256 b).
    cbn [b64encode]. cbv zeta.
    repeat constructor; try exact Hpad; apply b64_symbol; lia.
  - pose proof (to_N_lt_256 a). pose proof (to_N_lt_256 b).
    pose proof (to_N_lt_256 c).
    cbn [b64encode]. cbv zeta.
    repeat (constructor; [apply b64_symbol; lia|]). exact IH.
Qed.

Lemma utf8_char_low (n : N) :
  (n < 128)%N -> utf8_char (ascii_of_N n) = [byte_of_N n].
Proof.
  intro Hn. unfold utf8_char. rewrite N_ascii_embedding by lia.
  apply N.ltb_lt in Hn. now rewrite Hn.
Qed.

Lemma utf8_char_high (n m : N) :
  (n = 194 \/ n = 195)%N -> (128 <= m < 192)%N ->
  utf8_char (ascii_of_N ((n - 192) * 64 + (m - 128)))
  = [byte_of_N n; byte_of_N m].
Proof.
  intros Hn Hm. unfold utf8_char. rewrite N_ascii_embedding by lia.
  set (k := ((n - 192) * 64 + (m - 128))%N).
  assert (Hk : (k <? 128)%N = false) by (apply N.ltb_ge; subst k; lia).
  rewrite Hk. f_equal; [|f_equal]; f_equal; subst k; lia.
Qed.

(** What decodes is the encoding of what it decodes to. *)
Lemma decode_utf8_sound (bs : list Byte.byte) (d : string) :
  decode_utf8 bs = Some d -> encode_utf8 d = bs.
Proof.
  remember (List.length bs) as k eqn:Hk.
  assert (Hle : (List.length bs <= k)%nat) by lia. clear Hk.
  revert bs d Hle. induction k as [|k IH]; intros bs d Hle.
  - destruct bs; [|cbn in Hle; lia]. cbn. now intros [= <-].
  - destruct bs as [|b rest]; [cbn; now intros [= <-]|].
    cbn [decode_utf8]. cbv zeta.
    destruct (Byte.to_N b <? 128)%N eqn:Hlow.
    + destruct (decode_utf8 rest) as [d'|] eqn:Hd; [|discriminate].
      cbn [option_map]. intros [= <-]. cbn [encode_utf8].
      apply N.ltb_lt in Hlow. rewrite utf8_char_low by assumption.
      rewrite byte_of_N_to_N. cbn [List.app]. f_equal.
      apply IH; [cbn in Hle; lia | exact Hd].
    + destruct ((Byte.to_N b =? 194) || (Byte.to_N b =? 195))%N eqn:Hlead;
        [|discriminate].
      destruct rest as [|b' rest']; [discriminate|].
      destruct ((128 <=? Byte.to_N b') && (Byte.to_N b' <? 192))%N eqn:Hcont;
        [|discriminate].
      destruct (decode_utf8 rest') as [d'|] eqn:Hd; [|discriminate].
      cbn [option_map]. intros [= <-]. cbn [encode_utf8].
      apply orb_true_iff in Hlead. rewrite !N.eqb_eq in Hlead.
      apply andb_true_iff in Hcont. rewrite N.leb_le, N.ltb_lt in Hcont.
      rewrite utf8_char_high by assumption.
      rewrite !byte_of_N_to_N. cbn [List.app]. do 2 f_equal.
      apply IH; [cbn in Hle; lia | exact Hd].
Qed.

(** Bytes below 128 always decode. *)
Lemma decode_utf8_ascii (bs : list Byte.byte) :
  Forall (fun b => (Byte.to_N b < 128)%N) bs ->
  exists d, decode_utf8 bs = Some d.
Proof.
  induction 1 as [|b rest Hb _ [d IH]].
  - now exists EmptyString.
  - cbn [decode_utf8]. cbv zeta. apply N.ltb_lt in Hb. rewrite Hb, IH.
    eexists; reflexivity.
Qed.

Lemma decode_utf8_char (c : ascii) (rest : list Byte.byte) :
  decode_utf8 (utf8_char c ++ rest)%list = option_map (String c) (decode_utf8 rest).
Proof.
  unfold utf8_char. pose proof (N_ascii_bounded c) as Hc.
  set (n := N_of_ascii c) in *.
  destruct (n <? 128)%N eqn:Hlow.
  - cbn [List.app decode_utf8]. cbv zeta. rewrite to_N_byte_of_N.
    apply N.ltb_lt in Hlow. rewrite N.mod_small by lia.
    apply N.ltb_lt in Hlow. rewrite Hlow. subst n.
    now rewrite ascii_N_embedding.
  - apply N.ltb_ge in Hlow. cbn [List.app decode_utf8]. cbv zeta.
    rewrite !to_N_byte_of_N.
    replace ((192 + n / 64) mod 256)%N with (192 + n / 64)%N by lia.
    replace ((128 + n mod 64) mod 256)%N with (128 + n mod 64)%N by lia.
    assert (H1 : (192 + n / 64 <? 128)%N = false) by (apply N.ltb_ge; lia).
    assert (H2 : ((192 + n / 64 =? 194) || (192 + n / 64 =? 195))%N = true).
    { assert (Hq : (n / 64 = 2 \/ n / 64 = 3)%N) by lia.
      destruct Hq as [-> | ->]; reflexivity. }
    assert (H3 : ((128 <=? 128 + n mod 64) && (128 + n mod 64 <? 192))%N = true).
    { apply andb_true_iff. rewrite N.leb_le, N.ltb_lt. lia. }
    rewrite H1, H2, H3.
    replace ((192 + n / 64 - 192) * 64 + (128 + n mod 64 - 128))%N with n by lia.
    subst n. now rewrite ascii_N_embedding.
Qed.

(** Decoding undoes encoding. *)
Lemma decode_utf8_encode_utf8 (s : string) : decode_utf8 (encode_utf8 s) = Some s.
Proof.
  induction s as [|c s IH]; [reflexivity|].
  cbn [encode_utf8]. now rewrite decode_utf8_char, IH.
Qed.

(** ** Reading integers back *)

Lemma span_digits_uint (d : uint) (rest : string) :
  number_ends rest = true ->
  span_digits (NilEmpty.string_of_uint d ++ rest) = (NilEmpty.string_of_uint d, rest).
Proof.
  intro Hrest. induction d; cbn [NilEmpty.string_of_uint append span_digits];
    try (change (is_digit _) with true; cbv iota; now rewrite IHd).
  destruct rest as [|c rest]; [reflexivity|].
  cbn [span_digits]. cbn [number_ends] in Hrest.
  apply andb_true_iff in Hrest. destruct Hrest as [Hd _].
  apply negb_true_iff in Hd. now rewrite Hd.
Qed.

Lemma nzhead_not_D0 (d d' : uint) : nzhead d <> D0 d'.
Proof.
  induction d; cbn [nzhead]; try discriminate. exact IHd.
Qed.

Lemma to_uint_canonical (p : positive) : canonical (Pos.to_uint p).
Proof.
  pose proof (DecimalPos.Unsigned.to_of (Pos.to_uint p)) as H.
  rewrite DecimalPos.Unsigned.of_to in H. cbn [N.to_uint] in H.
  pose proof (DecimalPos.Unsigned.to_uint_nonzero p) as Hnz.
  rewrite H in *. unfold unorm in *.
  pose proof (nzhead_not_D0 (Pos.to_uint p)) as Hh.
  destruct (nzhead (Pos.to_uint p)); cbn; auto.
  exfalso. now apply (Hh u).
Qed.

Lemma parse_unsigned_uint (d : uint) (rest : string) :
  canonical d -> number_ends rest = true ->
  parse_unsigned (NilEmpty.string_of_uint d ++ rest)
  = Some (Z.of_N (N.of_uint d), rest).
Proof.
  intros Hc Hrest. unfold parse_unsigned.
  rewrite span_digits_uint by assumption. rewrite Hrest. cbn [negb].
  assert (Hlz : match NilEmpty.string_of_uint d with
                | String c (String _ _) => (c =? "0")%char
                | _ => false
                end = false).
  { destruct d as [|d0|d0|d0|d0|d0|d0|d0|d0|d0|d0]; cbn [NilEmpty.string_of_uint];
      try (destruct (NilEmpty.string_of_uint d0); reflexivity).
    - reflexivity.
    - destruct d0; cbn in Hc; try contradiction. reflexivity. }
  rewrite Hlz. cbn [orb].
  assert (Hu : NilZero.uint_of_string (NilEmpty.string_of_uint d) = Some d).
  { destruct d; try contradiction;
      match goal with |- _ (_ ?x) = _ =>
        exact (NilZero.usu x ltac:(discriminate)) end. }
  now rewrite Hu.
Qed.

Lemma parse_number_str_of_Z (z : Z) (rest : string) :
  number_ends rest = true ->
  parse_number (str_of_Z z ++ rest) = Some (z, rest).
Proof.
  intro Hrest. unfold str_of_Z.
  assert (Hpos : forall p,
             parse_unsigned (NilEmpty.string_of_uint (Pos.to_uint p) ++ rest)
             = Some (Z.pos p, rest)).
  { intro p. rewrite parse_unsigned_uint by (auto using to_uint_canonical).
    unfold N.of_uint. now rewrite DecimalPos.Unsigned.of_to. }
  destruct z as [|p|p]; cbn [Z.to_int NilZero.string_of_int].
  - change (NilZero.string_of_uint zero) with (NilEmpty.string_of_uint (D0 Nil)).
    cbn [NilEmpty.string_of_uint append parse_number].
    change (("0" =? "-")%char) with false. cbv iota.
    change (String "0" rest) with (NilEmpty.string_of_uint (D0 Nil) ++ rest).
    now rewrite parse_unsigned_uint.
  - pose proof (to_uint_canonical p) as Hc. specialize (Hpos p).
    unfold NilZero.string_of_uint.
    destruct (Pos.to_uint p) as [|d0|d0|d0|d0|d0|d0|d0|d0|d0|d0] eqn:Ed;
      try contradiction;
      cbn [NilEmpty.string_of_uint append parse_number] in *;
      match goal with |- context [(?c =? "-")%char] =>
        change ((c =? "-")%char) with false end; cbv iota; exact Hpos.
  - pose proof (to_uint_canonical p) as Hc. specialize (Hpos p).
    assert (Hs : NilZero.string_of_uint (Pos.to_uint p)
                 = NilEmpty.string_of_uint (Pos.to_uint p)).
    { destruct (Pos.to_uint p); [contradiction|reflexivity..]. }
    rewrite Hs. cbn [append parse_number].
    change (("-" =? "-")%char) with true. cbv iota. now rewrite Hpos.
Qed.

Lemma str_of_Z_start (z : Z) :
  exists c s, str_of_Z z = String c s /\ number_start c = true.
Proof.
  unfold str_of_Z. destruct z as [|p|p]; cbn [Z.to_int NilZero.string_of_int].
  - now exists "0"%char, EmptyString.
  - pose proof (to_uint_canonical p) as Hc. unfold NilZero.string_of_uint.
    destruct (Pos.to_uint p); try contradiction;
      cbn [NilEmpty.string_of_uint]; eexists; eexists; split; reflexivity.
  - eexists; eexists; split; reflexivity.
Qed.

Lemma parse_value_number (fuel : nat) (c : ascii) (s : string) :
  number_start c = true ->
  parse_value (S fuel) (String c s) =
  match parse_number (String c s) with
  | Some (z, rest) => Some (JInt z, rest)
  | None => None
  end.
Proof.
  intro H.
  destruct c as [[] [] [] [] [] [] [] []]; vm_compute in H; try discriminate H;
    reflexivity.
Qed.

(** An integer that [dumps] wrote is read back by [parse_value]. *)
Lemma parse_value_str_of_Z (fuel : nat) (z : Z) (rest : string) :
  number_ends rest = true ->
  parse_value (S fuel) (str_of_Z z ++ rest) = Some (JInt z, rest).
Proof.
  intro Hrest. pose proof (parse_number_str_of_Z z rest Hrest) as Hn.
  destruct (str_of_Z_start z) as (c & s & Hs & Hc). rewrite Hs in *.
  cbn [append] in *. rewrite parse_value_number by assumption. now rewrite Hn.
Qed.

(** ** Reading the payload back *)

Lemma string_app_assoc (x y z : string) : (x ++ y) ++ z = x ++ (y ++ z).
Proof.
  induction x as [|c x IH]; [reflexivity|]. cbn [append]. now rewrite IH.
Qed.

Lemma dumps_minute_watched (channel_id broadcast_id user_id : Z) :
  dumps (minute_watched channel_id broadcast_id user_id)
  = minute_watched_text (str_of_Z channel_id) (str_of_Z broadcast_id)
      (str_of_Z user_id).
Proof.
  unfold minute_watched_text, DQ. cbn -[str_of_Z].
  repeat (rewrite string_app_assoc; cbn -[str_of_Z]).
  reflexivity.
Qed.

Lemma parse_members_more (fuel : nat) (acc : list (string * JsonType))
  (s k r2 r4 : string) (v : JsonType) :
  parse_string_body s = Some (k, String ":" r2) ->
  parse_value fuel r2 = Some (v, String "," r4) ->
  parse_members (S fuel) acc (String dquote s)
  = parse_members fuel (dict_set acc k v) r4.
Proof.
  intros H1 H2. cbn [parse_members].
  change (skip_ws (String dquote s)) with (String dquote s). cbv iota.
  change ((dquote =? dquote)%char) with true. cbv iota. rewrite H1.
  change (skip_ws (String ":" r2)) with (String ":" r2). cbv iota.
  rewrite H2. reflexivity.
Qed.

Lemma parse_members_last (fuel : nat) (acc : list (string * JsonType))
  (s k r2 r4 : string) (v : JsonType) :
  parse_string_body s = Some (k, String ":" r2) ->
  parse_value fuel r2 = Some (v, String "}" r4) ->
  parse_members (S fuel) acc (String dquote s) = Some (dict_set acc k v, r4).
Proof.
  intros H1 H2. cbn [parse_members].
  change (skip_ws (String dquote s)) with (String dquote s). cbv iota.
  change ((dquote =? dquote)%char) with true. cbv iota. rewrite H1.
  change (skip_ws (String ":" r2)) with (String ":" r2). cbv iota.
  rewrite H2. reflexivity.
Qed.

Lemma parse_value_object (fuel : nat) (s r : string) (kvs : list (string * JsonType)) :
  parse_members fuel [] (String dquote s) = Some (kvs, r) ->
  parse_value (S fuel) (String "{" (String dquote s)) = Some (JObj kvs, r).
Proof.
  intro H. cbn [parse_value].
  change (skip_ws (String "{" (String dquote s))) with (String "{" (String dquote s)).
  cbv iota.
  change (("{" =? dquote)%char) with false.
  change (("{" =? "[")%char) with false.
  change (("{" =? "{")%char) with true. cbv iota.
  change (skip_ws (String dquote s)) with (String dquote s). cbv iota.
  now rewrite H.
Qed.

Lemma parse_value_list_of_object (fuel : nat) (s r : string) (v : JsonType) :
  parse_value fuel (String "{" s) = Some (v, String "]" r) ->
  parse_value (S (S fuel)) (String "[" (String "{" s)) = Some (JList [v], r).
Proof.
  intro H. cbn [parse_value].
  change (skip_ws (String "[" (String "{" s))) with (String "[" (String "{" s)).
  cbv iota.
  change (("[" =? dquote)%char) with false.
  change (("[" =? "[")%char) with true. cbv iota.
  change (skip_ws (String "{" s)) with (String "{" s). cbv iota.
  cbn [parse_items]. rewrite H. reflexivity.
Qed.

Lemma parse_value_string (fuel : nat) (s str rest : string) :
  parse_string_body s = Some (str, rest) ->
  parse_value (S fuel) (String dquote s) = Some (JStr str, rest).
Proof.
  intro H. cbn [parse_value].
  change (skip_ws (String dquote s)) with (String dquote s). cbv iota.
  change ((dquote =? dquote)%char) with true. cbv iota. now rewrite H.
Qed.

Section MinuteWatched.
Variables (a b c : string) (za zb zc : Z).
Hypothesis Ha : forall fuel rest, number_ends rest = true ->
  parse_value (S fuel) (a ++ rest) = Some (JInt za, rest).
Hypothesis Hb : forall fuel rest, number_ends rest = true ->
  parse_value (S fuel) (b ++ rest) = Some (JInt zb, rest).
Hypothesis Hc : forall fuel rest, number_ends rest = true ->
  parse_value (S fuel) (c ++ rest) = Some (JInt zc, rest).

Lemma parse_minute_watched_text (fuel : nat) :
  parse_value (11 + fuel) (minute_watched_text a b c)
  = Some (minute_watched za zb zc, EmptyString).
Proof.
  unfold minute_watched_text, DQ. cbn [append Nat.add].
  apply parse_value_list_of_object.
  apply parse_value_object.
  erewrite parse_members_more;
    [| reflexivity | apply parse_value_string; reflexivity ].
  eapply eq_trans;
    [ eapply parse_members_last; [reflexivity|] | reflexivity ].
  apply parse_value_object.
  erewrite parse_members_more; [| reflexivity | apply Ha; reflexivity ].
  erewrite parse_members_more; [| reflexivity | apply Hb; reflexivity ].
  erewrite parse_members_more;
    [| reflexivity | apply parse_value_string; reflexivity ].
  eapply eq_trans;
    [ eapply parse_members_last; [reflexivity | apply Hc; reflexivity]
    | reflexivity ].
Qed.

Lemma minute_watched_text_length :
  (5 <= String.length (minute_watched_text a b c))%nat.
Proof.
  unfold minute_watched_text, DQ. cbn [append String.length]. lia.
Qed.

Lemma loads_minute_watched_text :
  loads (minute_watched_text a b c) = Some (minute_watched za zb zc).
Proof.
  unfold loads. pose proof minute_watched_text_length as Hlen.
  set (n := String.length (minute_watched_text a b c)) in *.
  replace (2 * n + 2)%nat with (11 + (2 * n - 9))%nat by lia.
  now rewrite parse_minute_watched_text.
Qed.

End MinuteWatched.

(** The compact JSON of the event list parses back to the event list. *)
Lemma loads_dumps_minute_watched (channel_id broadcast_id user_id : Z) :
  loads (dumps (minute_watched channel_id broadcast_id user_id))
  = Some (minute_watched channel_id broadcast_id user_id).
Proof.
  rewrite dumps_minute_watched.
  apply loads_minute_watched_text; intros; now apply parse_value_str_of_Z.
Qed.

(* ================================================================== *)
(** * Properties: the heartbeat payload *)

Lemma compute_payload_online (twitch : Twitch) (w : Channel.World) (s : Stream.t) :
  Channel._stream (Channel.self w) = Some s ->
  exists data,
    Channel.compute_payload twitch w = (Ok (JObj [("data", JStr data)]), w)
    /\ decode_payload (JObj [("data", JStr data)])
       = Some (minute_watched (Channel.id (Channel.self w)) (Stream.broadcast_id s)
                 (_user_id twitch)).
Proof.
  intro Hs.
  set (events := minute_watched (Channel.id (Channel.self w)) (Stream.broadcast_id s)
                   (_user_id twitch)).
  destruct (decode_utf8_ascii _ (b64encode_ascii (encode_utf8 (dumps events))))
    as [data Hdata].
  exists data. split.
  - unfold Channel.compute_payload, Channel.bind, Channel.get_self. rewrite Hs.
    cbv zeta.
    change (Channel.payload_events twitch (Channel.self w) s) with events.
    now rewrite Hdata.
  - unfold decode_payload. change (("data" =? "data")%string) with true. cbv iota.
    rewrite (decode_utf8_sound _ _ Hdata), b64decode_b64encode,
      decode_utf8_encode_utf8.
    apply loads_dumps_minute_watched.
Qed.

(** C3.  For a channel with a stream, the payload that the cached property
    computes is a record with the one field [data]; its value, base64
    decoded, read as UTF-8 and parsed as JSON, is a list of one event named
    [minute-watched] whose properties are the channel's id, the stream's
    broadcast id, the player tag [site] and the client's user id.  With an
    empty cache this is what [_payload] answers and keeps. *)
Theorem payload_decodes_to_minute_watched (twitch : Twitch) (w : Channel.World)
  (s : Stream.t) :
  Channel._stream (Channel.self w) = Some s ->
  exists data,
    let p := JObj [("data", JStr data)] in
    fst (Channel.compute_payload twitch w) = Ok p
    /\ decode_payload p
       = Some (JList [JObj [("event", JStr "minute-watched");
                            ("properties",
                             JObj [("channel_id", JInt (Channel.id (Channel.self w)));
                                   ("broadcast_id", JInt (Stream.broadcast_id s));
                                   ("player", JStr "site");
                                   ("user_id", JInt (_user_id twitch))])]])
    /\ (Channel.cached_payload (Channel.self w) = None ->
        Channel._payload twitch w
        = (Ok p, {| Channel.self := Channel.set_cached_payload (Channel.self w) (Some p);
                    Channel.trace := Channel.trace w |})).
Proof.
  intro Hs. destruct (compute_payload_online twitch w s Hs) as (data & Hc & Hd).
  exists data. cbv zeta. split; [now rewrite Hc|]. split; [exact Hd|].
  intro Hnone. unfold Channel._payload.
  unfold Channel.bind at 1. unfold Channel.get_self at 1. rewrite Hnone.
  unfold Channel.bind at 1. rewrite Hc. reflexivity.
Qed.

(* ================================================================== *)
(** * Properties: the pattern matcher *)

Lemma match_lit_some (fl : Flags) (lit : string) (s m rest : ustr) :
  match_lit fl lit s = Some (m, rest) ->
  s = (m ++ rest)%list /\ lit_ok fl lit m = true.
Proof.
  revert s m rest. induction lit as [|c lit IH]; intros s m rest.
  - cbn. intros [= <- <-]. auto.
  - cbn [match_lit]. destruct s as [|x s]; [discriminate|].
    destruct (chr_match fl c x) eqn:Hc; [|discriminate].
    destruct (match_lit fl lit s) as [[m' rest']|] eqn:Hm; [|discriminate].
    intros [= <- <-]. destruct (IH _ _ _ Hm) as [-> Hok].
    cbn. rewrite Hc, Hok. auto.
Qed.

Lemma match_lit_complete (fl : Flags) (lit : string) (m rest : ustr) :
  lit_ok fl lit m = true -> match_lit fl lit (m ++ rest)%list = Some (m, rest).
Proof.
  revert m. induction lit as [|c lit IH]; intros m Hok.
  - destruct m; [reflexivity|discriminate].
  - destruct m as [|x m]; [discriminate|]. cbn in Hok.
    apply andb_true_iff in Hok. destruct Hok as [Hc Hok].
    cbn [List.app match_lit]. now rewrite Hc, (IH _ Hok).
Qed.

Lemma match_rep_some (fl : Flags) (n : nat) (a : atom) (s m rest : ustr) :
  match_rep fl n a s = Some (m, rest) ->
  s = (m ++ rest)%list /\ List.length m = n /\ forallb (atom_match fl a) m = true.
Proof.
  revert s m rest. induction n as [|n IH]; intros s m rest.
  - cbn. intros [= <- <-]. auto.
  - cbn [match_rep]. destruct s as [|x s]; [discriminate|].
    destruct (atom_match fl a x) eqn:Hc; [|discriminate].
    destruct (match_rep fl n a s) as [[m' rest']|] eqn:Hm; [|discriminate].
    intros [= <- <-]. destruct (IH _ _ _ Hm) as (-> & Hlen & Hall).
    cbn. rewrite Hc, Hall, Hlen. auto.
Qed.

Lemma match_rep_complete (fl : Flags) (a : atom) (m rest : ustr) :
  forallb (atom_match fl a) m = true ->
  match_rep fl (List.length m) a (m ++ rest)%list = Some (m, rest).
Proof.
  induction m as [|x m IH]; intro Hall; [reflexivity|].
  cbn in Hall. apply andb_true_iff in Hall. destruct Hall as [Hc Hall].
  cbn [List.length List.app match_rep]. now rewrite Hc, (IH Hall).
Qed.

Section MatcherFacts.
Context {A : Type}.
Variable fl : Flags.

Lemma match_many_some (a : atom) (s : ustr) (k : ustr -> ustr -> option A)
  (v : A) :
  match_many fl a s k = Some v ->
  exists m rest,
    s = (m ++ rest)%list /\ forallb (atom_match fl a) m = true /\ k m rest = Some v.
Proof.
  revert k. induction s as [|x s IH]; intros k; cbn [match_many].
  - intro H. now exists [], [].
  - destruct (atom_match fl a x) eqn:Hc.
    + destruct (match_many fl a s _) as [r|] eqn:Hm.
      * intros [= <-]. destruct (IH _ Hm) as (m & rest & -> & Hall & Hk).
        exists (x :: m), rest. cbn. rewrite Hc, Hall. auto.
      * intro H. now exists [], (x :: s).
    + intro H. now exists [], (x :: s).
Qed.

Lemma match_many_none (a : atom) (s : ustr) (k : ustr -> ustr -> option A) :
  match_many fl a s k = None ->
  forall m rest,
    s = (m ++ rest)%list -> forallb (atom_match fl a) m = true -> k m rest = None.
Proof.
  revert k. induction s as [|x s IH]; intros k; cbn [match_many].
  - intros H m rest Hs _. destruct m; [|discriminate]. cbn in Hs. now subst rest.
  - intros H m rest Hs Hall. destruct m as [|y m].
    + cbn in Hs. subst rest.
      destruct (atom_match fl a x); [|exact H].
      destruct (match_many fl a s _); [discriminate|exact H].
    + cbn in Hs. injection Hs as <- ->. cbn in Hall.
      apply andb_true_iff in Hall. destruct Hall as [Hc Hall].
      rewrite Hc in H.
      destruct (match_many fl a (m ++ rest)%list _) eqn:Hm; [discriminate|].
      exact (IH _ Hm m rest eq_refl Hall).
Qed.

Lemma rmatch_some (r : regex) (s : ustr) (k : ustr -> ustr -> option A) (v : A) :
  rmatch fl r s k = Some v ->
  exists m rest, s = (m ++ rest)%list /\ matches fl r m /\ k m rest = Some v.
Proof.
  revert s k. induction r as [l|a|a|n a|r1 IH1 r2 IH2]; intros s k; cbn [rmatch matches].
  - destruct (match_lit fl l s) as [[m rest]|] eqn:Hm; [|discriminate].
    intro Hk. apply match_lit_some in Hm. destruct Hm as [-> Hok].
    now exists m, rest.
  - destruct s as [|x s].
    + intro Hk. exists [], []. auto.
    + destruct (atom_match fl a x) eqn:Hc.
      * destruct (k [x] s) eqn:Hk1.
        -- intros [= <-]. exists [x], s.
           split; [reflexivity|]. split; [right; now exists x | exact Hk1].
        -- intro Hk. exists [], (x :: s). auto.
      * intro Hk. exists [], (x :: s). auto.
  - destruct s as [|x s]; [discriminate|].
    destruct (atom_match fl a x) eqn:Hc; [|discriminate].
    intro Hm. apply match_many_some in Hm.
    destruct Hm as (m & rest & -> & Hall & Hk).
    exists (x :: m), rest. cbn. rewrite Hc, Hall.
    repeat split; [discriminate | exact Hk].
  - destruct (match_rep fl n a s) as [[m rest]|] eqn:Hm; [|discriminate].
    intro Hk. apply match_rep_some in Hm. destruct Hm as (-> & Hlen & Hall).
    now exists m, rest.
  - intro H. apply IH1 in H. destruct H as (m1 & s1 & -> & H1 & H).
    apply IH2 in H. destruct H as (m2 & s2 & -> & H2 & H).
    exists (m1 ++ m2)%list, s2. rewrite <- List.app_assoc.
    split; [reflexivity|]. split; [now exists m1, m2 | exact H].
Qed.

Lemma rmatch_none (r : regex) (s : ustr) (k : ustr -> ustr -> option A) :
  rmatch fl r s k = None ->
  forall m rest, s = (m ++ rest)%list -> matches fl r m -> k m rest = None.
Proof.
  revert s k. induction r as [l|a|a|n a|r1 IH1 r2 IH2]; intros s k; cbn [rmatch matches].
  - intros H m rest -> Hok. now rewrite (match_lit_complete _ _ _ _ Hok) in H.
  - intros H m rest -> [-> | (x & -> & Hc)].
    + cbn [List.app] in *. destruct rest as [|y rest]; [exact H|].
      destruct (atom_match fl a y); [|exact H].
      destruct (k [y] rest); [discriminate|exact H].
    + cbn [List.app] in *. rewrite Hc in H.
      destruct (k [x] rest); [discriminate|reflexivity].
  - intros H m rest -> [Hne Hall]. destruct m as [|x m]; [contradiction|].
    cbn in Hall. apply andb_true_iff in Hall. destruct Hall as [Hc Hall].
    cbn [List.app] in H. rewrite Hc in H.
    exact (match_many_none _ _ _ H m rest eq_refl Hall).
  - intros H m rest -> [<- Hall]. now rewrite (match_rep_complete _ _ _ _ Hall) in H.
  - intros H m rest -> (m1 & m2 & -> & H1 & H2).
    rewrite <- List.app_assoc in H.
    pose proof (IH1 _ _ H m1 (m2 ++ rest)%list eq_refl H1) as H'.
    exact (IH2 _ _ H' m2 rest eq_refl H2).
Qed.

End MatcherFacts.

Lemma match_here_some (fl : Flags) (p : pattern) (s g : ustr) :
  match_here fl p s = Some g -> occurs fl p [] g s.
Proof.
  unfold match_here. intro H.
  apply rmatch_some in H. destruct H as (m1 & s1 & -> & H1 & H).
  apply rmatch_some in H. destruct H as (g' & s2 & -> & H2 & H).
  apply rmatch_some in H. destruct H as (m3 & post & -> & H3 & [= <-]).
  now exists m1, m3, post.
Qed.

Lemma match_here_none (fl : Flags) (p : pattern) (s g : ustr) :
  match_here fl p s = None -> ~ occurs fl p [] g s.
Proof.
  unfold match_here. intros H (m1 & m3 & post & Hs & H1 & H2 & H3).
  cbn [List.app] in Hs.
  pose proof (rmatch_none _ _ _ _ H m1 _ Hs H1) as H'.
  pose proof (rmatch_none _ _ _ _ H' g _ eq_refl H2) as H''.
  pose proof (rmatch_none _ _ _ _ H'' m3 _ eq_refl H3). discriminate.
Qed.

(** A successful search answers the group of an occurrence. *)
Lemma re_search_some (fl : Flags) (p : pattern) (s g : ustr) :
  re_search fl p s = Some g -> exists pre, occurs fl p pre g s.
Proof.
  induction s as [|x s IH]; cbn [re_search].
  - destruct (match_here fl p []) eqn:Hm; [|discriminate].
    intros [= <-]. exists []. now apply match_here_some.
  - destruct (match_here fl p (x :: s)) eqn:Hm.
    + intros [= <-]. exists []. now apply match_here_some.
    + intro H. destruct (IH H) as (pre & m1 & m3 & post & -> & H1 & H2 & H3).
      exists (x :: pre), m1, m3, post. auto.
Qed.

(** A failed search means that the pattern occurs nowhere. *)
Lemma re_search_none (fl : Flags) (p : pattern) (s : ustr) :
  re_search fl p s = None -> forall pre g, ~ occurs fl p pre g s.
Proof.
  induction s as [|x s IH]; cbn [re_search].
  - destruct (match_here fl p []) eqn:Hm; [discriminate|].
    intros _ pre g Hocc. destruct pre as [|y pre].
    + exact (match_here_none _ _ _ g Hm Hocc).
    + destruct Hocc as (m1 & m3 & post & Hs & _). discriminate.
  - destruct (match_here fl p (x :: s)) eqn:Hm; [discriminate|].
    intros H pre g Hocc. destruct pre as [|y pre].
    + exact (match_here_none _ _ _ g Hm Hocc).
    + destruct Hocc as (m1 & m3 & post & Hs & H1 & H2 & H3).
      cbn [List.app] in Hs. injection Hs as _ ->.
      apply (IH H pre g). now exists m1, m3, post.
Qed.

(** ** The two scrape patterns *)

Lemma lit_ok_same_text (fl : Flags) (lit : string) (m : ustr) :
  lit_ok fl lit m = true <-> same_text fl m lit.
Proof.
  revert m. induction lit as [|c lit IH]; intros [|x m]; cbn;
    try (split; [discriminate | intros []]); try tauto.
  now rewrite andb_true_iff, IH.
Qed.

Lemma forallb_pointwise {X : Type} (f g : X -> bool) (m : list X) :
  (forall x, f x = g x) -> forallb f m = forallb g m.
Proof.
  intro H. induction m as [|x m IH]; [reflexivity|]. cbn. now rewrite H, IH.
Qed.

Lemma between_digits : between "0" "9" = list_ascii_of_string "0123456789".
Proof. reflexivity. Qed.

Lemma between_a_f : between "a" "f" = list_ascii_of_string "abcdef".
Proof. reflexivity. Qed.

(** Every code point below 256 passes a test that the first 256 pass. *)
Lemma below_256 (P : N -> bool) :
  forallb P (map N.of_nat (seq 0 256)) = true ->
  forall x, (x < 256)%N -> P x = true.
Proof.
  intros Hall x Hx. rewrite forallb_forall in Hall. apply Hall.
  apply in_map_iff. exists (N.to_nat x). split; [apply N2Nat.id|].
  apply in_seq. lia.
Qed.

Lemma every_ascii (P : ascii -> bool) :
  forallb P (map ascii_of_nat (seq 0 256)) = true -> forall c, P c = true.
Proof.
  intros Hall c. rewrite forallb_forall in Hall. apply Hall.
  apply in_map_iff. exists (nat_of_ascii c). split; [apply ascii_nat_embedding|].
  apply in_seq. pose proof (nat_ascii_bounded c). lia.
Qed.

Ltac code_points :=
  repeat rewrite ?orb_true_iff, ?andb_true_iff, ?negb_true_iff, ?orb_false_iff,
    ?andb_false_iff, ?negb_false_iff, ?N.eqb_eq, ?N.eqb_neq, ?N.leb_le, ?N.leb_gt,
    ?N.ltb_lt, ?N.ltb_ge in *;
  lia.

(** Two tests that agree below 256 by evaluation. *)
Ltac below_256_by_evaluation x Hlt :=
  apply Bool.eqb_prop; revert x Hlt;
  match goal with
  | |- forall x, _ -> Bool.eqb (@?L x) (@?R x) = true =>
      apply (below_256 (fun x => Bool.eqb (L x) (R x)))
  end;
  vm_compute; reflexivity.

Lemma N_of_ascii_bounded (c : ascii) : (N_of_ascii c < 256)%N.
Proof.
  pose proof (nat_ascii_bounded c) as H. unfold nat_of_ascii in H. lia.
Qed.

(** From 256 on, a code point matches a pattern character only as one of
    the listed variants of its letter. *)
Lemma chr_match_big (fl : Flags) (c : ascii) (x : N) :
  (256 <= x)%N ->
  chr_match fl c x
  = match fl with
    | RE_I => case_variant (lower (N_of_ascii c)) x
    | _ => false
    end.
Proof.
  intro Hx. pose proof (N_of_ascii_bounded c) as Hc.
  unfold chr_match, same_letter. destruct fl.
  - apply N.eqb_neq. lia.
  - replace (x <? 256)%N with false by (symmetry; apply N.ltb_ge; lia).
    reflexivity.
  - apply N.eqb_neq. unfold ascii_lower.
    destruct ((65 <=? x)%N && (x <=? 90)%N) eqn:Ex;
      destruct ((65 <=? N_of_ascii c)%N && (N_of_ascii c <=? 90)%N) eqn:Ec;
      code_points.
Qed.

Lemma is_hex_digit_big (x : N) : (256 <= x)%N -> is_hex_digit x = false.
Proof.
  intro Hx. unfold is_hex_digit. code_points.
Qed.

Lemma hex_set_match (fl : Flags) (x : N) :
  fl <> NoFlags ->
  atom_match fl (ASet [SRange "0" "9"; SRange "a" "f"]) x = is_hex_digit x.
Proof.
  intro Hfl. destruct (N.ltb_spec x 256) as [Hlt|Hge].
  - destruct fl; [contradiction| |]; below_256_by_evaluation x Hlt.
  - rewrite (is_hex_digit_big x Hge).
    unfold atom_match, existsb, item_match. rewrite between_digits, between_a_f.
    cbn [existsb list_ascii_of_string].
    rewrite !(chr_match_big _ _ _ Hge).
    destruct fl; [contradiction| |]; vm_compute; reflexivity.
Qed.

Lemma spade_set_match (fl : Flags) (x : N) :
  fl <> NoFlags ->
  atom_match fl (ASet [SChar "."; SWord; SChar "-"; SChar "/"]) x
  = is_spade_url_char fl x.
Proof.
  intro Hfl. destruct (N.ltb_spec x 256) as [Hlt|Hge].
  - destruct fl; [contradiction| |]; below_256_by_evaluation x Hlt.
  - unfold atom_match, existsb, item_match, is_spade_url_char.
    rewrite !(chr_match_big _ _ _ Hge).
    replace (x =? 46)%N with false by (symmetry; code_points).
    replace (x =? 45)%N with false by (symmetry; code_points).
    replace (x =? 47)%N with false by (symmetry; code_points).
    destruct fl; [contradiction| |]; destruct (is_word _ x); reflexivity.
Qed.

Lemma space_match (fl : Flags) (x : N) :
  atom_match fl (AChr " ") x = (x =? 32)%N.
Proof.
  destruct (N.ltb_spec x 256) as [Hlt|Hge].
  - destruct fl; below_256_by_evaluation x Hlt.
  - unfold atom_match. rewrite (chr_match_big _ _ _ Hge).
    replace (x =? 32)%N with false by (symmetry; code_points).
    destruct fl; reflexivity.
Qed.

Lemma dquote_match (fl : Flags) (x : N) :
  chr_match fl dquote x = (x =? 34)%N.
Proof.
  destruct (N.ltb_spec x 256) as [Hlt|Hge].
  - destruct fl; below_256_by_evaluation x Hlt.
  - rewrite (chr_match_big _ _ _ Hge).
    replace (x =? 34)%N with false by (symmetry; code_points).
    destruct fl; reflexivity.
Qed.

Lemma same_text_DQ (fl : Flags) (m : ustr) :
  same_text fl m DQ <-> m = ustr_of_string DQ.
Proof.
  unfold DQ. cbn [ustr_of_string]. split.
  - destruct m as [|x [|y m]]; cbn; try tauto.
    intros [H _]. rewrite dquote_match in H. apply N.eqb_eq in H. now subst x.
  - intros ->. cbn. split; [|exact I]. now rewrite dquote_match.
Qed.

Lemma settings_group_matches (fl : Flags) (u : ustr) :
  fl <> NoFlags ->
  matches fl (group Channel.settings_pattern) u <-> is_settings_script_url fl u.
Proof.
  intro Hfl. unfold is_settings_script_url.
  cbn [matches group Channel.settings_pattern]. split.
  - intros (head & m2 & -> & Hh & hash & ext & -> & [Hlen Hall] & He).
    exists head, hash, ext.
    apply (proj1 (lit_ok_same_text _ _ _)) in Hh.
    apply (proj1 (lit_ok_same_text _ _ _)) in He.
    rewrite (forallb_pointwise _ _ _ (fun x => hex_set_match fl x Hfl)) in Hall.
    auto.
  - intros (head & hash & ext & -> & Hh & Hlen & Hall & He).
    exists head, (hash ++ ext)%list. split; [reflexivity|].
    split; [now apply lit_ok_same_text|].
    exists hash, ext.
    rewrite (forallb_pointwise _ _ _ (fun x => hex_set_match fl x Hfl)).
    repeat split; auto. now apply lit_ok_same_text.
Qed.

Lemma settings_occurs (fl : Flags) (pre u html : ustr) :
  fl <> NoFlags ->
  occurs fl Channel.settings_pattern pre u html <-> settings_script_at fl pre u html.
Proof.
  intro Hfl. unfold occurs, settings_script_at.
  cbn [matches before after Channel.settings_pattern]. split.
  - intros (m1 & m3 & post & -> & H1 & Hg & H3).
    apply (settings_group_matches fl u Hfl) in Hg.
    apply (proj1 (lit_ok_same_text _ _ _)) in H1.
    apply (proj1 (lit_ok_same_text _ _ _)) in H3.
    apply (proj1 (same_text_DQ _ _)) in H3. subst m3.
    now exists m1, post.
  - intros (attr & post & -> & H1 & Hg).
    apply (settings_group_matches fl u Hfl) in Hg.
    exists attr, (ustr_of_string DQ), post.
    split; [reflexivity|]. split; [now apply lit_ok_same_text|].
    split; [exact Hg|]. apply lit_ok_same_text. now apply same_text_DQ.
Qed.

Lemma spade_group_matches (fl : Flags) (u : ustr) :
  fl <> NoFlags ->
  matches fl (group Channel.spade_pattern) u <-> is_spade_url fl u.
Proof.
  intro Hfl. unfold is_spade_url. cbn [matches group Channel.spade_pattern].
  split.
  - intros (head & m2 & -> & Hh & body & ext & -> & [Hne Hall] & He).
    exists head, body, ext.
    apply (proj1 (lit_ok_same_text _ _ _)) in Hh.
    apply (proj1 (lit_ok_same_text _ _ _)) in He.
    rewrite (forallb_pointwise _ _ _ (fun x => spade_set_match fl x Hfl)) in Hall.
    auto.
  - intros (head & body & ext & -> & Hh & Hne & Hall & He).
    exists head, (body ++ ext)%list. split; [reflexivity|].
    split; [now apply lit_ok_same_text|].
    exists body, ext.
    rewrite (forallb_pointwise _ _ _ (fun x => spade_set_match fl x Hfl)).
    repeat split; auto. now apply lit_ok_same_text.
Qed.

Lemma spade_occurs (fl : Flags) (pre u js : ustr) :
  fl <> NoFlags ->
  occurs fl Channel.spade_pattern pre u js <-> spade_url_at fl pre u js.
Proof.
  intro Hfl. unfold occurs, spade_url_at.
  cbn [matches before after Channel.spade_pattern]. split.
  - intros (m1 & m3 & post & -> & (key & m2 & -> & Hk & sp & q & -> & Hsp & Hq)
            & Hg & H3).
    apply (spade_group_matches fl u Hfl) in Hg.
    apply (proj1 (lit_ok_same_text _ _ _)) in Hk.
    apply (proj1 (lit_ok_same_text _ _ _)) in Hq.
    apply (proj1 (lit_ok_same_text _ _ _)) in H3.
    apply (proj1 (same_text_DQ _ _)) in Hq.
    apply (proj1 (same_text_DQ _ _)) in H3.
    subst q m3.
    exists key, sp, post. rewrite <- !List.app_assoc.
    repeat split; auto.
    destruct Hsp as [-> | (x & -> & Hx)]; [now left|].
    rewrite space_match in Hx. apply N.eqb_eq in Hx. subst x. now right.
  - intros (key & sp & post & -> & Hk & Hsp & Hg).
    apply (spade_group_matches fl u Hfl) in Hg.
    exists (key ++ sp ++ ustr_of_string DQ)%list, (ustr_of_string DQ), post.
    rewrite <- !List.app_assoc.
    split; [reflexivity|].
    split; [|split; [exact Hg | apply lit_ok_same_text; now apply same_text_DQ]].
    exists key, (sp ++ ustr_of_string DQ)%list. split; [reflexivity|].
    split; [now apply lit_ok_same_text|].
    exists sp, (ustr_of_string DQ). split; [reflexivity|].
    split; [|apply lit_ok_same_text; now apply same_text_DQ].
    destruct Hsp as [-> | ->]; [now left|].
    right. exists 32%N. split; [reflexivity|]. now rewrite space_match.
Qed.

(** The search for the settings script fails exactly on a page without one,
    and otherwise answers the URL of one. *)
Lemma search_settings_script (fl : Flags) (html : ustr) :
  fl <> NoFlags ->
  match re_search fl Channel.settings_pattern html with
  | Some u => exists pre, settings_script_at fl pre u html
  | None => ~ has_settings_script fl html
  end.
Proof.
  intro Hfl.
  destruct (re_search fl Channel.settings_pattern html) as [u|] eqn:Hs.
  - destruct (re_search_some _ _ _ _ Hs) as [pre Hocc].
    exists pre. now apply settings_occurs.
  - intros (pre & u & Hat). apply (settings_occurs fl pre u html Hfl) in Hat.
    exact (re_search_none _ _ _ Hs pre u Hat).
Qed.

Lemma search_spade_url (fl : Flags) (js : ustr) :
  fl <> NoFlags ->
  match re_search fl Channel.spade_pattern js with
  | Some u => exists pre, spade_url_at fl pre u js
  | None => ~ has_spade_url fl js
  end.
Proof.
  intro Hfl.
  destruct (re_search fl Channel.spade_pattern js) as [u|] eqn:Hs.
  - destruct (re_search_some _ _ _ _ Hs) as [pre Hocc].
    exists pre. now apply spade_occurs.
  - intros (pre & u & Hat). apply (spade_occurs fl pre u js Hfl) in Hat.
    exact (re_search_none _ _ _ Hs pre u Hat).
Qed.

(** ** Text of ASCII only

    On text of ASCII only, the letters compare under [re.I] as they do
    without regard to the case of ASCII letters. *)

Lemma below_128 (P : N -> bool) :
  forallb P (map N.of_nat (seq 0 128)) = true ->
  forall x, (x < 128)%N -> P x = true.
Proof.
  intros Hall x Hx. rewrite forallb_forall in Hall. apply Hall.
  apply in_map_iff. exists (N.to_nat x). split; [apply N2Nat.id|].
  apply in_seq. lia.
Qed.

Lemma chr_match_ascii (c : ascii) (x : N) :
  (x < 128)%N -> chr_match RE_I c x = chr_match RE_I_A c x.
Proof.
  intro Hx. apply Bool.eqb_prop. revert x Hx.
  apply (below_128 (fun x => Bool.eqb (chr_match RE_I c x) (chr_match RE_I_A c x))).
  revert c.
  apply (every_ascii
           (fun c => forallb (fun x => Bool.eqb (chr_match RE_I c x)
                                                (chr_match RE_I_A c x))
                             (map N.of_nat (seq 0 128)))).
  vm_compute. reflexivity.
Qed.

Lemma is_word_ascii (x : N) :
  (x < 128)%N -> is_word RE_I x = is_word RE_I_A x.
Proof.
  intro Hx. apply Bool.eqb_prop. revert x Hx.
  apply (below_128 (fun x => Bool.eqb (is_word RE_I x) (is_word RE_I_A x))).
  vm_compute. reflexivity.
Qed.

Lemma existsb_pointwise {X : Type} (f g : X -> bool) (l : list X) :
  (forall x, f x = g x) -> existsb f l = existsb g l.
Proof.
  intro H. induction l as [|x l IH]; [reflexivity|]. cbn. now rewrite H, IH.
Qed.

Lemma atom_match_ascii (a : atom) (x : N) :
  (x < 128)%N -> atom_match RE_I a x = atom_match RE_I_A a x.
Proof.
  intro Hx. destruct a as [c|items]; cbn [atom_match].
  - now apply chr_match_ascii.
  - apply existsb_pointwise. intros [c|lo hi|]; cbn [item_match].
    + now apply chr_match_ascii.
    + apply existsb_pointwise. intro c. now apply chr_match_ascii.
    + now apply is_word_ascii.
Qed.

Lemma is_ascii_app (a b : ustr) :
  is_ascii (a ++ b)%list = true <-> is_ascii a = true /\ is_ascii b = true.
Proof.
  unfold is_ascii. rewrite forallb_app. apply andb_true_iff.
Qed.

Lemma lit_ok_ascii (lit : string) (m : ustr) :
  is_ascii m = true -> lit_ok RE_I lit m = lit_ok RE_I_A lit m.
Proof.
  revert m. induction lit as [|c lit IH]; intros [|x m] Hm; try reflexivity.
  cbn in Hm. apply andb_true_iff in Hm. destruct Hm as [Hx Hm].
  apply N.ltb_lt in Hx. cbn [lit_ok].
  now rewrite (chr_match_ascii c x Hx), (IH m Hm).
Qed.

Lemma forallb_atom_ascii (a : atom) (m : ustr) :
  is_ascii m = true ->
  forallb (atom_match RE_I a) m = forallb (atom_match RE_I_A a) m.
Proof.
  induction m as [|x m IH]; intro Hm; [reflexivity|].
  cbn in Hm. apply andb_true_iff in Hm. destruct Hm as [Hx Hm].
  apply N.ltb_lt in Hx. cbn [forallb].
  now rewrite (atom_match_ascii a x Hx), (IH Hm).
Qed.

Lemma matches_ascii (r : regex) (m : ustr) :
  is_ascii m = true -> (matches RE_I r m <-> matches RE_I_A r m).
Proof.
  revert m. induction r as [l|a|a|n a|r1 IH1 r2 IH2]; intros m Hm; cbn [matches].
  - now rewrite (lit_ok_ascii l m Hm).
  - split; (intros [-> | (x & -> & Hx)]; [now left | right; exists x]);
      (split; [reflexivity|]); cbn in Hm; apply andb_true_iff in Hm;
      destruct Hm as [Hlt _]; apply N.ltb_lt in Hlt;
      [rewrite <- (atom_match_ascii a x Hlt) | rewrite (atom_match_ascii a x Hlt)];
      exact Hx.
  - now rewrite (forallb_atom_ascii a m Hm).
  - now rewrite (forallb_atom_ascii a m Hm).
  - split; intros (m1 & m2 & -> & H1 & H2); apply is_ascii_app in Hm;
      destruct Hm as [Hm1 Hm2]; exists m1, m2; (split; [reflexivity|]);
      (split; [now apply (IH1 m1 Hm1) | now apply (IH2 m2 Hm2)]).
Qed.

Lemma occurs_ascii (p : pattern) (pre g s : ustr) :
  is_ascii s = true -> (occurs RE_I p pre g s <-> occurs RE_I_A p pre g s).
Proof.
  intro Hs. unfold occurs.
  split; intros (m1 & m3 & post & -> & H1 & H2 & H3);
    apply is_ascii_app in Hs; destruct Hs as [_ Hs];
    apply is_ascii_app in Hs; destruct Hs as [Hm1 Hs];
    apply is_ascii_app in Hs; destruct Hs as [Hg Hs];
    apply is_ascii_app in Hs; destruct Hs as [Hm3 _];
    exists m1, m3, post; (split; [reflexivity|]);
    (split; [now apply (matches_ascii _ m1 Hm1)|]);
    (split; [now apply (matches_ascii _ g Hg) | now apply (matches_ascii _ m3 Hm3)]).
Qed.

Lemma RE_I_flag : RE_I <> NoFlags.
Proof. discriminate. Qed.

Lemma RE_I_A_flag : RE_I_A <> NoFlags.
Proof. discriminate. Qed.

Lemma has_settings_script_ascii (html : ustr) :
  is_ascii html = true ->
  (has_settings_script RE_I html <-> has_settings_script RE_I_A html).
Proof.
  intro Hs. unfold has_settings_script.
  split; intros (pre & u & Hat); exists pre, u.
  - apply (settings_occurs RE_I_A pre u html RE_I_A_flag).
    apply (occurs_ascii _ pre u html Hs).
    now apply (settings_occurs RE_I pre u html RE_I_flag).
  - apply (settings_occurs RE_I pre u html RE_I_flag).
    apply (occurs_ascii _ pre u html Hs).
    now apply (settings_occurs RE_I_A pre u html RE_I_A_flag).
Qed.

Lemma has_spade_url_ascii (js : ustr) :
  is_ascii js = true ->
  (has_spade_url RE_I js <-> has_spade_url RE_I_A js).
Proof.
  intro Hs. unfold has_spade_url.
  split; intros (pre & u & Hat); exists pre, u.
  - apply (spade_occurs RE_I_A pre u js RE_I_A_flag).
    apply (occurs_ascii _ pre u js Hs).
    now apply (spade_occurs RE_I pre u js RE_I_flag).
  - apply (spade_occurs RE_I pre u js RE_I_flag).
    apply (occurs_ascii _ pre u js Hs).
    now apply (spade_occurs RE_I_A pre u js RE_I_A_flag).
Qed.

(* ================================================================== *)
(** * Properties: the spade URL *)

(** C6, as amended.  With the channel page fetched, and every settings
    script it may name fetched as well: [get_spade_url] raises the step 1
    error exactly when the page holds no [src] attribute with a settings
    script URL, and then fetches nothing more; otherwise it fetches the
    script at such a URL and raises the step 2 error exactly when the script
    holds no quoted [spade_url] value of the expected shape; and when it does
    hold one, the answer is such a value.  The fixed text of both shapes is
    compared as [re.I] compares letters, which is without regard to the case
    of ASCII letters on a page or script of ASCII only, and accepts more on
    other text. *)
Theorem get_spade_url_extraction (BASE_URL : string) (twitch : Twitch)
  (w : Channel.World) (page : Response) (script_of : ustr -> Response) :
  let page_url := ustr_of_string (Channel.url BASE_URL (Channel.self w)) in
  let r := fst (Channel.get_spade_url BASE_URL twitch w) in
  let asked := events_of (Channel.get_spade_url BASE_URL twitch) w in
  request twitch (Channel.trace w) GET page_url None = Ok page ->
  (forall u, is_settings_script_url RE_I u ->
     request twitch (Channel.trace w ++ [EvRequest GET page_url None])%list GET u None
     = Ok (script_of u)) ->
  (r = Raise (MinerException "Error while spade_url extraction: step #1")
   <-> ~ has_settings_script RE_I (text page))
  /\ (~ has_settings_script RE_I (text page) -> asked = [EvRequest GET page_url None])
  /\ (has_settings_script RE_I (text page) ->
      exists pre u,
        settings_script_at RE_I pre u (text page)
        /\ asked = [EvRequest GET page_url None; EvRequest GET u None]
        /\ (r = Raise (MinerException "Error while spade_url extraction: step #2")
            <-> ~ has_spade_url RE_I (text (script_of u)))
        /\ (has_spade_url RE_I (text (script_of u)) ->
            exists pre' v, r = Ok v /\ spade_url_at RE_I pre' v (text (script_of u)))
        /\ (is_ascii (text (script_of u)) = true ->
            (r = Raise (MinerException "Error while spade_url extraction: step #2")
             <-> ~ has_spade_url RE_I_A (text (script_of u)))))
  /\ (is_ascii (text page) = true ->
      (r = Raise (MinerException "Error while spade_url extraction: step #1")
       <-> ~ has_settings_script RE_I_A (text page))).
Proof.
  intros page_url r asked Hpage Hscript. subst r asked.
  assert (Hev : forall x evs,
             Channel.get_spade_url BASE_URL twitch w
             = (x, {| Channel.self := Channel.self w;
                      Channel.trace := (Channel.trace w ++ evs)%list |}) ->
             events_of (Channel.get_spade_url BASE_URL twitch) w = evs).
  { intros x evs H. apply events_of_app. now rewrite H. }
  pose proof (get_spade_url_unfold BASE_URL twitch w) as Hu. cbv zeta in Hu.
  fold page_url in Hu. rewrite Hpage in Hu.
  pose proof (search_settings_script RE_I (text page) RE_I_flag) as Hs.
  assert (Hstep1 : fst (Channel.get_spade_url BASE_URL twitch w)
                   = Raise (MinerException "Error while spade_url extraction: step #1")
                   <-> ~ has_settings_script RE_I (text page)).
  { destruct (re_search RE_I Channel.settings_pattern (text page)) as [u|].
    - destruct Hs as [pre Hat].
      assert (Hhas : has_settings_script RE_I (text page)) by (now exists pre, u).
      assert (Hurl : is_settings_script_url RE_I u).
      { destruct Hat as (attr & post & _ & _ & Hurl). exact Hurl. }
      cbn [Channel.trace] in Hu. rewrite (Hscript u Hurl) in Hu.
      destruct (re_search RE_I Channel.spade_pattern (text (script_of u)));
        rewrite Hu; cbn [fst]; (split; [discriminate | intro Hn; now elim Hn]).
    - rewrite Hu. cbn [fst]. split; [intros _; exact Hs | reflexivity]. }
  split; [exact Hstep1|]. split; [|split].
  - destruct (re_search RE_I Channel.settings_pattern (text page)) as [u|].
    + destruct Hs as [pre Hat]. intro Hn. elim Hn. now exists pre, u.
    + intros _. exact (Hev _ _ Hu).
  - destruct (re_search RE_I Channel.settings_pattern (text page)) as [u|];
      [|intro Hn; now elim Hs].
    destruct Hs as [pre Hat].
    assert (Hurl : is_settings_script_url RE_I u).
    { destruct Hat as (attr & post & _ & _ & Hurl). exact Hurl. }
    cbn [Channel.trace] in Hu. rewrite (Hscript u Hurl) in Hu.
    rewrite <- List.app_assoc in Hu. cbn [List.app] in Hu.
    pose proof (search_spade_url RE_I (text (script_of u)) RE_I_flag) as Hsp.
    intros _. exists pre, u. split; [exact Hat|].
    assert (Hstep2 : fst (Channel.get_spade_url BASE_URL twitch w)
                     = Raise (MinerException "Error while spade_url extraction: step #2")
                     <-> ~ has_spade_url RE_I (text (script_of u))).
    { destruct (re_search RE_I Channel.spade_pattern (text (script_of u))) as [v|].
      - destruct Hsp as [pre' Hat']. rewrite Hu. cbn [fst].
        split; [discriminate|]. intro Hn. elim Hn. now exists pre', v.
      - rewrite Hu. cbn [fst]. split; [intros _; exact Hsp | reflexivity]. }
    split; [|split; [exact Hstep2|split]].
    + destruct (re_search RE_I Channel.spade_pattern (text (script_of u)));
        exact (Hev _ _ Hu).
    + destruct (re_search RE_I Channel.spade_pattern (text (script_of u))) as [v|].
      * destruct Hsp as [pre' Hat']. intros _. exists pre', v.
        split; [now rewrite Hu | exact Hat'].
      * intro Hn. now elim Hsp.
    + intro Hascii. rewrite Hstep2.
      now rewrite (has_spade_url_ascii _ Hascii).
  - intro Hascii. rewrite Hstep1.
    now rewrite (has_settings_script_ascii _ Hascii).
Qed.

(* ================================================================== *)
(** * The properties on sample runs *)

(** C1, as stated, fails: [set_online] followed by a [check_online] that
    finds the channel live leaves a channel that is both online and pending
    online. *)
Lemma online_and_pending_online_reachable :
  let w := run_ops sample_tag sample_live_twitch [OpSetOnline; OpCheckOnline]
             sample_world in
  Channel.online (Channel.self w) = true
  /\ Channel.pending_online (Channel.self w) = true
  /\ Channel.offline (Channel.self w) = false
  /\ exactly_one_status (Channel.self w) = false.
Proof. vm_compute. repeat split. Qed.

(** A run in which the channel is announced, polled while the confirmation
    is pending and found not live, confirmed not live, then announced and set
    offline again. *)
Lemma liveness_status_exactly_one_witness :
  let ops := [OpSetOnline; OpCheckOnline; OpOnlineDelay; OpSetOnline; OpSetOffline] in
  exactly_one_status (Channel.self sample_world) = true
  /\ Channel.pending_online
       (Channel.self (run_ops sample_tag sample_offline_twitch [OpSetOnline]
                        sample_world)) = true
  /\ no_adoption_while_pending sample_tag sample_offline_twitch ops sample_world
  /\ always_exactly_one sample_tag sample_offline_twitch ops sample_world.
Proof.
  intro ops.
  assert (Hq : no_adoption_while_pending sample_tag sample_offline_twitch ops
                 sample_world).
  { subst ops. cbn [no_adoption_while_pending].
    repeat split; intros (Hop & _ & Hok); try discriminate Hop.
    vm_compute in Hok. discriminate Hok. }
  split; [reflexivity|]. split; [reflexivity|]. split; [exact Hq|].
  exact (proj2 (proj1 (proj2 (liveness_status_exactly_one sample_tag
                                sample_offline_twitch ops sample_world))
                  eq_refl) Hq).
Defined.

(** C2.  The stream is replaced and the memoized payload stays: a channel
    that is live on broadcast 100 and has computed its payload, and whose next
    [check_online] finds broadcast 200, holds the stream of broadcast 200 and
    still answers the payload of broadcast 100. *)
Theorem stale_payload_after_stream_replacement :
  let w1 := exec (Channel.check_online sample_tag restarting_twitch) sample_world in
  let w2 := exec (Channel._payload restarting_twitch) w1 in
  let w3 := exec (Channel.check_online sample_tag restarting_twitch) w2 in
  option_map Stream.broadcast_id (Channel._stream (Channel.self w1)) = Some 100
  /\ option_map Stream.broadcast_id (Channel._stream (Channel.self w3)) = Some 200
  /\ exists p,
       fst (Channel._payload restarting_twitch w3) = Ok p
       /\ decode_payload p = Some (minute_watched 1234 100 42)
       /\ fst (Channel.compute_payload restarting_twitch w3) <> Ok p.
Proof.
  cbv zeta. split; [vm_compute; reflexivity|]. split; [vm_compute; reflexivity|].
  exists (JObj [("data", JStr sample_data_100)]).
  split; [vm_compute; reflexivity|]. split; [vm_compute; reflexivity|].
  intro H. vm_compute in H. discriminate H.
Qed.

(** The payload of the live sample channel. *)
Lemma payload_decodes_to_minute_watched_witness :
  Channel._stream (Channel.self sample_online_world) = Some sample_stream
  /\ exists data,
       fst (Channel.compute_payload sample_live_twitch sample_online_world)
       = Ok (JObj [("data", JStr data)])
       /\ decode_payload (JObj [("data", JStr data)])
          = Some (minute_watched 1234 100 42).
Proof.
  split; [reflexivity|].
  destruct (payload_decodes_to_minute_watched sample_live_twitch sample_online_world
              sample_stream eq_refl) as (data & H1 & H2 & _).
  exists data. split; [exact H1 | exact H2].
Defined.

(** A first heartbeat of the live sample channel: the spade URL is
    resolved, the POST is answered 204, the answer is [True]. *)
Lemma send_watch_post_outcome_witness :
  Channel.online (Channel.self sample_online_world) = true
  /\ spade_url_resolved sample_base_url sample_live_twitch sample_online_world
       sample_spade_url sample_resolved_world
  /\ fst (Channel.send_watch sample_base_url sample_live_twitch sample_online_world)
     = Ok true.
Proof.
  assert (Hres : spade_url_resolved sample_base_url sample_live_twitch
                   sample_online_world sample_spade_url sample_resolved_world).
  { exists (snd (Channel.get_spade_url sample_base_url sample_live_twitch
                   sample_online_world)).
    split; [vm_compute; reflexivity | reflexivity]. }
  assert (Hpay : Channel._payload sample_live_twitch sample_resolved_world
                 = (Ok sample_payload,
                    snd (Channel._payload sample_live_twitch sample_resolved_world))).
  { vm_compute. reflexivity. }
  split; [reflexivity|]. split; [exact Hres|].
  destruct (send_watch_post_outcome sample_base_url sample_live_twitch
              sample_online_world sample_resolved_world _ sample_spade_url
              sample_payload eq_refl Hres Hpay) as (_ & _ & [_ Hiff] & _).
  apply Hiff. exists {| status := 204; text := [] |}.
  split; reflexivity.
Defined.

(** A heartbeat of the sample channel while it is not live. *)
Lemma send_watch_not_online_witness :
  Channel.online (Channel.self sample_world) = false
  /\ Channel.send_watch sample_base_url sample_live_twitch sample_world
     = (Ok false, sample_world).
Proof.
  split; [reflexivity|].
  exact (proj1 (send_watch_not_online sample_base_url sample_live_twitch
                  sample_world eq_refl)).
Defined.

(** The sample page, served by the sample client. *)
Lemma get_spade_url_extraction_witness :
  let page_url :=
    ustr_of_string (Channel.url sample_base_url (Channel.self sample_world)) in
  request sample_live_twitch (Channel.trace sample_world) GET page_url None
  = Ok (sample_script_of page_url)
  /\ is_ascii sample_page = true
  /\ (fst (Channel.get_spade_url sample_base_url sample_live_twitch sample_world)
      = Raise (MinerException "Error while spade_url extraction: step #1")
      <-> ~ has_settings_script RE_I sample_page)
  /\ (fst (Channel.get_spade_url sample_base_url sample_live_twitch sample_world)
      = Raise (MinerException "Error while spade_url extraction: step #1")
      <-> ~ has_settings_script RE_I_A sample_page).
Proof.
  intro page_url.
  assert (Hpage : request sample_live_twitch (Channel.trace sample_world) GET
                    page_url None
                  = Ok (sample_script_of page_url)) by reflexivity.
  assert (Hscript : forall u, is_settings_script_url RE_I u ->
             request sample_live_twitch
               (Channel.trace sample_world ++ [EvRequest GET page_url None])%list
               GET u None
             = Ok (sample_script_of u)).
  { intros u _. cbn [request sample_live_twitch sample_twitch]. unfold sample_script_of.
    destruct (ustr_eqb u sample_settings_url); reflexivity. }
  split; [exact Hpage|]. split; [reflexivity|].
  destruct (get_spade_url_extraction sample_base_url sample_live_twitch
              sample_world _ sample_script_of Hpage Hscript)
    as (H1 & _ & _ & H4).
  split; [exact H1 | exact (H4 eq_refl)].
Defined.

(** The sample page and script lead to the sample spade URL. *)
Example get_spade_url_sample :
  Channel.get_spade_url sample_base_url sample_live_twitch sample_world
  = (Ok sample_spade_url,
     {| Channel.self := sample_channel;
        Channel.trace :=
          [EvRequest GET (ustr_of_string "https://www.twitch.tv/bob") None;
           EvRequest GET sample_settings_url None] |}).
Proof. vm_compute. reflexivity. Qed.

(** C6, as stated, fails: a page that names the settings script at a host
    spelled with U+017F, the long s, holds no settings script URL with the
    fixed host, even without regard to the case of ASCII letters; yet
    [get_spade_url] raises no step 1 error, fetches the script at the URL as
    the page spells it, and answers a spade URL. *)
Lemma settings_script_with_long_s_accepted :
  let r := Channel.get_spade_url sample_base_url long_s_twitch sample_world in
  ~ has_settings_script RE_I_A long_s_page
  /\ request long_s_twitch [] GET (ustr_of_string "https://www.twitch.tv/bob") None
     = Ok {| status := 200; text := long_s_page |}
  /\ fst r <> Raise (MinerException "Error while spade_url extraction: step #1")
  /\ fst r = Ok sample_spade_url
  /\ events_of (Channel.get_spade_url sample_base_url long_s_twitch) sample_world
     = [EvRequest GET (ustr_of_string "https://www.twitch.tv/bob") None;
        EvRequest GET long_s_settings_url None].
Proof.
  cbv zeta.
  assert (Hnone : re_search RE_I_A Channel.settings_pattern long_s_page = None)
    by (vm_compute; reflexivity).
  assert (Hr : fst (Channel.get_spade_url sample_base_url long_s_twitch sample_world)
               = Ok sample_spade_url) by (vm_compute; reflexivity).
  split; [|split; [reflexivity|split; [|split; [exact Hr|]]]].
  - intros (pre & u & Hat).
    apply (settings_occurs RE_I_A pre u long_s_page RE_I_A_flag) in Hat.
    exact (re_search_none _ _ _ Hnone pre u Hat).
  - rewrite Hr. discriminate.
  - vm_compute. reflexivity.
Qed.

(** A channel made with id 0 learns its id and display name from a lookup
    that finds it not live. *)
Lemma get_stream_backfills_id_and_name_witness :
  let r := Channel.get_stream sample_tag sample_offline_twitch
             {| Channel.self := Channel.set_id sample_channel 0;
                Channel.trace := [] |} in
  fst r = Ok None
  /\ Channel.id (Channel.self (snd r)) = 1234
  /\ Channel._display_name (Channel.self (snd r)) = Some "Bob".
Proof.
  intro r.
  destruct (get_stream_backfills_id_and_name sample_tag sample_offline_twitch
              {| Channel.self := Channel.set_id sample_channel 0; Channel.trace := [] |}
              (sample_response sample_offline_user)
              (JObj [("user", sample_offline_user)]) sample_offline_user
              (JStr "1234") (JStr "Bob") 1234 (Some "Bob")
              eq_refl eq_refl eq_refl eq_refl eq_refl eq_refl eq_refl eq_refl eq_refl)
    as (Hid & Hname & Hstream).
  destruct (Hstream JNull eq_refl eq_refl) as [Hnone _].
  split; [exact Hnone|]. split; [exact Hid | exact Hname].
Defined.

(** [set_online] on the offline sample channel, and once more on the result. *)
Lemma set_online_only_from_offline_witness :
  let w1 := exec Channel.set_online sample_world in
  Channel.offline (Channel.self sample_world) = true
  /\ Channel.offline (Channel.self w1) = false
  /\ Channel.pending_online (Channel.self w1) = true
  /\ Channel.set_online w1 = (Ok tt, w1).
Proof.
  intro w1.
  split; [reflexivity|]. split; [reflexivity|]. split; [reflexivity|].
  exact (proj1 (proj1 (set_online_only_from_offline w1) eq_refl)).
Defined.

(** [set_offline] on the sample channel while its confirmation is pending,
    and on the live sample channel. *)
Lemma on_offline_only_when_stream_cleared_witness :
  let w1 := exec Channel.set_online sample_world in
  Channel._pending_stream_up (Channel.self w1) = Some 0%nat
  /\ Channel.online (Channel.self w1) = false
  /\ events_of Channel.set_offline w1 = [EvCancel 0%nat; EvDisplay false]
  /\ In EvOnOffline (events_of Channel.set_offline sample_online_world)
  /\ Channel.offline (Channel.self (exec Channel.set_offline sample_online_world))
     = true.
Proof.
  intro w1.
  split; [reflexivity|]. split; [reflexivity|]. split.
  - exact (proj1 (proj2 (proj2 (proj2 (on_offline_only_when_stream_cleared
                                         sample_tag sample_live_twitch w1))))
             0%nat eq_refl eq_refl).
  - assert (Hin : In EvOnOffline (events_of Channel.set_offline sample_online_world))
      by (right; left; reflexivity).
    split; [exact Hin|].
    destruct (proj1 (proj2 (on_offline_only_when_stream_cleared
                              sample_tag sample_live_twitch sample_online_world)) Hin)
      as (_ & _ & _ & _ & Hoff & _).
    exact Hoff.
Defined.

(* ================================================================== *)
(** * Further properties: the stream snapshot *)

Section StreamFacts.
Variable DROPS_ENABLED_TAG : string.

Lemma any_drops_tag_other (pre rest : list JsonType) :
  Forall (other_tag DROPS_ENABLED_TAG) pre ->
  Stream.any_drops_tag DROPS_ENABLED_TAG (pre ++ rest)%list
  = Stream.any_drops_tag DROPS_ENABLED_TAG rest.
Proof.
  induction 1 as [|t pre (i & Hi & Hne) _ IH]; [reflexivity|].
  cbn [List.app Stream.any_drops_tag]. rewrite Hi. cbn [rbind]. now rewrite Hne.
Qed.

(** X1.  The tags are read in order, up to the first one that carries the
    drops tag: a list without it answers [False]; the first tag that carries
    it answers [True] whatever follows, well formed or not; a tag that cannot
    be read before any such tag raises its error. *)
Theorem any_drops_tag_in_order (pre rest : list JsonType) (t : JsonType) :
  Forall (other_tag DROPS_ENABLED_TAG) pre ->
  Stream.any_drops_tag DROPS_ENABLED_TAG pre = Ok false
  /\ (has_tag_id DROPS_ENABLED_TAG t = true ->
      Stream.any_drops_tag DROPS_ENABLED_TAG (pre ++ t :: rest)%list = Ok true)
  /\ (forall e, getitem t "id" = Raise e ->
      Stream.any_drops_tag DROPS_ENABLED_TAG (pre ++ t :: rest)%list = Raise e).
Proof.
  intro Hpre. split; [|split].
  - rewrite <- (List.app_nil_r pre). now rewrite any_drops_tag_other.
  - intro Ht. rewrite any_drops_tag_other by assumption.
    unfold has_tag_id in Ht. cbn [Stream.any_drops_tag].
    destruct (getitem t "id") as [i|e]; [|discriminate]. cbn [rbind].
    now rewrite Ht.
  - intros e He. rewrite any_drops_tag_other by assumption.
    cbn [Stream.any_drops_tag]. now rewrite He.
Qed.

Lemma any_drops_tag_existsb (tags : list JsonType) :
  Forall (fun t => exists i, getitem t "id" = Ok i) tags ->
  Stream.any_drops_tag DROPS_ENABLED_TAG tags
  = Ok (existsb (has_tag_id DROPS_ENABLED_TAG) tags).
Proof.
  induction 1 as [|t tags (i & Hi) _ IH]; [reflexivity|].
  cbn [Stream.any_drops_tag existsb]. unfold has_tag_id at 1. rewrite Hi.
  cbn [rbind]. destruct (py_eq_str i DROPS_ENABLED_TAG); [reflexivity|exact IH].
Qed.

(** X2.  A lookup answer of the expected shape gives the snapshot field by
    field: the broadcast id is [int] of the stream's id, the viewers and the
    title are taken as they are, the game is built when there is one, and
    drops are enabled exactly when one of the tags carries the drops tag. *)
Theorem from_get_stream_well_formed
  (data stream settings id_field game_field : JsonType) (tags : list JsonType)
  (broadcast viewers : Z) (title : string) (game : option Game) :
  getitem data "stream" = Ok stream ->
  getitem data "broadcastSettings" = Ok settings ->
  getitem stream "id" = Ok id_field ->
  py_int id_field = Ok broadcast ->
  getitem settings "game" = Ok game_field ->
  (if truthy game_field
   then exists g, Game_init game_field = Ok g /\ game = Some g
   else game = None) ->
  getitem stream "viewersCount" = Ok (JInt viewers) ->
  getitem settings "title" = Ok (JStr title) ->
  getitem stream "tags" = Ok (JList tags) ->
  Forall (fun t => exists i, getitem t "id" = Ok i) tags ->
  Stream.from_get_stream DROPS_ENABLED_TAG data
  = Ok {| Stream.broadcast_id := broadcast;
          Stream.viewers := viewers;
          Stream.drops_enabled := existsb (has_tag_id DROPS_ENABLED_TAG) tags;
          Stream.game := game;
          Stream.title := title |}.
Proof.
  intros Hs Hb Hid Hint Hg Hgame Hv Ht Htags Hwf.
  unfold Stream.from_get_stream. rewrite Hs. cbn [rbind]. rewrite Hb. cbn [rbind].
  rewrite Hid, Hg, Hv, Ht, Htags. cbn [rbind].
  unfold Stream.__init__. rewrite Hint. cbn [rbind as_int py_iter as_str].
  rewrite (any_drops_tag_existsb tags Hwf). cbn [rbind].
  destruct (truthy game_field).
  - destruct Hgame as (g & -> & ->). reflexivity.
  - subst game. reflexivity.
Qed.

(** X3.  The two construction paths agree: when a directory entry carries the
    five fields that a lookup answer carries under [stream] and
    [broadcastSettings], both build the same snapshot, or fail alike. *)
Theorem from_directory_agrees_with_from_get_stream
  (lookup entry stream settings : JsonType) :
  getitem lookup "stream" = Ok stream ->
  getitem lookup "broadcastSettings" = Ok settings ->
  getitem entry "id" = getitem stream "id" ->
  getitem entry "game" = getitem settings "game" ->
  getitem entry "viewersCount" = getitem stream "viewersCount" ->
  getitem entry "title" = getitem settings "title" ->
  getitem entry "tags" = getitem stream "tags" ->
  Stream.from_directory DROPS_ENABLED_TAG entry
  = Stream.from_get_stream DROPS_ENABLED_TAG lookup.
Proof.
  intros Hs Hb H1 H2 H3 H4 H5.
  unfold Stream.from_directory, Stream.from_get_stream.
  rewrite Hs, Hb, H1, H2, H3, H4, H5. reflexivity.
Qed.

End StreamFacts.

(* ================================================================== *)
(** * Further properties: construction and identity *)

Lemma status_of_fields (c : Channel.t) :
  (Channel._pending_stream_up c = None -> exactly_one_status c = true)
  /\ (Channel.cached_payload c = None -> cache_needs_stream c).
Proof.
  split.
  - intro Hp. apply exactly_one_status_iff. now right.
  - intros Hc _. exact Hc.
Qed.

(** X4.  Every constructor that does not ask the client yields a channel
    without pending task, memoized payload or spade URL.  [__init__] and
    [from_acl] yield an offline channel, [from_acl] one with priority;
    [from_directory] yields an online channel without priority that holds the
    snapshot [Stream.from_directory] builds from the same entry. *)
Theorem constructors_initial_state (DROPS_ENABLED_TAG : string) (c : Channel.t) :
  let fresh :=
    Channel._pending_stream_up c = None /\ Channel.cached_payload c = None
    /\ Channel._spade_url c = None /\ Channel.points c = None
    /\ exactly_one_status c = true in
  (forall id login display_name priority,
     Channel.__init__ id login display_name priority = Ok c ->
     fresh /\ Channel.offline c = true
     /\ py_int id = Ok (Channel.id c) /\ Channel._login c = login
     /\ Channel._display_name c = display_name /\ Channel.priority c = priority)
  /\ (forall data,
        Channel.from_acl data = Ok c ->
        fresh /\ Channel.offline c = true /\ Channel.priority c = true)
  /\ (forall data,
        Channel.from_directory DROPS_ENABLED_TAG data = Ok c ->
        fresh /\ Channel.online c = true /\ Channel.priority c = false
        /\ exists s, Stream.from_directory DROPS_ENABLED_TAG data = Ok s
                     /\ Channel._stream c = Some s).
Proof.
  intro fresh.
  assert (Hinit : forall id login display_name priority,
             Channel.__init__ id login display_name priority = Ok c ->
             fresh /\ Channel.offline c = true
             /\ py_int id = Ok (Channel.id c) /\ Channel._login c = login
             /\ Channel._display_name c = display_name
             /\ Channel.priority c = priority).
  { intros id login dn pr. unfold Channel.__init__.
    destruct (py_int id) as [i|e]; [|discriminate]. cbn [rbind].
    intros [= <-]. subst fresh. cbn. repeat split; reflexivity. }
  split; [exact Hinit|]. split.
  - intros data. unfold Channel.from_acl.
    destruct (getitem data "id") as [i|]; [|discriminate]. cbn [rbind].
    destruct (getitem data "name") as [n|]; [|discriminate]. cbn [rbind].
    destruct (as_str n) as [n'|]; [|discriminate]. cbn [rbind].
    destruct (dict_get_default data "displayName") as [d|]; [|discriminate].
    cbn [rbind].
    destruct (as_optional_str d) as [d'|]; [|discriminate]. cbn [rbind].
    intro H. destruct (Hinit _ _ _ _ H) as (Hf & Hoff & _ & _ & _ & Hpr). auto.
  - intros data. unfold Channel.from_directory.
    destruct (getitem data "broadcaster") as [b|]; [|discriminate]. cbn [rbind].
    destruct (getitem b "id") as [i|]; [|discriminate]. cbn [rbind].
    destruct (getitem b "login") as [n|]; [|discriminate]. cbn [rbind].
    destruct (as_str n) as [n'|]; [|discriminate]. cbn [rbind].
    destruct (getitem b "displayName") as [d|]; [|discriminate]. cbn [rbind].
    destruct (as_optional_str d) as [d'|]; [|discriminate]. cbn [rbind].
    unfold Channel.__init__.
    destruct (py_int i) as [i'|]; [|discriminate]. cbn [rbind].
    destruct (Stream.from_directory DROPS_ENABLED_TAG data) as [s|]; [|discriminate].
    cbn [rbind]. intros [= <-]. subst fresh. cbn.
    repeat split; try reflexivity. now exists s.
Qed.

Section FromName.
Variable DROPS_ENABLED_TAG : string.
Variable twitch : Twitch.

(** X5.  [from_name] starts from a channel with id 0 and the given login and
    priority, whatever the state held before, and asks for its stream once.
    When the lookup raises, so does [from_name]; otherwise the channel is
    online exactly when the lookup found a stream, holds that stream, and has
    no pending task, memoized payload or spade URL. *)
Theorem from_name_state (channel_login : string) (priority : bool)
  (w : Channel.World) (c0 : Channel.t) :
  Channel.__init__ (JInt 0) channel_login None priority = Ok c0 ->
  let looked := Channel.get_stream DROPS_ENABLED_TAG twitch
                  {| Channel.self := c0; Channel.trace := Channel.trace w |} in
  let r := Channel.from_name DROPS_ENABLED_TAG twitch channel_login priority w in
  let c := Channel.self (snd r) in
  (forall e, fst looked = Raise e <-> fst r = Raise e)
  /\ Channel._stream c
     = match fst looked with Ok (Some s) => Some s | _ => None end
  /\ Channel._login c = channel_login /\ Channel.priority c = priority
  /\ Channel._pending_stream_up c = None /\ Channel.cached_payload c = None
  /\ Channel._spade_url c = None
  /\ events_of (Channel.from_name DROPS_ENABLED_TAG twitch channel_login priority) w
     = [EvGql (stream_lookup c0)].
Proof.
  intros Hinit looked r c.
  assert (Hc0 : c0 = {| Channel.id := 0; Channel._login := channel_login;
                        Channel._display_name := None; Channel._spade_url := None;
                        Channel.points := None; Channel._stream := None;
                        Channel._pending_stream_up := None;
                        Channel.priority := priority;
                        Channel.cached_payload := None |}).
  { cbn in Hinit. now injection Hinit as <-. }
  assert (Hr : r = match looked with
                   | (Ok (Some s), w1) =>
                       (Ok tt, {| Channel.self := Channel.set_stream (Channel.self w1) (Some s);
                                  Channel.trace := Channel.trace w1 |})
                   | (Ok None, w1) => (Ok tt, w1)
                   | (Raise e, w1) => (Raise e, w1)
                   end).
  { subst r looked. unfold Channel.from_name. rewrite Hinit.
    unfold Channel.bind at 1. unfold Channel.lift at 1.
    unfold Channel.bind at 1. unfold Channel.update at 1.
    cbn [Channel.self Channel.trace].
    unfold Channel.bind at 1.
    destruct (Channel.get_stream DROPS_ENABLED_TAG twitch _) as [[[s|]|e] w1];
      reflexivity. }
  pose proof (get_stream_frame DROPS_ENABLED_TAG twitch
                {| Channel.self := c0; Channel.trace := Channel.trace w |}) as Hf.
  cbv zeta in Hf. fold looked in Hf. cbn [Channel.self Channel.trace] in Hf.
  destruct Hf as (Hl & Hsp & _ & Hst & Hpe & Hpr & Hca & Htr).
  assert (Hev : Channel.trace (snd r)
                = (Channel.trace w ++ [EvGql (stream_lookup c0)])%list).
  { rewrite Hr. destruct looked as [[[s|]|e] w1]; cbn [snd Channel.trace] in *;
      exact Htr. }
  subst c. rewrite Hr. rewrite Hc0 in Hl, Hsp, Hst, Hpe, Hpr, Hca.
  cbn [Channel._login Channel._spade_url Channel._stream
         Channel._pending_stream_up Channel.priority Channel.cached_payload]
    in Hl, Hsp, Hst, Hpe, Hpr, Hca.
  split; [|split; [|split; [|split; [|split; [|split; [|split]]]]]].
  - intro e. destruct looked as [[[s|]|e'] w1]; cbn [fst]; split; congruence.
  - destruct looked as [[[s|]|e'] w1]; cbn [fst snd Channel.self] in *;
      try exact Hst. reflexivity.
  - destruct looked as [[[s|]|e'] w1]; cbn [fst snd Channel.self] in *; exact Hl.
  - destruct looked as [[[s|]|e'] w1]; cbn [fst snd Channel.self] in *; exact Hpr.
  - destruct looked as [[[s|]|e'] w1]; cbn [fst snd Channel.self] in *; exact Hpe.
  - destruct looked as [[[s|]|e'] w1]; cbn [fst snd Channel.self] in *; exact Hca.
  - destruct looked as [[[s|]|e'] w1]; cbn [fst snd Channel.self] in *; exact Hsp.
  - apply events_of_app. fold r. exact Hev.
Qed.

End FromName.

Lemma string_app_nil_r (s : string) : s ++ EmptyString = s.
Proof.
  induction s as [|c s IH]; [reflexivity|]. cbn [append]. now rewrite IH.
Qed.

Lemma str_of_Z_inj (a b : Z) : str_of_Z a = str_of_Z b -> a = b.
Proof.
  intro H.
  pose proof (parse_number_str_of_Z a EmptyString eq_refl) as Ha.
  pose proof (parse_number_str_of_Z b EmptyString eq_refl) as Hb.
  rewrite string_app_nil_r in Ha, Hb. rewrite H in Ha. congruence.
Qed.

(** X6.  Two channels are equal exactly when their ids are, which is exactly
    when their [iid] keys are the same text; equal channels hash alike,
    whatever their logins and names; and a channel compared with an object of
    another class answers [NotImplemented]. *)
Theorem channel_identity (hash : string * Z -> Z) (a b : Channel.t) :
  (Channel.__eq__ a (Channel.Obj_Channel b) = Channel.Eq_bool true
   <-> Channel.id a = Channel.id b)
  /\ (Channel.iid a = Channel.iid b <-> Channel.id a = Channel.id b)
  /\ (Channel.__eq__ a (Channel.Obj_Channel b) = Channel.Eq_bool true ->
      Channel.__hash__ hash a = Channel.__hash__ hash b)
  /\ Channel.__eq__ a Channel.Obj_other = Channel.NotImplemented.
Proof.
  assert (Heq : Channel.__eq__ a (Channel.Obj_Channel b) = Channel.Eq_bool true
                <-> Channel.id a = Channel.id b).
  { cbn [Channel.__eq__]. split.
    - intros [= H]. now apply Z.eqb_eq.
    - intros ->. now rewrite Z.eqb_refl. }
  split; [exact Heq|]. split; [|split; [|reflexivity]].
  - unfold Channel.iid. split; [apply str_of_Z_inj | now intros ->].
  - intro H. apply Heq in H. unfold Channel.__hash__. now rewrite H.
Qed.

(* ================================================================== *)
(** * Further properties: accessors *)

Lemma _payload_fst (twitch : Twitch) (w : Channel.World) :
  fst (Channel._payload twitch w)
  = match Channel.cached_payload (Channel.self w) with
    | Some p => Ok p
    | None => fst (Channel.compute_payload twitch w)
    end.
Proof.
  unfold Channel._payload. unfold Channel.bind at 1. unfold Channel.get_self at 1.
  destruct (Channel.cached_payload (Channel.self w)); [reflexivity|].
  unfold Channel.bind at 1.
  destruct (Channel.compute_payload twitch w) as [[p|e] w1]; reflexivity.
Qed.

(** The computed payload reads the channel's id and the stream's broadcast
    id, and nothing else of either. *)
Lemma compute_payload_fst (twitch : Twitch) (w w' : Channel.World) :
  Channel.id (Channel.self w') = Channel.id (Channel.self w) ->
  option_map Stream.broadcast_id (Channel._stream (Channel.self w'))
  = option_map Stream.broadcast_id (Channel._stream (Channel.self w)) ->
  fst (Channel.compute_payload twitch w') = fst (Channel.compute_payload twitch w).
Proof.
  intros Hid Hb. unfold Channel.compute_payload, Channel.bind, Channel.get_self.
  destruct (Channel._stream (Channel.self w')) as [s'|],
    (Channel._stream (Channel.self w)) as [s|]; try discriminate; [|reflexivity].
  injection Hb as Hb. cbv zeta. unfold Channel.payload_events. rewrite Hid, Hb.
  destruct (decode_utf8 _); reflexivity.
Qed.

(** X7.  Setting the viewers changes the viewers of an online channel and
    nothing of an offline one.  In both cases no collaborator is asked, the
    liveness state, the game and the drops flag stay, the memoized payload
    stays, and the payload that [_payload] answers is the same as before. *)
Theorem viewers_setter_frame (twitch : Twitch) (value : Z) (w : Channel.World) :
  let w' := exec (Channel.viewers_setter value) w in
  Channel.viewers (Channel.self w')
  = (if Channel.online (Channel.self w) then Some value else None)
  /\ (Channel.online (Channel.self w) = false -> w' = w)
  /\ Channel.trace w' = Channel.trace w
  /\ Channel.online (Channel.self w') = Channel.online (Channel.self w)
  /\ Channel._pending_stream_up (Channel.self w')
     = Channel._pending_stream_up (Channel.self w)
  /\ Channel.game (Channel.self w') = Channel.game (Channel.self w)
  /\ Channel.drops_enabled (Channel.self w') = Channel.drops_enabled (Channel.self w)
  /\ Channel.cached_payload (Channel.self w') = Channel.cached_payload (Channel.self w)
  /\ fst (Channel._payload twitch w') = fst (Channel._payload twitch w).
Proof.
  intro w'.
  assert (Hfields :
    Channel.viewers (Channel.self w')
    = (if Channel.online (Channel.self w) then Some value else None)
    /\ (Channel.online (Channel.self w) = false -> w' = w)
    /\ Channel.trace w' = Channel.trace w
    /\ Channel.online (Channel.self w') = Channel.online (Channel.self w)
    /\ Channel._pending_stream_up (Channel.self w')
       = Channel._pending_stream_up (Channel.self w)
    /\ Channel.game (Channel.self w') = Channel.game (Channel.self w)
    /\ Channel.drops_enabled (Channel.self w')
       = Channel.drops_enabled (Channel.self w)
    /\ Channel.cached_payload (Channel.self w')
       = Channel.cached_payload (Channel.self w)
    /\ Channel.id (Channel.self w') = Channel.id (Channel.self w)
    /\ option_map Stream.broadcast_id (Channel._stream (Channel.self w'))
       = option_map Stream.broadcast_id (Channel._stream (Channel.self w))).
  { subst w'. destruct_world w.
    unfold Channel.viewers_setter, exec, Channel.update.
    cbn [snd Channel.self Channel.trace Channel._stream].
    destruct _stream as [s|]; cbn; repeat split; try discriminate. }
  destruct Hfields as (H1 & H2 & H3 & H4 & H5 & H6 & H7 & H8 & H9 & H10).
  repeat (split; [assumption|]).
  rewrite !_payload_fst, H8.
  destruct (Channel.cached_payload (Channel.self w)); [reflexivity|].
  now apply compute_payload_fst.
Qed.

(** X8.  [remove] cancels the pending task when there is one, forgets its
    handle, and tells the channel list; it always returns, never touches the
    stream or the memoized payload, and never calls the became-offline hook.
    After it no confirmation is pending, so a second [remove] only tells the
    channel list. *)
Theorem remove_cancels_pending (w : Channel.World) :
  let w' := exec Channel.remove w in
  Channel.remove w = (Ok tt, w')
  /\ Channel.self w' = Channel.set_pending_stream_up (Channel.self w) None
  /\ events_of Channel.remove w
     = match Channel._pending_stream_up (Channel.self w) with
       | Some task => [EvCancel task; EvRemove]
       | None => [EvRemove]
       end
  /\ Channel.online (Channel.self w') = Channel.online (Channel.self w)
  /\ Channel.pending_online (Channel.self w') = false
  /\ events_of Channel.remove w' = [EvRemove].
Proof.
  intro w'.
  assert (Hr : Channel.remove w
               = (Ok tt,
                  {| Channel.self := Channel.set_pending_stream_up (Channel.self w) None;
                     Channel.trace :=
                       (Channel.trace w
                          ++ match Channel._pending_stream_up (Channel.self w) with
                             | Some task => [EvCancel task; EvRemove]
                             | None => [EvRemove]
                             end)%list |})).
  { destruct_world w. unfold Channel.remove. unfold_m.
    destruct _pending_stream_up; cbn; rewrite <- ?List.app_assoc; reflexivity. }
  assert (Hw' : w' = snd (Channel.remove w)) by reflexivity.
  rewrite Hr in Hw'. cbn [snd] in Hw'.
  split; [now rewrite Hr, Hw'|].
  split; [now rewrite Hw'|].
  split; [apply events_of_app; now rewrite Hr|].
  split; [now rewrite Hw'|].
  split; [now rewrite Hw'|].
  assert (Hr' : Channel.remove w'
                = (Ok tt, {| Channel.self := Channel.self w';
                             Channel.trace := (Channel.trace w' ++ [EvRemove])%list |})).
  { rewrite Hw'. unfold Channel.remove. unfold_m. reflexivity. }
  apply events_of_app. now rewrite Hr'.
Qed.

(* ================================================================== *)
(** * Further properties: lookups and transitions *)

Section LookupFacts.
Variable DROPS_ENABLED_TAG : string.
Variable twitch : Twitch.

Local Abbreviation get_stream := (Channel.get_stream DROPS_ENABLED_TAG twitch).
Local Abbreviation check_online := (Channel.check_online DROPS_ENABLED_TAG twitch).
Local Abbreviation _online_delay := (Channel._online_delay DROPS_ENABLED_TAG twitch).

(** X9.  A lookup that is answered with nothing, or with an answer whose
    [user] is null, finds no stream and leaves the channel as it was, id and
    display name included. *)
Theorem get_stream_without_user (w : Channel.World) (response : JsonType) :
  gql_request twitch (Channel.trace w) (stream_lookup (Channel.self w)) = Ok response ->
  (truthy response = false
   \/ exists data user,
        getitem response "data" = Ok data /\ getitem data "user" = Ok user
        /\ truthy user = false) ->
  get_stream w = (Ok None, asked_stream w).
Proof.
  intros Hgql Hcase. unfold stream_lookup in Hgql.
  unfold Channel.get_stream, asked_stream, stream_lookup. unfold_m.
  cbn [fst snd Channel.self Channel.trace]. rewrite Hgql.
  destruct Hcase as [Hf | (data & user & Hd & Hu & Hf)].
  - rewrite Hf. reflexivity.
  - destruct (truthy response); [|reflexivity]. cbn [negb].
    rewrite Hd, Hu, Hf. reflexivity.
Qed.

(** X10.  Whatever the lookup answers, [get_stream] asks the client once, for
    [GetStreamInfo] of the channel's login, and writes nothing but the id and
    the display name: the stream held, the pending task, the memoized payload
    and the spade URL stay.  When the client raises, [get_stream] raises the
    same and the channel is as it was. *)
Theorem get_stream_writes_id_and_name_only (w : Channel.World) :
  let r := get_stream w in
  let c := Channel.self w in
  let c' := Channel.self (snd r) in
  events_of get_stream w
  = [EvGql {| op_name := "GetStreamInfo";
              op_variables := [("channel", JStr (Channel._login c))] |}]
  /\ Channel._login c' = Channel._login c
  /\ Channel._stream c' = Channel._stream c
  /\ Channel._pending_stream_up c' = Channel._pending_stream_up c
  /\ Channel.cached_payload c' = Channel.cached_payload c
  /\ Channel._spade_url c' = Channel._spade_url c
  /\ Channel.priority c' = Channel.priority c
  /\ (forall e,
        gql_request twitch (Channel.trace w) (stream_lookup c) = Raise e ->
        r = (Raise e, asked_stream w)).
Proof.
  intros r c c'. subst r c c'.
  destruct (get_stream_frame DROPS_ENABLED_TAG twitch w)
    as (Hl & Hsp & _ & Hst & Hpe & Hpr & Hca & Htr).
  split; [apply events_of_app; exact Htr|].
  repeat (split; [assumption|]).
  intros e He. unfold stream_lookup in He.
  unfold Channel.get_stream, asked_stream, stream_lookup. unfold_m.
  cbn [fst snd Channel.self Channel.trace]. now rewrite He.
Qed.

(** X11.  [check_online] raises exactly when the lookup raises, and raises
    the same; the stream and the memoized payload are then as before.  When
    the lookup finds a stream, [check_online] answers [True] and the channel
    holds that stream; when it finds none, [check_online] answers [False] and
    the channel holds neither a stream nor a memoized payload.  So the answer
    is whether the channel is online afterwards.  The pending task is never
    touched, and the only thing asked of the collaborators is the lookup. *)
Theorem check_online_answers_liveness (w : Channel.World) :
  let r := check_online w in
  let c' := Channel.self (snd r) in
  (forall e, fst (get_stream w) = Raise e <-> fst r = Raise e)
  /\ (forall e,
        gql_request twitch (Channel.trace w) (stream_lookup (Channel.self w))
        = Raise e ->
        fst r = Raise e)
  /\ (forall s, fst (get_stream w) = Ok (Some s) ->
        fst r = Ok true /\ Channel._stream c' = Some s)
  /\ (fst (get_stream w) = Ok None ->
      fst r = Ok false /\ Channel._stream c' = None
      /\ Channel.cached_payload c' = None)
  /\ (forall b, fst r = Ok b ->
        Channel.online c' = b /\ (b = false -> Channel.cached_payload c' = None))
  /\ (forall e, fst r = Raise e ->
        Channel._stream c' = Channel._stream (Channel.self w)
        /\ Channel.cached_payload c' = Channel.cached_payload (Channel.self w))
  /\ Channel._pending_stream_up c' = Channel._pending_stream_up (Channel.self w)
  /\ events_of check_online w = [EvGql (stream_lookup (Channel.self w))].
Proof.
  intros r c'. subst r c'. rewrite check_online_unfold.
  destruct (get_stream_frame DROPS_ENABLED_TAG twitch w)
    as (_ & _ & _ & Hst & Hpe & _ & Hca & Htr).
  assert (Hev : forall m : Channel.M bool,
             Channel.trace (snd (m w))
             = (Channel.trace w ++ [EvGql (stream_lookup (Channel.self w))])%list ->
             events_of m w = [EvGql (stream_lookup (Channel.self w))]).
  { intros m H. now apply events_of_app. }
  assert (Hraise : forall e,
             gql_request twitch (Channel.trace w) (stream_lookup (Channel.self w))
             = Raise e ->
             fst (get_stream w) = Raise e).
  { intros e He. unfold stream_lookup in He.
    unfold Channel.get_stream, stream_lookup. unfold_m.
    cbn [fst snd Channel.self Channel.trace]. now rewrite He. }
  split; [|split; [|split; [|split; [|split; [|split; [|split]]]]]].
  - intro e. destruct (get_stream w) as [[[s|]|e'] w1]; cbn [fst]; split;
      congruence.
  - intros e He. apply Hraise in He.
    destruct (get_stream w) as [[[s|]|e'] w1]; cbn [fst] in *; congruence.
  - intros s. destruct (get_stream w) as [[[s'|]|e'] w1]; cbn [fst snd];
      intros [= <-]. split; reflexivity.
  - destruct (get_stream w) as [[[s'|]|e'] w1]; cbn [fst snd]; intros [=].
    repeat split.
  - intros b. destruct (get_stream w) as [[[s|]|e] w1]; cbn [fst snd];
      intros [= <-]; split; try reflexivity; discriminate.
  - intros e. destruct (get_stream w) as [[[s|]|e'] w1]; cbn [fst snd] in *;
      intros [= <-]. auto.
  - destruct (get_stream w) as [[[s|]|e'] w1]; cbn [fst snd] in *; exact Hpe.
  - apply Hev. rewrite check_online_unfold.
    destruct (get_stream w) as [[[s|]|e'] w1]; cbn [fst snd] in *; exact Htr.
Qed.

(** X12.  A delayed confirmation whose lookup finds a stream adopts it: the
    channel holds that stream, so its viewers and drops flag are the stream's,
    no confirmation is pending any more, and the display is refreshed before
    the became-online hook is called. *)
Theorem online_delay_adopts_stream (w : Channel.World) (s : Stream.t) :
  fst (get_stream (slept w)) = Ok (Some s) ->
  let r := _online_delay w in
  let c' := Channel.self (snd r) in
  fst r = Ok tt
  /\ Channel._stream c' = Some s
  /\ Channel.online c' = true /\ Channel.pending_online c' = false
  /\ Channel.offline c' = false
  /\ Channel.viewers c' = Some (Stream.viewers s)
  /\ Channel.drops_enabled c' = Stream.drops_enabled s
  /\ events_of _online_delay w
     = [EvSleepOnlineDelay; EvGql (stream_lookup (Channel.self w));
        EvDisplay false; EvOnOnline].
Proof.
  intros Hs r c'. subst r c'.
  pose proof (_online_delay_events DROPS_ENABLED_TAG twitch w) as Hev.
  cbv zeta in Hev. fold (slept w) in Hev. rewrite Hs in Hev.
  pose proof (_online_delay_unfold DROPS_ENABLED_TAG twitch w) as Hu.
  cbv zeta in Hu. fold (slept w) in Hu. rewrite Hu.
  destruct (get_stream (slept w)) as [[[s'|]|e] w1]; cbn [fst] in Hs;
    try discriminate.
  injection Hs as ->. cbn. repeat split. exact Hev.
Qed.

(** X13.  A delayed confirmation whose lookup raises stops there: the stream
    is as before and the handle of the task is still held, although the task
    has ended.  A channel that was pending online stays so, and [set_online]
    keeps doing nothing on it. *)
Theorem online_delay_failure_stays_pending (w : Channel.World) (e : Exn) :
  fst (get_stream (slept w)) = Raise e ->
  let r := _online_delay w in
  let w' := snd r in
  fst r = Raise e
  /\ Channel._stream (Channel.self w') = Channel._stream (Channel.self w)
  /\ Channel._pending_stream_up (Channel.self w')
     = Channel._pending_stream_up (Channel.self w)
  /\ events_of _online_delay w
     = [EvSleepOnlineDelay; EvGql (stream_lookup (Channel.self w))]
  /\ (Channel.pending_online (Channel.self w) = true ->
      Channel.pending_online (Channel.self w') = true
      /\ Channel.set_online w' = (Ok tt, w')).
Proof.
  intros He r w'. subst r w'.
  pose proof (_online_delay_events DROPS_ENABLED_TAG twitch w) as Hev.
  cbv zeta in Hev. fold (slept w) in Hev. rewrite He in Hev.
  pose proof (_online_delay_unfold DROPS_ENABLED_TAG twitch w) as Hu.
  cbv zeta in Hu. fold (slept w) in Hu. rewrite Hu.
  destruct (get_stream_frame DROPS_ENABLED_TAG twitch (slept w))
    as (_ & _ & _ & Hst & Hpe & _).
  destruct (get_stream (slept w)) as [[[s'|]|e'] w1]; cbn [fst] in He;
    try discriminate.
  injection He as ->. cbn [fst snd Channel.self slept] in *.
  split; [reflexivity|]. split; [exact Hst|]. split; [exact Hpe|].
  split; [now rewrite List.app_nil_r in Hev|].
  intro Hp. unfold Channel.pending_online in *. rewrite Hpe.
  split; [exact Hp|].
  rewrite set_online_cases. unfold Channel.offline. rewrite Hpe.
  unfold is_not_None in Hp. apply negb_true_iff in Hp. rewrite Hp.
  now rewrite andb_false_r.
Qed.

End LookupFacts.

(** X14.  [set_offline] right after [set_online] on an offline channel cancels
    the confirmation that was started: the channel is exactly as before, and
    the collaborators have seen the task made and cancelled, with a display
    refresh after each. *)
Theorem set_offline_undoes_set_online (w : Channel.World) :
  Channel.offline (Channel.self w) = true ->
  let task := List.length (Channel.trace w) in
  let w2 := exec Channel.set_offline (exec Channel.set_online w) in
  Channel.self w2 = Channel.self w
  /\ Channel.trace w2
     = (Channel.trace w
          ++ [EvCreateTask task; EvDisplay false; EvCancel task; EvDisplay false])%list.
Proof.
  intros Hoff task w2. subst w2 task. unfold exec.
  rewrite set_online_cases, Hoff. cbn [snd]. rewrite set_offline_cases. cbn [snd].
  destruct_world w. unfold Channel.offline, is_None in Hoff. cbn in Hoff.
  destruct _stream; [discriminate|]. destruct _pending_stream_up; [discriminate|].
  cbn. rewrite <- List.app_assoc. split; reflexivity.
Qed.

(* ================================================================== *)
(** * Further properties: the memoized payload and the heartbeat *)

Lemma compute_payload_snd (twitch : Twitch) (w : Channel.World) :
  snd (Channel.compute_payload twitch w) = w.
Proof.
  unfold Channel.compute_payload, Channel.bind, Channel.get_self.
  destruct (Channel._stream (Channel.self w)); [|reflexivity].
  cbv zeta. destruct (decode_utf8 _); reflexivity.
Qed.

Lemma compute_payload_no_stream (twitch : Twitch) (w : Channel.World) :
  Channel._stream (Channel.self w) = None ->
  Channel.compute_payload twitch w = (Raise AssertionError, w).
Proof.
  intro Hs. unfold Channel.compute_payload, Channel.bind, Channel.get_self.
  now rewrite Hs.
Qed.

Lemma _payload_cases (twitch : Twitch) (w : Channel.World) :
  Channel._payload twitch w
  = match Channel.cached_payload (Channel.self w) with
    | Some p => (Ok p, w)
    | None =>
        match fst (Channel.compute_payload twitch w) with
        | Ok p =>
            (Ok p, {| Channel.self := Channel.set_cached_payload (Channel.self w) (Some p);
                      Channel.trace := Channel.trace w |})
        | Raise e => (Raise e, w)
        end
    end.
Proof.
  unfold Channel._payload. unfold Channel.bind at 1. unfold Channel.get_self at 1.
  destruct (Channel.cached_payload (Channel.self w)); [reflexivity|].
  unfold Channel.bind at 1. pose proof (compute_payload_snd twitch w) as Hs.
  destruct (Channel.compute_payload twitch w) as [[p|e] w1]; cbn [fst snd] in *;
    subst w1; reflexivity.
Qed.

(** X15.  The payload is computed once.  A memoized payload is answered as it
    is, without looking at the stream; after an access that answered a
    payload, the next access answers the same and changes nothing; an access
    with neither a memoized payload nor a stream fails its assertion and
    memoizes nothing; and no access asks anything of a collaborator. *)
Theorem payload_is_memoized (twitch : Twitch) (w : Channel.World) :
  let r := Channel._payload twitch w in
  (forall p, Channel.cached_payload (Channel.self w) = Some p -> r = (Ok p, w))
  /\ (forall p, fst r = Ok p ->
        Channel.cached_payload (Channel.self (snd r)) = Some p
        /\ Channel._payload twitch (snd r) = (Ok p, snd r))
  /\ (Channel.cached_payload (Channel.self w) = None ->
      Channel._stream (Channel.self w) = None ->
      r = (Raise AssertionError, w))
  /\ Channel.trace (snd r) = Channel.trace w.
Proof.
  intro r. subst r. split; [|split; [|split]].
  - intros p Hc. now rewrite _payload_cases, Hc.
  - intros p. rewrite (_payload_cases twitch w).
    destruct (Channel.cached_payload (Channel.self w)) as [q|] eqn:Hc.
    + cbn [fst snd]. intros [= <-]. split; [exact Hc|].
      now rewrite _payload_cases, Hc.
    + destruct (fst (Channel.compute_payload twitch w)) as [q|e]; cbn [fst snd];
        [|discriminate].
      intros [= <-]. split; [reflexivity|]. now rewrite _payload_cases.
  - intros Hc Hs. rewrite _payload_cases, Hc.
    now rewrite (compute_payload_no_stream twitch w Hs).
  - apply _payload_trace.
Qed.

Lemma _payload_frame (twitch : Twitch) (w : Channel.World) :
  let c := Channel.self w in
  let c' := Channel.self (snd (Channel._payload twitch w)) in
  Channel.id c' = Channel.id c /\ Channel._login c' = Channel._login c
  /\ Channel._display_name c' = Channel._display_name c
  /\ Channel._spade_url c' = Channel._spade_url c
  /\ Channel.points c' = Channel.points c
  /\ Channel._stream c' = Channel._stream c
  /\ Channel._pending_stream_up c' = Channel._pending_stream_up c
  /\ Channel.priority c' = Channel.priority c
  /\ (Channel.cached_payload c' = Channel.cached_payload c
      \/ Channel._stream c <> None).
Proof.
  cbv zeta. rewrite _payload_cases.
  destruct (Channel.cached_payload (Channel.self w)) eqn:Hc;
    [cbn [snd]; repeat split; auto|].
  destruct (Channel._stream (Channel.self w)) eqn:Hs.
  - destruct (fst (Channel.compute_payload twitch w)); cbn [snd];
      repeat split; try reflexivity; auto; right; discriminate.
  - rewrite (compute_payload_no_stream twitch w Hs). cbn [fst snd].
    repeat split; auto.
Qed.

Lemma get_spade_url_self (BASE_URL : string) (twitch : Twitch) (w : Channel.World) :
  Channel.self (snd (Channel.get_spade_url BASE_URL twitch w)) = Channel.self w.
Proof.
  rewrite get_spade_url_unfold. cbv zeta.
  destruct (request twitch (Channel.trace w) GET _ None) as [page|e]; [|reflexivity].
  destruct (re_search RE_I Channel.settings_pattern (text page)) as [u|];
    [|reflexivity].
  destruct (request twitch _ GET u None) as [script|e]; [|reflexivity].
  destruct (re_search RE_I Channel.spade_pattern (text script)); reflexivity.
Qed.

Lemma get_spade_url_asks (BASE_URL : string) (twitch : Twitch) (w : Channel.World) :
  exists more,
    events_of (Channel.get_spade_url BASE_URL twitch) w
    = EvRequest GET (ustr_of_string (Channel.url BASE_URL (Channel.self w))) None
        :: more
    /\ (List.length more <= 1)%nat /\ forallb is_get more = true.
Proof.
  assert (Hev : forall evs,
             Channel.trace (snd (Channel.get_spade_url BASE_URL twitch w))
             = (Channel.trace w ++ evs)%list ->
             events_of (Channel.get_spade_url BASE_URL twitch) w = evs).
  { intros evs H. now apply events_of_app. }
  pose proof (get_spade_url_unfold BASE_URL twitch w) as Hu. cbv zeta in Hu.
  destruct (request twitch (Channel.trace w) GET _ None) as [page|e].
  - destruct (re_search RE_I Channel.settings_pattern (text page)) as [u|].
    + exists [EvRequest GET u None]. split; [|split; [cbn; lia | reflexivity]].
      apply Hev. rewrite Hu.
      destruct (request twitch _ GET u None) as [script|e];
        [destruct (re_search RE_I Channel.spade_pattern (text script))|];
        cbn [snd Channel.trace]; now rewrite <- List.app_assoc.
    + exists []. split; [|split; [cbn; lia | reflexivity]].
      apply Hev. now rewrite Hu.
  - exists []. split; [|split; [cbn; lia | reflexivity]].
    apply Hev. now rewrite Hu.
Qed.

(** X16.  [get_spade_url] never writes to the channel.  It asks for the
    channel page first and for at most one more document, both with GET and
    without a body; when the page cannot be fetched it raises what the client
    raised and asks nothing more. *)
Theorem get_spade_url_frame (BASE_URL : string) (twitch : Twitch) (w : Channel.World) :
  let r := Channel.get_spade_url BASE_URL twitch w in
  let page_url :=
    ustr_of_string (BASE_URL ++ "/" ++ Channel._login (Channel.self w)) in
  Channel.self (snd r) = Channel.self w
  /\ (exists more,
        events_of (Channel.get_spade_url BASE_URL twitch) w
        = EvRequest GET page_url None :: more
        /\ (List.length more <= 1)%nat /\ forallb is_get more = true)
  /\ (forall e,
        request twitch (Channel.trace w) GET page_url None = Raise e ->
        fst r = Raise e
        /\ events_of (Channel.get_spade_url BASE_URL twitch) w
           = [EvRequest GET page_url None]).
Proof.
  intros r page_url. subst r.
  split; [apply get_spade_url_self|]. split; [apply get_spade_url_asks|].
  intros e He.
  pose proof (get_spade_url_unfold BASE_URL twitch w) as Hu. cbv zeta in Hu.
  change (ustr_of_string (Channel.url BASE_URL (Channel.self w))) with page_url in Hu.
  rewrite He in Hu. split; [now rewrite Hu|].
  apply events_of_app. now rewrite Hu.
Qed.

Section SenderFacts.
Variable BASE_URL : string.
Variable twitch : Twitch.

Local Abbreviation send_watch := (Channel.send_watch BASE_URL twitch).
Local Abbreviation get_spade_url := (Channel.get_spade_url BASE_URL twitch).

Lemma send_watch_post_eq (w : Channel.World) (u : ustr) :
  Channel._spade_url (Channel.self w) = Some u ->
  Channel.except_RequestException
    (Channel.bind Channel.get_self (fun c =>
       match Channel._spade_url c with
       | None => Channel.raise TypeError
       | Some spade_url =>
           Channel.bind (Channel._payload twitch) (fun data =>
           Channel.bind (Channel.twitch_request twitch POST spade_url (Some data))
             (fun response => Channel.ret (status response =? 204)%Z))
       end))
    (Channel.ret false) w
  = send_watch_post twitch u w.
Proof.
  intro Hu. unfold Channel.except_RequestException, send_watch_post.
  unfold Channel.bind at 1. unfold Channel.get_self at 1. rewrite Hu.
  unfold Channel.bind at 1.
  destruct (Channel._payload twitch w) as [[data|e] w2].
  - unfold_m. destruct (request twitch _ _ _ _) as [resp|[]]; reflexivity.
  - destruct e; reflexivity.
Qed.

Lemma send_watch_unfold (w : Channel.World) :
  send_watch w
  = if Channel.online (Channel.self w) then
      match Channel._spade_url (Channel.self w) with
      | Some u => send_watch_post twitch u w
      | None =>
          match get_spade_url w with
          | (Ok u, w1) =>
              send_watch_post twitch u
                {| Channel.self := Channel.set_spade_url (Channel.self w1) (Some u);
                   Channel.trace := Channel.trace w1 |}
          | (Raise e, w1) => (Raise e, w1)
          end
      end
    else (Ok false, w).
Proof.
  unfold Channel.send_watch.
  unfold Channel.bind at 1. unfold Channel.get_self at 1.
  destruct (Channel.online (Channel.self w)); [|reflexivity]. cbn [negb].
  unfold Channel.bind at 1.
  destruct (Channel._spade_url (Channel.self w)) as [u|] eqn:Hu.
  - unfold Channel.ret at 1. now apply send_watch_post_eq.
  - unfold Channel.bind at 1.
    destruct (Channel.get_spade_url BASE_URL twitch w) as [[u|e] w1]; [|reflexivity].
    unfold Channel.update at 1. now apply send_watch_post_eq.
Qed.

Lemma send_watch_post_frame (u : ustr) (w : Channel.World) :
  let c := Channel.self w in
  let c' := Channel.self (snd (send_watch_post twitch u w)) in
  Channel.self (snd (send_watch_post twitch u w))
  = Channel.self (snd (Channel._payload twitch w))
  /\ exists evs,
       Channel.trace (snd (send_watch_post twitch u w)) = (Channel.trace w ++ evs)%list
       /\ (evs = [] \/ exists data, evs = [EvRequest POST u (Some data)]).
Proof.
  cbv zeta. unfold send_watch_post.
  pose proof (_payload_trace twitch w) as Ht.
  destruct (Channel._payload twitch w) as [[data|e] w2]; cbn [snd] in *.
  - destruct (request twitch _ _ _ _) as [resp|[]]; cbn [snd Channel.self Channel.trace];
      (split; [reflexivity|]); rewrite Ht; eexists; split; try reflexivity;
      right; eexists; reflexivity.
  - destruct e; cbn [snd]; (split; [reflexivity|]); rewrite Ht; exists [];
      rewrite List.app_nil_r; auto.
Qed.

Lemma send_watch_fields (w : Channel.World) :
  let c := Channel.self w in
  let c' := Channel.self (snd (send_watch w)) in
  Channel.id c' = Channel.id c /\ Channel._login c' = Channel._login c
  /\ Channel._display_name c' = Channel._display_name c
  /\ Channel.points c' = Channel.points c
  /\ Channel._stream c' = Channel._stream c
  /\ Channel._pending_stream_up c' = Channel._pending_stream_up c
  /\ Channel.priority c' = Channel.priority c.
Proof.
  cbv zeta. rewrite send_watch_unfold.
  destruct (Channel.online (Channel.self w)); [|cbn [snd]; repeat split].
  destruct (Channel._spade_url (Channel.self w)) as [u|].
  - destruct (send_watch_post_frame u w) as [-> _].
    destruct (_payload_frame twitch w) as (H1 & H2 & H3 & _ & H5 & H6 & H7 & H8 & _).
    repeat split; assumption.
  - pose proof (get_spade_url_self BASE_URL twitch w) as Hself.
    destruct (Channel.get_spade_url BASE_URL twitch w) as [[u|e] w1];
      cbn [snd] in *.
    + match goal with |- context [send_watch_post twitch u ?x] =>
        destruct (send_watch_post_frame u x) as [-> _];
        destruct (_payload_frame twitch x)
          as (H1 & H2 & H3 & _ & H5 & H6 & H7 & H8 & _) end.
      cbn [Channel.self Channel.set_spade_url Channel.id Channel._login
             Channel._display_name Channel.points Channel._stream
             Channel._pending_stream_up Channel.priority] in *.
      rewrite Hself in *. repeat split; assumption.
    + rewrite Hself. repeat split.
Qed.

(** X17.  [send_watch] writes only the spade URL and the memoized payload: the
    id, the names, the points, the stream, the pending task and the priority
    are as before, and so are the three status queries, whatever the
    collaborators answer or raise.  All it asks of them is requests. *)
Theorem send_watch_frame (w : Channel.World) :
  let c := Channel.self w in
  let c' := Channel.self (snd (send_watch w)) in
  Channel.id c' = Channel.id c /\ Channel._login c' = Channel._login c
  /\ Channel._display_name c' = Channel._display_name c
  /\ Channel.points c' = Channel.points c
  /\ Channel._stream c' = Channel._stream c
  /\ Channel._pending_stream_up c' = Channel._pending_stream_up c
  /\ Channel.priority c' = Channel.priority c
  /\ Channel.online c' = Channel.online c
  /\ Channel.offline c' = Channel.offline c
  /\ Channel.pending_online c' = Channel.pending_online c.
Proof.
  cbv zeta. destruct (send_watch_fields w) as (H1 & H2 & H3 & H4 & H5 & H6 & H7).
  repeat (split; [assumption|]).
  unfold Channel.online, Channel.offline, Channel.pending_online.
  rewrite H5, H6. repeat split.
Qed.

(** X18.  A failure to resolve the spade URL is not absorbed: when the channel
    is online, has no spade URL yet and [get_spade_url] raises, be it an
    extraction error or the transport's own exception, [send_watch] raises the
    same.  No POST is made, no spade URL is kept, and the memoized payload is
    as before. *)
Theorem send_watch_resolution_failure (w : Channel.World) (e : Exn) :
  Channel.online (Channel.self w) = true ->
  Channel._spade_url (Channel.self w) = None ->
  fst (get_spade_url w) = Raise e ->
  send_watch w = (Raise e, snd (get_spade_url w))
  /\ Channel.self (snd (send_watch w)) = Channel.self w
  /\ forallb is_get (events_of send_watch w) = true.
Proof.
  intros Hon Hu He.
  assert (Hs : send_watch w = (Raise e, snd (get_spade_url w))).
  { rewrite send_watch_unfold, Hon, Hu.
    destruct (Channel.get_spade_url BASE_URL twitch w) as [[u|e'] w1];
      cbn [fst snd] in *; congruence. }
  split; [exact Hs|]. split; [rewrite Hs; apply get_spade_url_self|].
  destruct (get_spade_url_asks BASE_URL twitch w) as (more & Hev & _ & Hget).
  unfold events_of, exec in *. rewrite Hs. cbn [snd]. rewrite Hev.
  cbn [forallb is_get]. exact Hget.
Qed.

(** X19.  The spade URL and the payload are obtained once.  After a
    [send_watch] on an online channel that returned, the channel holds a spade
    URL and a memoized payload, and the next [send_watch] asks the
    collaborators for one thing only: the POST of that payload to that URL.
    Its answer is whether the status is 204, [False] when the transport raises
    its own exception, and any other exception as it is. *)
Theorem send_watch_reuses_url_and_payload (w : Channel.World) (b : bool) :
  Channel.online (Channel.self w) = true ->
  fst (send_watch w) = Ok b ->
  let w' := snd (send_watch w) in
  exists u data,
    Channel._spade_url (Channel.self w') = Some u
    /\ Channel.cached_payload (Channel.self w') = Some data
    /\ events_of send_watch w' = [EvRequest POST u (Some data)]
    /\ fst (send_watch w')
       = match request twitch (Channel.trace w') POST u (Some data) with
         | Ok response => Ok (status response =? 204)%Z
         | Raise RequestException => Ok false
         | Raise e => Raise e
         end.
Proof.
  intros Hon Hok w'.
  assert (Hon' : Channel.online (Channel.self w') = true).
  { destruct (send_watch_fields w) as (_ & _ & _ & _ & H & _).
    subst w'. unfold Channel.online in *. now rewrite H. }
  assert (Hpost : forall x u,
             Channel._stream (Channel.self x) <> None ->
             Channel._spade_url (Channel.self x) = Some u ->
             exists data,
               Channel._spade_url (Channel.self (snd (send_watch_post twitch u x)))
               = Some u
               /\ Channel.cached_payload
                    (Channel.self (snd (send_watch_post twitch u x))) = Some data).
  { intros x u Hs Hu.
    destruct (send_watch_post_frame u x) as [-> _].
    destruct (_payload_frame twitch x) as (_ & _ & _ & Hsp & _).
    rewrite Hsp, Hu.
    rewrite _payload_cases in *.
    destruct (Channel.cached_payload (Channel.self x)) as [p|] eqn:Hc.
    - exists p. cbn [snd]. auto.
    - destruct (Channel._stream (Channel.self x)) as [s|] eqn:Hst; [|contradiction].
      destruct (compute_payload_online twitch x s Hst) as (data & Hcp & _).
      rewrite Hcp. cbn [fst snd]. eexists. split; reflexivity. }
  assert (Hstream : Channel._stream (Channel.self w) <> None).
  { unfold Channel.online, is_not_None, is_None in Hon.
    destruct (Channel._stream (Channel.self w)); [discriminate|discriminate]. }
  assert (Hkept : exists u data,
             Channel._spade_url (Channel.self w') = Some u
             /\ Channel.cached_payload (Channel.self w') = Some data).
  { subst w'. rewrite send_watch_unfold in *. rewrite Hon in *.
    destruct (Channel._spade_url (Channel.self w)) as [u|] eqn:Hu.
    - destruct (Hpost w u Hstream Hu) as (data & H1 & H2). now exists u, data.
    - pose proof (get_spade_url_self BASE_URL twitch w) as Hself.
      destruct (Channel.get_spade_url BASE_URL twitch w) as [[u|e] w1];
        cbn [fst snd] in *; [|discriminate].
      match goal with |- context [send_watch_post twitch u ?x] =>
        destruct (Hpost x u) as (data & H1 & H2) end.
      + cbn [Channel.self Channel.set_spade_url Channel._stream]. now rewrite Hself.
      + reflexivity.
      + now exists u, data. }
  destruct Hkept as (u & data & Hu & Hc). exists u, data.
  split; [exact Hu|]. split; [exact Hc|].
  assert (Hsw : send_watch w' = send_watch_post twitch u w').
  { now rewrite send_watch_unfold, Hon', Hu. }
  assert (Hp : Channel._payload twitch w' = (Ok data, w')).
  { now rewrite _payload_cases, Hc. }
  unfold send_watch_post in Hsw. rewrite Hp in Hsw. cbv zeta in Hsw.
  split.
  - apply events_of_app. rewrite Hsw.
    destruct (request twitch _ _ _ _) as [resp|[]]; reflexivity.
  - rewrite Hsw. destruct (request twitch _ _ _ _) as [resp|[]]; reflexivity.
Qed.

End SenderFacts.

(* ================================================================== *)
(** * Further properties: the memoized payload across calls *)

Section CacheFacts.
Variables (BASE_URL DROPS_ENABLED_TAG : string).
Variable twitch : Twitch.

Lemma run_call_cache_needs_stream (c : Call) (w : Channel.World) :
  cache_needs_stream (Channel.self w) ->
  cache_needs_stream (Channel.self (run_call BASE_URL DROPS_ENABLED_TAG twitch c w)).
Proof.
  unfold cache_needs_stream. intro Hinv.
  destruct c as [[| | |]| | | | | v | add |]; cbn [run_call run_op]; unfold exec.
  - rewrite set_online_cases. cbn [snd].
    destruct (Channel.offline (Channel.self w)); [cbn|]; exact Hinv.
  - rewrite set_offline_cases. cbn [snd].
    destruct (Channel._pending_stream_up (Channel.self w)),
      (Channel._stream (Channel.self w)) eqn:Hs; cbn; auto.
    all: rewrite ?Hs; auto.
  - rewrite check_online_unfold.
    destruct (get_stream_frame DROPS_ENABLED_TAG twitch w)
      as (_ & _ & _ & Hst & _ & _ & Hca & _).
    destruct (Channel.get_stream DROPS_ENABLED_TAG twitch w) as [[[s|]|e] w1];
      cbn [snd] in *; cbn; try discriminate; auto.
    rewrite Hst, Hca. exact Hinv.
  - destruct (Channel.pending_online (Channel.self w)); [|exact Hinv].
    rewrite _online_delay_unfold.
    match goal with |- context [Channel.get_stream _ _ ?w0] =>
      destruct (get_stream_frame DROPS_ENABLED_TAG twitch w0)
        as (_ & _ & _ & Hst & _ & _ & Hca & _);
      destruct (Channel.get_stream DROPS_ENABLED_TAG twitch w0) as [[[s|]|e] w1] end;
      cbn [snd] in *; cbn; try discriminate; auto.
    rewrite Hst, Hca. exact Hinv.
  - destruct (get_stream_frame DROPS_ENABLED_TAG twitch w)
      as (_ & _ & _ & Hst & _ & _ & Hca & _).
    rewrite Hst, Hca. exact Hinv.
  - rewrite get_spade_url_self. exact Hinv.
  - destruct (_payload_frame twitch w) as (_ & _ & _ & _ & _ & Hst & _ & _ & Hca).
    rewrite Hst. intro Hs. destruct Hca as [-> | Hne]; [auto | contradiction].
  - destruct (send_watch_fields BASE_URL twitch w) as (_ & _ & _ & _ & Hst & _).
    rewrite Hst. intro Hs.
    rewrite send_watch_unfold. unfold Channel.online, is_not_None. rewrite Hs.
    cbn. auto.
  - destruct_world w. unfold Channel.viewers_setter, Channel.update.
    cbn in *. destruct _stream; cbn; [discriminate | exact Hinv].
  - exact Hinv.
  - destruct_world w. unfold Channel.remove. unfold_m. cbn in *.
    destruct _pending_stream_up; cbn; exact Hinv.
Qed.

(** X20.  A memoized payload is only ever held together with a stream: if that
    is so of a channel, it is so after any sequence of calls on it, whatever
    the collaborators answer. *)
Theorem cache_needs_stream_kept (calls : list Call) (w : Channel.World) :
  cache_needs_stream (Channel.self w) ->
  cache_needs_stream
    (Channel.self (run_calls BASE_URL DROPS_ENABLED_TAG twitch calls w)).
Proof.
  revert w. induction calls as [|c calls IH]; intros w Hinv; [exact Hinv|].
  cbn [run_calls]. apply IH. now apply run_call_cache_needs_stream.
Qed.

(** X21.  Going online never serves an old payload.  When a channel that holds
    no stream, and so no memoized payload, adopts one, by [check_online] or by
    the delayed confirmation, the payload answered next decodes to the events
    of the adopted stream. *)
Theorem payload_fresh_after_going_online (w w' : Channel.World) :
  cache_needs_stream (Channel.self w) ->
  Channel._stream (Channel.self w) = None ->
  (Channel.check_online DROPS_ENABLED_TAG twitch w = (Ok true, w')
   \/ (Channel._online_delay DROPS_ENABLED_TAG twitch w = (Ok tt, w')
       /\ Channel.online (Channel.self w') = true)) ->
  exists s data,
    Channel._stream (Channel.self w') = Some s
    /\ fst (Channel._payload twitch w') = Ok (JObj [("data", JStr data)])
    /\ decode_payload (JObj [("data", JStr data)])
       = Some (minute_watched (Channel.id (Channel.self w')) (Stream.broadcast_id s)
                 (_user_id twitch)).
Proof.
  intros Hinv Hs Hadopt.
  assert (Hstate : exists s, Channel._stream (Channel.self w') = Some s
                             /\ Channel.cached_payload (Channel.self w') = None).
  { pose proof (Hinv Hs) as Hc. destruct Hadopt as [Hck | [Hod Hon]].
    - rewrite check_online_unfold in Hck.
      destruct (get_stream_frame DROPS_ENABLED_TAG twitch w)
        as (_ & _ & _ & _ & _ & _ & Hca & _).
      destruct (Channel.get_stream DROPS_ENABLED_TAG twitch w) as [[[s|]|e] w1];
        cbn [snd] in *; try discriminate.
      injection Hck as <-. exists s. cbn. now rewrite Hca.
    - rewrite _online_delay_unfold in Hod.
      match type of Hod with context [Channel.get_stream _ _ ?w0] =>
        destruct (get_stream_frame DROPS_ENABLED_TAG twitch w0)
          as (_ & _ & _ & _ & _ & _ & Hca & _);
        destruct (Channel.get_stream DROPS_ENABLED_TAG twitch w0) as [[[s|]|e] w1] end;
        cbn [snd] in *; try discriminate.
      + injection Hod as <-. exists s. cbn. now rewrite Hca.
      + injection Hod as <-. cbn in Hon. discriminate. }
  destruct Hstate as (s & Hs' & Hc'). exists s.
  destruct (compute_payload_online twitch w' s Hs') as (data & Hcp & Hdec).
  exists data. split; [exact Hs'|]. split; [|exact Hdec].
  now rewrite _payload_cases, Hc', Hcp.
Qed.

End CacheFacts.

(* ================================================================== *)
(** * The further properties on sample runs *)

(** The drops tag after another tag and before something that is no tag. *)
Lemma any_drops_tag_in_order_witness :
  Forall (other_tag sample_tag) [JObj [("id", JStr "other")]]
  /\ Stream.any_drops_tag sample_tag
       ([JObj [("id", JStr "other")]] ++ JObj [("id", JStr sample_tag)] :: [JNull])%list
     = Ok true.
Proof.
  assert (Hpre : Forall (other_tag sample_tag) [JObj [("id", JStr "other")]]).
  { constructor; [|constructor]. exists (JStr "other"). split; reflexivity. }
  split; [exact Hpre|].
  exact (proj1 (proj2 (any_drops_tag_in_order sample_tag _ [JNull]
                         (JObj [("id", JStr sample_tag)]) Hpre)) eq_refl).
Defined.

(** The lookup answer of the live sample channel gives the sample stream. *)
Lemma from_get_stream_well_formed_witness :
  Stream.from_get_stream sample_tag (sample_live_user "100") = Ok sample_stream.
Proof.
  assert (Htags : Forall (fun t => exists i, getitem t "id" = Ok i) sample_tags).
  { constructor; [eexists; reflexivity|]. constructor; [eexists; reflexivity|].
    constructor. }
  exact (from_get_stream_well_formed sample_tag (sample_live_user "100")
           (JObj [("id", JStr "100"); ("viewersCount", JInt 500);
                  ("tags", JList sample_tags)])
           (JObj [("game", JObj [("id", JStr "33"); ("name", JStr "Chess")]);
                  ("title", JStr "hello")])
           (JStr "100") (JObj [("id", JStr "33"); ("name", JStr "Chess")])
           sample_tags 100 500 "hello"
           (Some {| game_id := 33; game_name := "Chess" |})
           eq_refl eq_refl eq_refl eq_refl eq_refl
           (ex_intro _ {| game_id := 33; game_name := "Chess" |} (conj eq_refl eq_refl))
           eq_refl eq_refl eq_refl Htags).
Defined.

(** The sample directory entry and the sample lookup answer build the same
    stream. *)
Lemma from_directory_agrees_with_from_get_stream_witness :
  Stream.from_directory sample_tag sample_directory_entry
  = Stream.from_get_stream sample_tag (sample_live_user "100")
  /\ Stream.from_directory sample_tag sample_directory_entry = Ok sample_stream.
Proof.
  split; [|reflexivity].
  exact (from_directory_agrees_with_from_get_stream sample_tag
           (sample_live_user "100") sample_directory_entry
           (JObj [("id", JStr "100"); ("viewersCount", JInt 500);
                  ("tags", JList sample_tags)])
           (JObj [("game", JObj [("id", JStr "33"); ("name", JStr "Chess")]);
                  ("title", JStr "hello")])
           eq_refl eq_refl eq_refl eq_refl eq_refl eq_refl eq_refl).
Defined.

(** [Channel.from_name(twitch, "bob")] with a client that finds the channel
    live. *)
Lemma from_name_state_witness :
  let r := Channel.from_name sample_tag sample_live_twitch "bob" false sample_world in
  Channel._stream (Channel.self (snd r)) = Some sample_stream
  /\ Channel._login (Channel.self (snd r)) = "bob"
  /\ Channel.cached_payload (Channel.self (snd r)) = None.
Proof.
  intro r.
  destruct (from_name_state sample_tag sample_live_twitch "bob" false sample_world
              (Channel.set_id sample_channel 0) eq_refl)
    as (_ & Hs & Hl & _ & _ & Hc & _).
  split; [exact Hs|]. split; [exact Hl | exact Hc].
Defined.

(** A lookup by a client that does not know the channel. *)
Lemma get_stream_without_user_witness :
  Channel.get_stream sample_tag sample_unknown_twitch sample_world
  = (Ok None, asked_stream sample_world).
Proof.
  apply (get_stream_without_user sample_tag sample_unknown_twitch sample_world
           (sample_response JNull) eq_refl).
  right. exists (JObj [("user", JNull)]), JNull.
  split; [reflexivity|]. split; reflexivity.
Defined.

(** The pending sample channel confirmed by a client that finds it live. *)
Lemma online_delay_adopts_stream_witness :
  let r := Channel._online_delay sample_tag sample_live_twitch sample_pending_world in
  Channel.pending_online (Channel.self sample_pending_world) = true
  /\ fst r = Ok tt
  /\ Channel._stream (Channel.self (snd r)) = Some sample_stream
  /\ Channel.pending_online (Channel.self (snd r)) = false.
Proof.
  intro r.
  destruct (online_delay_adopts_stream sample_tag sample_live_twitch
              sample_pending_world sample_stream eq_refl)
    as (Hr & Hs & _ & Hp & _).
  split; [reflexivity|]. split; [exact Hr|]. split; [exact Hs | exact Hp].
Defined.

(** The pending sample channel confirmed while the transport is down. *)
Lemma online_delay_failure_stays_pending_witness :
  let r := Channel._online_delay sample_tag sample_failing_twitch sample_pending_world in
  fst r = Raise RequestException
  /\ Channel.pending_online (Channel.self (snd r)) = true
  /\ Channel.set_online (snd r) = (Ok tt, snd r).
Proof.
  intro r.
  destruct (online_delay_failure_stays_pending sample_tag sample_failing_twitch
              sample_pending_world RequestException eq_refl)
    as (Hr & _ & _ & _ & Hp).
  split; [exact Hr|]. exact (Hp eq_refl).
Defined.

(** [set_online] and then [set_offline] on the offline sample channel. *)
Lemma set_offline_undoes_set_online_witness :
  let w2 := exec Channel.set_offline (exec Channel.set_online sample_world) in
  Channel.self w2 = sample_channel
  /\ Channel.trace w2
     = [EvCreateTask 0%nat; EvDisplay false; EvCancel 0%nat; EvDisplay false].
Proof.
  exact (set_offline_undoes_set_online sample_world eq_refl).
Defined.

(** The first heartbeat of the live sample channel while the transport is
    down: the exception of the page fetch comes out of [send_watch]. *)
Lemma send_watch_resolution_failure_witness :
  fst (Channel.send_watch sample_base_url sample_failing_twitch sample_online_world)
  = Raise RequestException
  /\ Channel.self
       (snd (Channel.send_watch sample_base_url sample_failing_twitch
               sample_online_world))
     = Channel.self sample_online_world.
Proof.
  destruct (send_watch_resolution_failure sample_base_url sample_failing_twitch
              sample_online_world RequestException eq_refl eq_refl eq_refl)
    as (Hs & Hself & _).
  split; [now rewrite Hs | exact Hself].
Defined.

(** The second heartbeat of the live sample channel is one POST. *)
Lemma send_watch_reuses_url_and_payload_witness :
  let w' := snd (Channel.send_watch sample_base_url sample_live_twitch
                   sample_online_world) in
  fst (Channel.send_watch sample_base_url sample_live_twitch sample_online_world)
  = Ok true
  /\ exists u data,
       Channel._spade_url (Channel.self w') = Some u
       /\ Channel.cached_payload (Channel.self w') = Some data
       /\ events_of (Channel.send_watch sample_base_url sample_live_twitch) w'
          = [EvRequest POST u (Some data)].
Proof.
  intro w'.
  assert (Hok : fst (Channel.send_watch sample_base_url sample_live_twitch
                       sample_online_world) = Ok true)
    by (vm_compute; reflexivity).
  split; [exact Hok|].
  destruct (send_watch_reuses_url_and_payload sample_base_url sample_live_twitch
              sample_online_world true eq_refl Hok)
    as (u & data & Hu & Hc & Hev & _).
  exists u, data. split; [exact Hu|]. split; [exact Hc | exact Hev].
Defined.

(** A day of the sample channel: found live, heartbeat, set offline,
    announced again, confirmed, removed. *)
Lemma cache_needs_stream_kept_witness :
  cache_needs_stream
    (Channel.self
       (run_calls sample_base_url sample_tag restarting_twitch
          [CallOp OpCheckOnline; CallSendWatch; CallSetViewers 7;
           CallOp OpSetOffline; CallOp OpSetOnline; CallOp OpOnlineDelay;
           CallPayload; CallDisplay true; CallRemove]
          sample_world)).
Proof.
  apply (cache_needs_stream_kept sample_base_url sample_tag restarting_twitch).
  intros _. reflexivity.
Defined.

(** The sample channel goes live again on broadcast 200 after broadcast 100
    ended: the payload is for broadcast 200. *)
Lemma payload_fresh_after_going_online_witness :
  let w' := exec (Channel.check_online sample_tag restarting_twitch)
              sample_stopped_world in
  exists s data,
    Channel._stream (Channel.self w') = Some s
    /\ Stream.broadcast_id s = 200
    /\ fst (Channel._payload restarting_twitch w') = Ok (JObj [("data", JStr data)])
    /\ decode_payload (JObj [("data", JStr data)])
       = Some (minute_watched 1234 200 42).
Proof.
  intro w'.
  assert (Hck : Channel.check_online sample_tag restarting_twitch sample_stopped_world
                = (Ok true, w')) by (vm_compute; reflexivity).
  destruct (payload_fresh_after_going_online sample_tag restarting_twitch
              sample_stopped_world w' (fun _ => eq_refl) eq_refl (or_introl Hck))
    as (s & data & Hs & Hp & Hd).
  exists s, data. split; [exact Hs|].
  assert (Hb : Stream.broadcast_id s = 200).
  { assert (H : Channel._stream (Channel.self w')
                = Some {| Stream.broadcast_id := 200; Stream.viewers := 500;
                          Stream.drops_enabled := true;
                          Stream.game := Some {| game_id := 33; game_name := "Chess" |};
                          Stream.title := "hello" |}) by (vm_compute; reflexivity).
    rewrite Hs in H. now injection H as ->. }
  split; [exact Hb|]. split; [exact Hp|].
  rewrite Hd, Hb. reflexivity.
Defined.
